(** * Franka cube tasks: control law, episode reset and reward/termination

    A shallow embedding of the per-tick core of the three Isaac Gym tasks
    [franka_cube_push.py], [franka_cube_slide.py] and [franka_cube_throw.py].

    Conventions of the embedding.
    - Floating-point tensors are tensors of real numbers ([R]): rounding,
      overflow and not-a-number values are outside the model.  Integer
      ([long]) tensors are tensors of [Z].
    - A tensor whose leading dimension is the environment batch is a [list]
      indexed by environment; a row of three floats is a [vec3], a row of
      thirteen floats (pose, linear and angular velocity) is a [RigidState].
    - Errors raised by Python or by torch ([KeyError], [ValueError],
      [IndexError], shape mismatches, singular matrices) are values of the
      [result] monad.
    - The simulator and the random number generator are not part of the
      code: what they write into the shared buffers is an explicit argument
      of the function that triggers the refresh or the sampling. *)

From Stdlib Require Import Reals Lra Lia ZArith.
From stdpp Require Import base option list gmap strings.

Local Open Scope R_scope.

(** ** Errors *)

Inductive error : Type :=
  | ShapeError                 (* torch: operands cannot be broadcast *)
  | KeyError (key : string)    (* dict lookup of an absent key *)
  | ValueError                 (* raised explicitly by the task code *)
  | IndexError                 (* index out of range *)
  | LinAlgError.               (* torch.inverse on a singular matrix *)

Inductive result (A : Type) : Type :=
  | Ok (a : A)
  | Err (e : error).
Arguments Ok {A} a.
Arguments Err {A} e.

Definition bind {A B} (m : result A) (f : A → result B) : result B :=
  match m with
  | Ok a => f a
  | Err e => Err e
  end.

Notation "'let*' x := m 'in' k" := (bind m (λ x, k))
  (at level 10, x pattern, m at level 100, k at level 200,
   format "'[v' 'let*'  x  :=  m  'in' '/' k ']'").

Definition is_Ok {A} (m : result A) : Prop := ∃ a, m = Ok a.

(** ** Comparisons on reals, as booleans *)

#[global] Instance Rlt_decision : RelDecision Rlt := Rlt_dec.
#[global] Instance Rle_decision : RelDecision Rle := Rle_dec.
#[global] Instance Rgt_decision : RelDecision Rgt := Rgt_dec.
#[global] Instance Rge_decision : RelDecision Rge := Rge_dec.

(** ** A small tensor library *)

Module Torch.

(** Elementwise binary operation on two tensors with one (leading)
    dimension, with torch's broadcasting rule: equal sizes, or one of the
    two sizes is 1. *)
Definition broadcast2 {A B C} (f : A → B → C) (xs : list A) (ys : list B)
    : result (list C) :=
  if decide (length xs = length ys) then Ok (zip_with f xs ys)
  else match xs, ys with
       | [x], _ => Ok (f x <$> ys)
       | _, [y] => Ok ((λ x, f x y) <$> xs)
       | _, _ => Err ShapeError
       end.

(** [torch.where(cond, a, b)] on tensors with one dimension. *)
Definition where_ {A} (cond : list bool) (a b : list A) : result (list A) :=
  let* ab := broadcast2 pair a b in
  broadcast2 (λ (c : bool) (p : A * A), if c then p.1 else p.2) cond ab.

(** [t[ids] = v]: the scalar [v] is written at every index of [ids]. *)
Fixpoint index_fill {A} (ids : list nat) (v : A) (t : list A) : result (list A) :=
  match ids with
  | [] => Ok t
  | i :: ids' =>
      if decide (i < length t)%nat then index_fill ids' v (<[i:=v]> t)
      else Err IndexError
  end.

(** [t[ids]]: gather the rows at [ids]. *)
Fixpoint index_select {A} (ids : list nat) (t : list A) : result (list A) :=
  match ids with
  | [] => Ok []
  | i :: ids' =>
      match t !! i with
      | Some x => let* xs := index_select ids' t in Ok (x :: xs)
      | None => Err IndexError
      end
  end.

(** [t[ids] = rows]: the k-th row of [rows] is written at the k-th index of
    [ids]; the two sizes must agree (or [rows] has one row, which is
    broadcast). *)
Fixpoint index_put_zip {A} (ids : list nat) (rows : list A) (t : list A)
    : result (list A) :=
  match ids, rows with
  | i :: ids', r :: rows' =>
      if decide (i < length t)%nat then index_put_zip ids' rows' (<[i:=r]> t)
      else Err IndexError
  | _, _ => Ok t
  end.

Definition index_put {A} (ids : list nat) (rows : list A) (t : list A)
    : result (list A) :=
  if decide (length ids = length rows) then index_put_zip ids rows t
  else match rows with
       | [r] => index_fill ids r t
       | _ => Err ShapeError
       end.

(** [torch.clamp(x, min=lo)] on one element. *)
Definition clamp_min (x lo : R) : R := Rmax x lo.

(** A batch of per-environment results is a result: the first error wins. *)
Fixpoint collect {A} (l : list (result A)) : result (list A) :=
  match l with
  | [] => Ok []
  | r :: l' => let* x := r in let* xs := collect l' in Ok (x :: xs)
  end.

(** An in-place operation [xs op= ys] or [xs[...] = ys] on rows: the result
    must have as many rows as [xs]. *)
Definition inplace2 {A B} (f : A → B → result A) (xs : list A) (ys : list B)
    : result (list A) :=
  let* rows := broadcast2 f xs ys in
  let* r := collect rows in
  if decide (length r = length xs) then Ok r else Err ShapeError.

(** Python's and torch's [%] on floats: the result has the sign of the
    divisor, [x - floor (x / m) * m]. *)
Definition remainder (x m : R) : R := x - IZR (Int_part (x / m)) * m.

End Torch.

(** ** Vectors, quaternions and rigid-body rows *)

Record vec3 : Type := Vec3 { vx : R; vy : R; vz : R }.
Record quat : Type := Quat { qx : R; qy : R; qz : R; qw : R }.

Definition vzero : vec3 := Vec3 0 0 0.
Definition vadd (a b : vec3) : vec3 := Vec3 (vx a + vx b) (vy a + vy b) (vz a + vz b).
Definition vsub (a b : vec3) : vec3 := Vec3 (vx a - vx b) (vy a - vy b) (vz a - vz b).
Definition vmul (a b : vec3) : vec3 := Vec3 (vx a * vx b) (vy a * vy b) (vz a * vz b).
Definition vdiv_scalar (a : vec3) (d : R) : vec3 := Vec3 (vx a / d) (vy a / d) (vz a / d).
(** [torch.sum(v, dim=-1)] and [torch.norm(v, dim=-1)] on a row of three. *)
Definition vsum (a : vec3) : R := vx a + vy a + vz a.
Definition vnorm (a : vec3) : R := sqrt (vx a * vx a + vy a * vy a + vz a * vz a).
Definition qnorm (q : quat) : R :=
  sqrt (qx q * qx q + qy q * qy q + qz q * qz q + qw q * qw q).

(** A row of a root-state or rigid-body-state tensor: columns 0-2 position,
    3-6 orientation (x, y, z, w), 7-9 linear and 10-12 angular velocity. *)
Record RigidState : Type := {
  rs_pos : vec3;
  rs_quat : quat;
  rs_lin_vel : vec3;
  rs_ang_vel : vec3;
}.

(** [torch.zeros(13)]. *)
Definition rigid_zeros : RigidState :=
  {| rs_pos := vzero; rs_quat := Quat 0 0 0 0; rs_lin_vel := vzero; rs_ang_vel := vzero |}.

(** ** Matrices and the helpers of [torch_jit_utils] and [torch.linalg]

    The simulator hands out a Jacobian of shape (6, 7) and a mass matrix of
    shape (7, 7) per environment; products of these never fail, so matrix
    products are total functions on rows.  Elementwise operations between a
    task attribute and an argument go through [Torch.broadcast2], whose
    shape check can fail. *)

Definition matrix : Type := list (list R).

Definition dot (xs ys : list R) : R := foldr Rplus 0 (zip_with Rmult xs ys).
Definition ncols (m : matrix) : nat :=
  match m with [] => 0%nat | r :: _ => length r end.
Definition transpose (m : matrix) : matrix :=
  foldr (zip_with cons) (replicate (ncols m) []) m.
Definition matmul (a b : matrix) : matrix :=
  map (λ row, map (dot row) (transpose b)) a.
Definition matvec (a : matrix) (v : list R) : list R := map (λ row, dot row v) a.
Definition msub (a b : matrix) : matrix := zip_with (zip_with Rminus) a b.
Definition eye (n : nat) : matrix :=
  map (λ i, map (λ j, if decide (i = j) then 1 else 0) (seq 0 n)) (seq 0 n).

(** Library and repository functions that are not among the source files
    are parameters of the development. *)
Class TorchLinalg : Type := {
  (** [torch.inverse]; raises on a singular matrix. *)
  torch_inverse : matrix → result matrix;
}.

Class JitUtils : Type := {
  (** [quat_mul] and [quat_conjugate] of [torch_jit_utils]. *)
  quat_mul : quat → quat → quat;
  quat_conjugate : quat → quat;
}.

(** Modelled from the spec: [tensor_clamp(t, min_t, max_t)] of
    [torch_jit_utils], which is not among the source files; "clamped
    elementwise to actuator effort limits", with torch's broadcasting of
    the bounds. *)
Definition tensor_clamp (t lo hi : list R) : result (list R) :=
  let* m := Torch.broadcast2 Rmin t hi in
  Torch.broadcast2 Rmax m lo.

(** Lookup in a [Dict[str, float]]. *)
Definition dict_get (d : gmap string R) (k : string) : result R :=
  match d !! k with
  | Some v => Ok v
  | None => Err (KeyError k)
  end.

(** [torch.cat([a, b], dim=1)]: the leading sizes must agree. *)
Definition cat1 {A} (a b : list (list A)) : result (list (list A)) :=
  if decide (length a = length b) then Ok (zip_with app a b)
  else Err ShapeError.

(** [torch.roll(t, shifts=-1, dims=0)] on one environment's history. *)
Definition roll_left {A} (l : list A) : list A :=
  match l with
  | [] => []
  | x :: l' => l' ++ [x]
  end.

(** ** Operational-space control ([_compute_osc_torques])

    The method is the same text in the three task files; the attributes it
    reads are collected in [OscSelf]. *)

Record OscSelf : Type := {
  kp : list R;
  kd : list R;
  kp_null : list R;
  kd_null : list R;
  franka_default_dof_pos : list R;
  _franka_effort_limits : list R;
}.

(** One environment's slice of the tensors the method reads. *)
Record OscEnv : Type := {
  osc_q : list R;         (* self._q[i] *)
  osc_qd : list R;        (* self._qd[i] *)
  osc_mm : matrix;        (* self._mm[i] *)
  osc_j_eef : matrix;     (* self._j_eef[i] *)
  osc_eef_vel : list R;   (* self.states["eef_vel"][i] *)
}.

(** [(default - q + pi) % (2 * pi) - pi]: the joint-angle error that is
    multiplied by [kp_null]. *)
Definition null_error (default_q q : R) : R :=
  Torch.remainder (default_q - q + PI) (2 * PI) - PI.

Section Osc.
Context `{TorchLinalg}.

(** Everything before the final clamp. *)
Definition osc_unclamped (self : OscSelf) (e : OscEnv) (dpose : list R)
    : result (list R) :=
  let q := take 7 (osc_q e) in
  let qd := take 7 (osc_qd e) in
  let* mm_inv := torch_inverse (osc_mm e) in
  let m_eef_inv := matmul (matmul (osc_j_eef e) mm_inv) (transpose (osc_j_eef e)) in
  let* m_eef := torch_inverse m_eef_inv in
  let* kp_dpose := Torch.broadcast2 Rmult (kp self) dpose in
  let* kd_vel := Torch.broadcast2 Rmult (kd self) (osc_eef_vel e) in
  let* err := Torch.broadcast2 Rminus kp_dpose kd_vel in
  let u := matvec (matmul (transpose (osc_j_eef e)) m_eef) err in
  let j_eef_inv := matmul (matmul m_eef (osc_j_eef e)) mm_inv in
  let* damp := Torch.broadcast2 Rmult (kd_null self) (Ropp <$> qd) in
  let* wrapped := Torch.broadcast2 null_error (take 7 (franka_default_dof_pos self)) q in
  let* prop := Torch.broadcast2 Rmult (kp_null self) wrapped in
  let* u_null := Torch.broadcast2 Rplus damp prop in
  let u_null := matvec (osc_mm e) u_null in
  let proj := msub (eye 7) (matmul (transpose (osc_j_eef e)) j_eef_inv) in
  Torch.broadcast2 Rplus u (matvec proj u_null).

Definition osc_env (self : OscSelf) (e : OscEnv) (dpose : list R) : result (list R) :=
  let* u := osc_unclamped self e dpose in
  tensor_clamp u (Ropp <$> take 7 (_franka_effort_limits self))
                 (take 7 (_franka_effort_limits self)).

(** The batched method: one row of [dpose] per environment. *)
Definition _compute_osc_torques (self : OscSelf) (envs : list OscEnv)
    (dpose : list (list R)) : result (list (list R)) :=
  let* rows := Torch.broadcast2 (osc_env self) envs dpose in
  Torch.collect rows.

End Osc.

(** ** Buffers shared with the simulator and helpers common to the tasks *)

(** The tensors that wrap simulator memory.  Every [gym.refresh_*] call
    overwrites them with what the simulator holds. *)
Record SimBuffers : Type := {
  _cube_state : list RigidState;     (* self._root_state[:, self._cube_id, :] *)
  _eef_state : list RigidState;      (* rigid body state of the hand *)
  _finger_state : list RigidState;   (* rigid body state of the finger tip *)
  _q : list (list R);                (* self._dof_state[..., 0] *)
  _qd : list (list R);               (* self._dof_state[..., 1] *)
  _j_eef : list matrix;
  _mm : list matrix;
}.

Definition set_cube_state (v : list RigidState) (b : SimBuffers) : SimBuffers :=
  {| _cube_state := v; _eef_state := _eef_state b; _finger_state := _finger_state b;
     _q := _q b; _qd := _qd b; _j_eef := _j_eef b; _mm := _mm b |}.
Definition set_q_qd (q qd : list (list R)) (b : SimBuffers) : SimBuffers :=
  {| _cube_state := _cube_state b; _eef_state := _eef_state b;
     _finger_state := _finger_state b;
     _q := q; _qd := qd; _j_eef := _j_eef b; _mm := _mm b |}.

(** The six velocity columns [7:] of a rigid-body row. *)
Definition twist (s : RigidState) : list R :=
  [vx (rs_lin_vel s); vy (rs_lin_vel s); vz (rs_lin_vel s);
   vx (rs_ang_vel s); vy (rs_ang_vel s); vz (rs_ang_vel s)].

(** [torch.cat([pos, quat], dim=1)] on one row. *)
Definition pos_quat_row (p : vec3) (q : quat) : list R :=
  [vx p; vy p; vz p; qx q; qy q; qz q; qw q].

(** What [torch.rand] returns during one [reset_idx] call, in call order:
    element (k, c) of each of the three tensors. *)
Record ResetNoise : Type := {
  rand_init_xy : nat → nat → R;   (* torch.rand(num_resets, 2), cube *)
  rand_goal_xy : nat → nat → R;   (* torch.rand(num_resets, 2), goal *)
  rand_dof : nat → nat → R;       (* torch.rand((len(env_ids), 9)) *)
}.

(** [x[:, -2:] = d[-2:]] on one row. *)
Definition set_last2 (row d : list R) : list R :=
  take (length row - 2) row ++ drop (length d - 2) d.

(** The "Reset agent" block of [reset_idx], the same text in the three
    files: the joint positions written for the k-th index of [env_ids]. *)
Definition sample_dof_pos (default_dof_pos lower upper : list R) (dof_noise : R)
    (noise : nat → nat → R) (k : nat) : result (list R) :=
  let reset_noise := map (noise k) (seq 0 9) in
  let* raw := Torch.broadcast2 Rplus default_dof_pos
          ((λ x, dof_noise * 2.0 * (x - 0.5)) <$> reset_noise) in
  let* pos := tensor_clamp raw lower upper in
  Ok (set_last2 pos default_dof_pos).

(** [t[:] = v]: copy into an existing buffer of one dimension. *)
Definition assign_all {A} (t v : list A) : result (list A) :=
  if decide (length v = length t) then Ok v
  else match v with
       | [x] => Ok (replicate (length t) x)
       | _ => Err ShapeError
       end.

(** [reset_buf.nonzero(as_tuple=False).squeeze(-1)]. *)
Definition nonzero (t : list Z) : list nat :=
  omap (λ p : nat * Z, if decide (p.2 = 0%Z) then None else Some p.1)
       (imap pair t).

(** The termination rule shared by the three reward functions:
    [torch.where((progress_buf >= max_episode_length - 1) | success,
                 torch.ones_like(reset_buf), reset_buf)]. *)
Definition termination (reset_buf progress_buf : list Z) (max_episode_length : R)
    (success_condition : list bool) : result (list Z) :=
  let timeout := (λ p, bool_decide (IZR p >= max_episode_length - 1)) <$> progress_buf in
  let* cond := Torch.broadcast2 orb timeout success_condition in
  Torch.where_ cond ((λ _, 1%Z) <$> reset_buf) reset_buf.

(** [store_proprio_hist], the same text in the three files, on the tensors
    it reads.  The first component is the history buffer after the call,
    also when the call raises. *)
Definition store_hist (num_envs prop_dim : nat) (cube_pos : list vec3)
    (cube_quat : list quat) (proprio_hist_buf : list (list (list R)))
    : list (list (list R)) * result () :=
  match cat1 ((λ p, [vx p; vy p; vz p]) <$> cube_pos)
             ((λ q, [qx q; qy q; qz q; qw q]) <$> cube_quat) with
  | Err e => (proprio_hist_buf, Err e)
  | Ok cube_states =>
      let cube_states_dim := 7%nat in
      let prop_his_buf_dim := prop_dim in
      if decide (prop_his_buf_dim < cube_states_dim)%nat then
        (proprio_hist_buf, Err ValueError)
      else
        let padded :=
          if decide (cube_states_dim < prop_his_buf_dim)%nat then
            let padding := replicate num_envs
                             (replicate (prop_his_buf_dim - cube_states_dim) 0) in
            cat1 cube_states padding
          else Ok cube_states in
        match padded with
        | Err e => (proprio_hist_buf, Err e)
        | Ok cube_states =>
            let rolled := roll_left <$> proprio_hist_buf in
            match Torch.inplace2
                    (λ (hist : list (list R)) (row : list R),
                       match hist with
                       | [] => Err IndexError
                       | _ => Ok (<[(length hist - 1)%nat := row]> hist)
                       end) rolled cube_states with
            | Err e => (rolled, Err e)
            | Ok buf => (buf, Ok ())
            end
        end
  end.

(** ** Axis-angle to quaternion ([axisangle2quat])

    The TorchScript function at the head of the three files, on a batch of
    shape (N, 3).  The result starts as the identity quaternion
    (0, 0, 0, 1) in every row; the rows whose norm exceeds [eps] are
    overwritten with the converted rotation. *)
Definition axisangle2quat (vec : list vec3) (eps : R) : list quat :=
  (λ v,
     let angle := vnorm v in
     if bool_decide (angle > eps)
     then Quat (vx v * sin (angle / 2.0) / angle)
               (vy v * sin (angle / 2.0) / angle)
               (vz v * sin (angle / 2.0) / angle)
               (cos (angle / 2.0))
     else Quat 0 0 0 1.0) <$> vec.


(** ** Exceptions, column writes and concatenation *)

(** Exceptions of the interpreter besides the errors of torch. *)
Inductive exn : Type :=
  | TorchError (e : error)
  | UnboundLocalError (name : string).   (* a local variable read before assignment *)

Inductive outcome (A : Type) : Type :=
  | Returns (a : A)
  | Raises (e : exn).
Arguments Returns {A} a.
Arguments Raises {A} e.

Definition lift {A} (m : result A) : outcome A :=
  match m with
  | Ok a => Returns a
  | Err e => Raises (TorchError e)
  end.

(** [t[:, lo:hi] = v] on one row: the columns from [lo] up to [hi] are
    overwritten, [v] is broadcast when it has one column. *)
Definition assign_cols (lo hi : nat) (row v : list R) : result (list R) :=
  let* mid := assign_all (take (hi - lo) (drop lo row)) v in
  Ok (take lo row ++ mid ++ drop hi row).

(** [quat_to_angle_axis] of [torch_jit_utils]: the rotation angle and the
    unit axis of a quaternion. *)
Class AngleAxis : Type := {
  quat_to_angle_axis : quat → R * vec3;
}.

(** [torch.sigmoid]. *)
Definition sigmoid (x : R) : R := 1 / (1 + exp (- x)).

(** The columns of a row of three and of a quaternion. *)
Definition row3 (v : vec3) : list R := [vx v; vy v; vz v].
Definition row4 (q : quat) : list R := [qx q; qy q; qz q; qw q].

(** [torch.cat(ts, dim=-1)] on tensors of two dimensions: the numbers of
    rows must agree.  The list holds at least one tensor. *)
Fixpoint cat_last {A} (t : list (list A)) (ts : list (list (list A)))
    : result (list (list A)) :=
  match ts with
  | [] => Ok t
  | t' :: ts' => let* joined := cat1 t t' in cat_last joined ts'
  end.

(** * FrankaCubePush ([franka_cube_push.py]) *)

Module Push.

Inductive ControlInput : Type := pose2d | pose3d | pose6d | primitive.

#[global] Instance ControlInput_eq_dec : EqDecision ControlInput.
Proof. solve_decision. Defined.

(** The configuration read by [__init__] and the constants fixed when the
    scene is built. *)
Record Config : Type := {
  num_envs : nat;
  max_episode_length : Z;          (* cfg["env"]["episodeLength"] *)
  control_input : ControlInput;    (* cfg["env"]["controlInput"] *)
  init_cube_pos_noise : R;
  goal_cube_pos_noise : R;
  franka_dof_noise : R;
  posRewardScale : R;
  oriRewardScale : R;
  contactRewardScale : R;
  successRewardScale : R;
  nHoldSteps : R;
  franka_dof_lower_limits : list R;
  franka_dof_upper_limits : list R;
  effort_limits : list R;          (* self._franka_effort_limits *)
  _table_surface_pos : vec3;
  prop_dim : nat;                  (* self.proprio_hist_buf.shape[2] *)
}.

(** [self.reward_settings], built by [__init__]. *)
Definition reward_settings (cfg : Config) : gmap string R :=
  <["r_pos_scale" := posRewardScale cfg]>
  (<["r_ori_scale" := oriRewardScale cfg]>
  (<["r_contact_scale" := contactRewardScale cfg]>
  (<["r_success_scale" := successRewardScale cfg]>
  (<["n_hold_steps" := nHoldSteps cfg]>
  (<["success_threshold" := 0.05]> ∅))))).

Definition default_dof_pos (cfg : Config) : list R :=
  match control_input cfg with
  | pose2d | primitive =>
      [-7.5521e-02; 7.5651e-01; -4.7575e-02; -2.3285; 5.1002e-01;
       3.0750; 1.6528e-01; 1.0002e-03; 9.9984e-04]
  | _ => [0; 0.1963; 0; -2.6180; 0; 2.9416; 0.7854; 0.001; 0.001]
  end.

(** The default gains of [__init__] ([kd] is critically damped). *)
Definition default_kp (cfg : Config) : list R :=
  match control_input cfg with
  | primitive => [200; 200; 200; 500; 500; 500]
  | _ => replicate 6 200
  end.

Definition osc_self (cfg : Config) (kp : list R) : OscSelf :=
  {| kp := kp;
     kd := (λ k, 2 * sqrt k) <$> kp;
     kp_null := replicate 7 10;
     kd_null := (λ k, 2 * sqrt k) <$> replicate 7 10;
     franka_default_dof_pos := default_dof_pos cfg;
     _franka_effort_limits := effort_limits cfg |}.

(** The dict [self.states]; every key is written by [_update_states],
    [cube_size] and [hold_counters] already by [init_data]. *)
Record States : Type := {
  q : list (list R);
  eef_pos : list vec3;
  eef_quat : list quat;
  eef_vel : list (list R);
  finger_pos : list vec3;
  finger_quat : list quat;
  cube_pos : list vec3;
  cube_quat : list quat;
  cube_vel : list vec3;
  cube_contact : list vec3;
  goal_cube_pos : list vec3;
  goal_cube_quat : list quat;
  cube_to_goal_cube_pos : list vec3;
  hold_counters : list R;
  cube_size : list R;
}.

Definition set_hold_counters (v : list R) (s : States) : States :=
  {| q := q s; eef_pos := eef_pos s; eef_quat := eef_quat s; eef_vel := eef_vel s;
     finger_pos := finger_pos s; finger_quat := finger_quat s;
     cube_pos := cube_pos s; cube_quat := cube_quat s; cube_vel := cube_vel s;
     cube_contact := cube_contact s; goal_cube_pos := goal_cube_pos s;
     goal_cube_quat := goal_cube_quat s;
     cube_to_goal_cube_pos := cube_to_goal_cube_pos s;
     hold_counters := v; cube_size := cube_size s |}.

(** The mutable attributes of the task. *)
Record State : Type := {
  progress_buf : list Z;
  reset_buf : list Z;
  rew_buf : list R;
  extras_success : list bool;     (* self.extras['success'] *)
  actions : list (list R);
  states : States;
  sim : SimBuffers;
  _init_cube_state : list RigidState;
  _goal_cube_state : list RigidState;
  _pos_control : list (list R);
  _effort_control : list (list R);
  proprio_hist_buf : list (list (list R));
}.

Definition set_progress_buf (v : list Z) (s : State) : State :=
  {| progress_buf := v; reset_buf := reset_buf s; rew_buf := rew_buf s;
     extras_success := extras_success s; actions := actions s; states := states s;
     sim := sim s; _init_cube_state := _init_cube_state s;
     _goal_cube_state := _goal_cube_state s; _pos_control := _pos_control s;
     _effort_control := _effort_control s; proprio_hist_buf := proprio_hist_buf s |}.
Definition set_reset_buf (v : list Z) (s : State) : State :=
  {| progress_buf := progress_buf s; reset_buf := v; rew_buf := rew_buf s;
     extras_success := extras_success s; actions := actions s; states := states s;
     sim := sim s; _init_cube_state := _init_cube_state s;
     _goal_cube_state := _goal_cube_state s; _pos_control := _pos_control s;
     _effort_control := _effort_control s; proprio_hist_buf := proprio_hist_buf s |}.
Definition set_rew_buf (v : list R) (s : State) : State :=
  {| progress_buf := progress_buf s; reset_buf := reset_buf s; rew_buf := v;
     extras_success := extras_success s; actions := actions s; states := states s;
     sim := sim s; _init_cube_state := _init_cube_state s;
     _goal_cube_state := _goal_cube_state s; _pos_control := _pos_control s;
     _effort_control := _effort_control s; proprio_hist_buf := proprio_hist_buf s |}.
Definition set_extras_success (v : list bool) (s : State) : State :=
  {| progress_buf := progress_buf s; reset_buf := reset_buf s; rew_buf := rew_buf s;
     extras_success := v; actions := actions s; states := states s; sim := sim s;
     _init_cube_state := _init_cube_state s; _goal_cube_state := _goal_cube_state s;
     _pos_control := _pos_control s; _effort_control := _effort_control s;
     proprio_hist_buf := proprio_hist_buf s |}.
Definition set_actions (v : list (list R)) (s : State) : State :=
  {| progress_buf := progress_buf s; reset_buf := reset_buf s; rew_buf := rew_buf s;
     extras_success := extras_success s; actions := v; states := states s;
     sim := sim s; _init_cube_state := _init_cube_state s;
     _goal_cube_state := _goal_cube_state s; _pos_control := _pos_control s;
     _effort_control := _effort_control s; proprio_hist_buf := proprio_hist_buf s |}.
Definition set_states (v : States) (s : State) : State :=
  {| progress_buf := progress_buf s; reset_buf := reset_buf s; rew_buf := rew_buf s;
     extras_success := extras_success s; actions := actions s; states := v;
     sim := sim s; _init_cube_state := _init_cube_state s;
     _goal_cube_state := _goal_cube_state s; _pos_control := _pos_control s;
     _effort_control := _effort_control s; proprio_hist_buf := proprio_hist_buf s |}.
Definition set_sim (v : SimBuffers) (s : State) : State :=
  {| progress_buf := progress_buf s; reset_buf := reset_buf s; rew_buf := rew_buf s;
     extras_success := extras_success s; actions := actions s; states := states s;
     sim := v; _init_cube_state := _init_cube_state s;
     _goal_cube_state := _goal_cube_state s; _pos_control := _pos_control s;
     _effort_control := _effort_control s; proprio_hist_buf := proprio_hist_buf s |}.
Definition set_init_cube_state (v : list RigidState) (s : State) : State :=
  {| progress_buf := progress_buf s; reset_buf := reset_buf s; rew_buf := rew_buf s;
     extras_success := extras_success s; actions := actions s; states := states s;
     sim := sim s; _init_cube_state := v; _goal_cube_state := _goal_cube_state s;
     _pos_control := _pos_control s; _effort_control := _effort_control s;
     proprio_hist_buf := proprio_hist_buf s |}.
Definition set_goal_cube_state (v : list RigidState) (s : State) : State :=
  {| progress_buf := progress_buf s; reset_buf := reset_buf s; rew_buf := rew_buf s;
     extras_success := extras_success s; actions := actions s; states := states s;
     sim := sim s; _init_cube_state := _init_cube_state s; _goal_cube_state := v;
     _pos_control := _pos_control s; _effort_control := _effort_control s;
     proprio_hist_buf := proprio_hist_buf s |}.
Definition set_pos_control (v : list (list R)) (s : State) : State :=
  {| progress_buf := progress_buf s; reset_buf := reset_buf s; rew_buf := rew_buf s;
     extras_success := extras_success s; actions := actions s; states := states s;
     sim := sim s; _init_cube_state := _init_cube_state s;
     _goal_cube_state := _goal_cube_state s; _pos_control := v;
     _effort_control := _effort_control s; proprio_hist_buf := proprio_hist_buf s |}.
Definition set_effort_control (v : list (list R)) (s : State) : State :=
  {| progress_buf := progress_buf s; reset_buf := reset_buf s; rew_buf := rew_buf s;
     extras_success := extras_success s; actions := actions s; states := states s;
     sim := sim s; _init_cube_state := _init_cube_state s;
     _goal_cube_state := _goal_cube_state s; _pos_control := _pos_control s;
     _effort_control := v; proprio_hist_buf := proprio_hist_buf s |}.
Definition set_proprio_hist_buf (v : list (list (list R))) (s : State) : State :=
  {| progress_buf := progress_buf s; reset_buf := reset_buf s; rew_buf := rew_buf s;
     extras_success := extras_success s; actions := actions s; states := states s;
     sim := sim s; _init_cube_state := _init_cube_state s;
     _goal_cube_state := _goal_cube_state s; _pos_control := _pos_control s;
     _effort_control := _effort_control s; proprio_hist_buf := v |}.

Section Methods.
Context `{JitUtils}.

(** [_update_states]: the state dict is rebuilt from the simulator buffers;
    the hold counter is the one stateful entry. *)
Definition _update_states (cfg : Config) (self : State) : result State :=
  let b := sim self in
  let* dists := Torch.broadcast2 vsub (rs_pos <$> _goal_cube_state self)
                                (rs_pos <$> _cube_state b) in
  let dists_norm := vnorm <$> dists in
  let* contact := Torch.broadcast2 vsub (rs_pos <$> _cube_state b)
                                  (rs_pos <$> _finger_state b) in
  let* success_threshold := dict_get (reward_settings cfg) "success_threshold" in
  let* hold := Torch.where_ ((λ d, bool_decide (d < success_threshold)) <$> dists_norm)
                      ((λ h, h + 1) <$> hold_counters (states self)) [0] in
  Ok (set_states
        {| q := _q b;
           eef_pos := rs_pos <$> _eef_state b;
           eef_quat := rs_quat <$> _eef_state b;
           eef_vel := twist <$> _eef_state b;
           finger_pos := rs_pos <$> _finger_state b;
           finger_quat := rs_quat <$> _finger_state b;
           cube_pos := rs_pos <$> _cube_state b;
           cube_quat := rs_quat <$> _cube_state b;
           cube_vel := rs_lin_vel <$> _cube_state b;
           cube_contact := contact;
           goal_cube_pos := rs_pos <$> _goal_cube_state self;
           goal_cube_quat := rs_quat <$> _goal_cube_state self;
           cube_to_goal_cube_pos := dists;
           hold_counters := hold;
           cube_size := cube_size (states self) |} self).

(** [_refresh]: the simulator rewrites its tensors ([snap] is what it
    holds), then the states are updated. *)
Definition _refresh (cfg : Config) (snap : SimBuffers) (self : State) : result State :=
  _update_states cfg (set_sim snap self).

(** [torch.norm(v, dim=-1)] and [torch.mean] on lists of floats. *)
Definition norm_list (l : list R) : R := sqrt (foldr Rplus 0 ((λ x, x * x) <$> l)).
Definition mean (l : list R) : R := foldr Rplus 0 l / INR (length l).

(** [compute_franka_reward], a TorchScript function.  The orientation
    reward and the jerk penalty are computed from the inputs and never
    used; they are bound here and never inspected. *)
Definition compute_franka_reward (reset_buf progress_buf : list Z)
    (actions : list (list R)) (states : States) (reward_settings : gmap string R)
    (max_episode_length : R) : result (list R * list Z * list bool) :=
  let cube_pos := cube_pos states in
  let goal_pos := goal_cube_pos states in
  let* diff := Torch.broadcast2 vsub cube_pos goal_pos in
  let delta_pos := vnorm <$> diff in
  let* n_hold_steps := dict_get reward_settings "n_hold_steps" in
  let success_condition :=
    (λ h, bool_decide (h > n_hold_steps)) <$> hold_counters states in
  let pos_reward := (λ d, 1.0 - tanh (10.0 * d)) <$> delta_pos in
  let cube_quat := cube_quat states in
  let goal_quat := goal_cube_quat states in
  let ori_reward : result (list R) :=
    let* delta_quat := Torch.broadcast2 (λ c g, quat_mul c (quat_conjugate g))
                                  cube_quat goal_quat in
    Ok ((λ dq, 1.0 - tanh (10.0 * qnorm dq)) <$> delta_quat) in
  let contact_reward :=
    (λ c, 1.0 - tanh (10.0 * vnorm c)) <$> cube_contact states in
  let jerk_penalty : result R :=
    let* rows := Torch.collect ((λ a, Torch.broadcast2 Rminus a (drop 1 a)) <$> actions) in
    Ok (mean (norm_list <$> rows)) in
  let success_reward :=
    (λ s : bool, (if s then 1 else 0) * max_episode_length) <$> success_condition in
  let* r_pos_scale := dict_get reward_settings "r_pos_scale" in
  let* r_contact_scale := dict_get reward_settings "r_contact_scale" in
  let* partial := Torch.broadcast2 Rplus (Rmult r_pos_scale <$> pos_reward)
                                   (Rmult r_contact_scale <$> contact_reward) in
  let* r_success_scale := dict_get reward_settings "r_success_scale" in
  let* rewards := Torch.broadcast2 Rplus partial (Rmult r_success_scale <$> success_reward) in
  let* reset_buf := termination reset_buf progress_buf max_episode_length success_condition in
  Ok (rewards, reset_buf, success_condition).

(** [compute_reward]. *)
Definition compute_reward (cfg : Config) (self : State) : result State :=
  let* (rewards, reset, success) :=
    compute_franka_reward (reset_buf self) (progress_buf self) (actions self)
      (states self) (reward_settings cfg) (IZR (max_episode_length cfg)) in
  let* rew := assign_all (rew_buf self) rewards in
  let* rst := assign_all (reset_buf self) reset in
  Ok (set_extras_success success (set_reset_buf rst (set_rew_buf rew self))).

(** [compute_observations]: the refresh; the observation vector assembled
    from the refreshed states is handed to the policy and is not kept in
    this model. *)
Definition compute_observations (cfg : Config) (snap : SimBuffers) (self : State)
    : result State :=
  _refresh cfg snap self.

(** [store_proprio_hist]: the state after the call, and whether it raised. *)
Definition store_proprio_hist (cfg : Config) (self : State) : State * result () :=
  let '(buf, r) := store_hist (num_envs cfg) (prop_dim cfg) (cube_pos (states self))
                     (cube_quat (states self)) (proprio_hist_buf self) in
  (set_proprio_hist_buf buf self, r).

(** [_reset_init_cube_state]: sample the initial and the goal pose of the
    cube for [env_ids].  The orientation is the identity; the
    orientation-noise settings are never read. *)
Definition _reset_init_cube_state (cfg : Config) (env_ids : list nat)
    (noise : ResetNoise) (self : State) : result State :=
  let centered_cube_xy_state := _table_surface_pos cfg in
  let cube_height := cube_size (states self) in
  let* heights := Torch.index_select env_ids cube_height in
  let init_shift := (0.0, 0.0) in
  let goal_shift := (0.0, 0.25) in
  let sampled (shift : R * R) (pos_noise : R) (rand : nat → nat → R)
      (k : nat) (h : R) : RigidState :=
    {| rs_pos :=
         Vec3 (vx centered_cube_xy_state + shift.1
               + 2.0 * pos_noise * (rand k 0%nat - 0.5))
              (vy centered_cube_xy_state + shift.2
               + 2.0 * pos_noise * (rand k 1%nat - 0.5))
              (vz (_table_surface_pos cfg) + h / 2);
       rs_quat := Quat 0 0 0 1.0;
       rs_lin_vel := vzero;
       rs_ang_vel := vzero |} in
  let sampled_init_cube_state :=
    imap (sampled init_shift (init_cube_pos_noise cfg) (rand_init_xy noise)) heights in
  let sampled_goal_cube_state :=
    imap (sampled goal_shift (goal_cube_pos_noise cfg) (rand_goal_xy noise)) heights in
  let* init := Torch.index_put env_ids sampled_init_cube_state (_init_cube_state self) in
  let* goal := Torch.index_put env_ids sampled_goal_cube_state (_goal_cube_state self) in
  Ok (set_goal_cube_state goal (set_init_cube_state init self)).

(** [reset_idx].  Domain randomization, the privileged-information buffer
    and the calls that hand the buffers to the simulator are outside the
    model. *)
Definition reset_idx (cfg : Config) (env_ids : list nat) (noise : ResetNoise)
    (self : State) : result State :=
  let* self := _reset_init_cube_state cfg env_ids noise self in
  let* init_rows := Torch.index_select env_ids (_init_cube_state self) in
  let* cube := Torch.index_put env_ids init_rows (_cube_state (sim self)) in
  let* goal_rows := Torch.index_select env_ids (_goal_cube_state self) in
  let* goal := Torch.index_put env_ids goal_rows (_goal_cube_state self) in
  let* pos :=
    Torch.collect
      (sample_dof_pos (default_dof_pos cfg) (franka_dof_lower_limits cfg)
         (franka_dof_upper_limits cfg) (franka_dof_noise cfg) (rand_dof noise)
       <$> seq 0 (length env_ids)) in
  let* q := Torch.index_put env_ids pos (_q (sim self)) in
  let* qd_rows := Torch.index_select env_ids (_qd (sim self)) in
  let* qd := Torch.index_put env_ids (map (λ _, 0) <$> qd_rows) (_qd (sim self)) in
  let* pos_control := Torch.index_put env_ids pos (_pos_control self) in
  let* effort_control :=
    Torch.index_put env_ids (map (λ _, 0) <$> pos) (_effort_control self) in
  let* progress := Torch.index_fill env_ids 0%Z (progress_buf self) in
  let* reset := Torch.index_fill env_ids 0%Z (reset_buf self) in
  let* hold := Torch.index_fill env_ids 0 (hold_counters (states self)) in
  Ok (set_states (set_hold_counters hold (states self))
     (set_reset_buf reset
     (set_progress_buf progress
     (set_effort_control effort_control
     (set_pos_control pos_control
     (set_sim (set_q_qd q qd (set_cube_state cube (sim self)))
     (set_goal_cube_state goal self))))))).

(** What the simulator and the random number generator contribute to one
    call of [post_physics_step]. *)
Record TickInput : Type := {
  tick_noise : ResetNoise;     (* the samples of [reset_idx], if it runs *)
  tick_snap : SimBuffers;      (* the simulator tensors at the refresh *)
  tick_snap2 : SimBuffers;     (* at the second refresh of one-step primitive episodes *)
}.

(** [post_physics_step]. *)
Definition post_physics_step (cfg : Config) (inp : TickInput) (self : State)
    : result State :=
  let self := set_progress_buf ((λ p, p + 1)%Z <$> progress_buf self) self in
  let hack :=
    bool_decide (control_input cfg = primitive ∧ max_episode_length cfg = 1%Z) in
  let env_ids :=
    if hack then seq 0 (num_envs cfg) else nonzero (reset_buf self) in
  let* self :=
    if decide (0 < length env_ids)%nat
    then reset_idx cfg env_ids (tick_noise inp) self
    else Ok self in
  let* self := compute_observations cfg (tick_snap inp) self in
  let* self := compute_reward cfg self in
  let (self, r) := store_proprio_hist cfg self in
  let* _ := r in
  if hack then compute_observations cfg (tick_snap2 inp) self
  else Ok self.

(** Consecutive ticks. *)
Fixpoint run (cfg : Config) (inps : list TickInput) (self : State) : result State :=
  match inps with
  | [] => Ok self
  | inp :: inps' =>
      let* self := post_physics_step cfg inp self in
      run cfg inps' self
  end.

(** The end of [__init__]: the buffers allocated by the base class and by
    [init_data] (zero hold counters, cube size 0.05), then [reset_idx] on
    every environment and one refresh. *)
Definition allocated (cfg : Config) (progress0 reset0 : list Z) (rew0 : list R)
    (hist0 : list (list (list R))) (sim0 : SimBuffers) : State :=
  {| progress_buf := progress0;
     reset_buf := reset0;
     rew_buf := rew0;
     extras_success := [];
     actions := [];
     states :=
       {| q := []; eef_pos := []; eef_quat := []; eef_vel := [];
          finger_pos := []; finger_quat := []; cube_pos := []; cube_quat := [];
          cube_vel := []; cube_contact := []; goal_cube_pos := [];
          goal_cube_quat := []; cube_to_goal_cube_pos := [];
          hold_counters := replicate (num_envs cfg) 0;
          cube_size := replicate (num_envs cfg) 0.05 |};
     sim := sim0;
     _init_cube_state := replicate (num_envs cfg) rigid_zeros;
     _goal_cube_state := replicate (num_envs cfg) rigid_zeros;
     _pos_control := replicate (num_envs cfg) (replicate (ncols (_q sim0)) 0);
     _effort_control := replicate (num_envs cfg) (replicate (ncols (_q sim0)) 0);
     proprio_hist_buf := hist0 |}.

Definition init (cfg : Config) (progress0 reset0 : list Z) (rew0 : list R)
    (hist0 : list (list (list R))) (sim0 : SimBuffers) (noise : ResetNoise)
    (snap : SimBuffers) : result State :=
  let* self := reset_idx cfg (seq 0 (num_envs cfg)) noise
                 (allocated cfg progress0 reset0 rew0 hist0 sim0) in
  _refresh cfg snap self.

End Methods.

(** The states the task can be in: after construction, and after any call
    of a method that writes the episode bookkeeping. *)
Inductive reachable `{JitUtils} (cfg : Config) : State → Prop :=
  | reach_init progress0 reset0 rew0 hist0 sim0 noise snap self :
      init cfg progress0 reset0 rew0 hist0 sim0 noise snap = Ok self →
      reachable cfg self
  | reach_post_physics_step inp self self' :
      reachable cfg self →
      post_physics_step cfg inp self = Ok self' →
      reachable cfg self'
  | reach_refresh snap self self' :
      reachable cfg self →
      _refresh cfg snap self = Ok self' →
      reachable cfg self'
  | reach_update_states self self' :
      reachable cfg self →
      _update_states cfg self = Ok self' →
      reachable cfg self'
  | reach_reset_idx env_ids noise self self' :
      reachable cfg self →
      reset_idx cfg env_ids noise self = Ok self' →
      reachable cfg self'
  | reach_control u self :
      reachable cfg self →
      reachable cfg (set_effort_control u self).

(** ** The observation vector ([compute_observations]) *)

(** [cfg["env"]["numObservations"]] as [__init__] computes it. *)
Definition numObservations (cfg : Config) (include_priv_info : bool)
    (num_env_factors : nat) : nat :=
  let n := match control_input cfg with
           | primitive => 3%nat
           | _ => 20%nat
           end in
  if include_priv_info then (n + num_env_factors)%nat else n.

(** The tensor that [compute_observations] assembles from the refreshed
    states and returns. *)
Definition obs_buf (cfg : Config) (include_priv_info : bool)
    (priv_info_buf : list (list R)) (self : State) : result (list (list R)) :=
  let cube_pos := cube_pos (states self) in
  let cube_quat := cube_quat (states self) in
  let eef_pos := eef_pos (states self) in
  let eef_quat := eef_quat (states self) in
  let cube_vel := cube_vel (states self) in
  let* cube_pos_diff :=
    Torch.broadcast2 vsub (rs_pos <$> _goal_cube_state self) cube_pos in
  let obs :=
    match control_input cfg with
    | primitive => []
    | _ => [row4 <$> cube_quat; row3 <$> eef_pos; row4 <$> eef_quat;
            row3 <$> cube_vel; row3 <$> cube_pos_diff]
    end in
  let obs := if include_priv_info then obs ++ [priv_info_buf] else obs in
  cat_last (row3 <$> cube_pos) obs.

(** ** The action path ([pre_physics_step]) *)

(** [cfg["env"]["controlType"]]. *)
Inductive ControlType : Type := osc | joint_tor.

(** The settings of [__init__] that only the action path reads. *)
Record ControlConfig : Type := {
  control_type : ControlType;       (* cfg["env"]["controlType"] *)
  variable_imp : bool;              (* cfg["env"]["variableImpedance"] *)
  kp_min : R;                       (* cfg["env"]["impedanceRange"][0] *)
  kp_max : R;                       (* cfg["env"]["impedanceRange"][1] *)
  action_scale : R;                 (* cfg["env"]["actionScale"] *)
  add_action_noise : bool;          (* cfg["env"]["action_bias"] > 0 *)
}.

(** [self.kp]: a vector of six gains, or one row of six gains per
    environment after a variable-impedance step. *)
Inductive Gain : Type :=
  | Vector (k : list R)
  | Matrix (k : list (list R)).

(** The attributes that only the action path writes.  [self.kd] is set to
    [2 * torch.sqrt(self.kp)] wherever [self.kp] is assigned, and is
    computed from the gains where it is read. *)
Record Controller : Type := {
  ctl_kp : Gain;
  quat_desired : option (list quat);
  _steps_elapsed : nat;
}.

(** [self.table_z_height] and [self.cmd_limit]. *)
Definition table_z_height : R := 1.0450 + 0.1.

Definition cmd_limit (cfg : Config) (cc : ControlConfig) : list R :=
  match control_type cc with
  | osc => [0.1; 0.1; 0.1; 0.5; 0.5; 0.5]
  | joint_tor => take 7 (effort_limits cfg)
  end.

(** [u_arm += noise] on the view [self.actions[:, :n]]: the stored actions
    change with it.  [noise i c] is element (i, c) of the sample of
    [torch.normal], which has the shape of the view. *)
Definition with_noise (cc : ControlConfig) (noise : nat → nat → R) (n : nat)
    (actions : list (list R)) : list (list R) :=
  if add_action_noise cc
  then imap (λ i a, imap (λ c x, x + noise i c) (take n a) ++ drop n a) actions
  else actions.

(** [self.kp_min + (self.kp_max - self.kp_min) * torch.sigmoid(cols)]. *)
Definition gains (cc : ControlConfig) (cols : list (list R)) : result (list (list R)) :=
  Torch.collect
    ((λ row,
        let* m := Torch.broadcast2 Rmult (replicate 6 (kp_max cc - kp_min cc))
                    (sigmoid <$> row) in
        Torch.broadcast2 Rplus (replicate 6 (kp_min cc)) m) <$> cols).

(** [self.kp[:2] = kp].  On the vector the target has shape (2,): a value
    of shape (1, c) is read as a row of [c] columns, any other number of
    rows cannot be expanded.  On a matrix the target is its first two
    rows. *)
Definition set_kp_2 (kp0 : Gain) (kp : list (list R)) : result Gain :=
  match kp0 with
  | Vector k0 =>
      match kp with
      | [r] => let* new := assign_all (take 2 k0) r in Ok (Vector (new ++ drop 2 k0))
      | _ => Err ShapeError
      end
  | Matrix m =>
      let* new := Torch.inplace2 assign_all (take 2 m) kp in
      Ok (Matrix (new ++ drop 2 m))
  end.

(** [u_arm * self.cmd_limit[:, :n] / self.action_scale]. *)
Definition scale_cmd (cfg : Config) (cc : ControlConfig) (n : nat)
    (u_arm : list (list R)) : result (list (list R)) :=
  let* rows :=
    Torch.collect ((λ u, Torch.broadcast2 Rmult u (take n (cmd_limit cfg cc))) <$> u_arm) in
  Ok (map (λ x, x / action_scale cc) <$> rows).

Section Control.
Context `{JitUtils} `{TorchLinalg} `{AngleAxis}.

(** The slices of the simulator tensors and of the states that the
    controller reads, per environment. *)
Definition osc_envs (self : State) : list OscEnv :=
  zip_with (λ (qq : list R * list R) (r : matrix * (matrix * list R)),
              {| osc_q := qq.1; osc_qd := qq.2; osc_mm := r.1;
                 osc_j_eef := r.2.1; osc_eef_vel := r.2.2 |})
    (zip (_q (sim self)) (_qd (sim self)))
    (zip (_mm (sim self)) (zip (_j_eef (sim self)) (eef_vel (states self)))).

(** [self._compute_osc_torques(dpose)] with the current gains. *)
Definition osc_torques (cfg : Config) (kp : Gain) (self : State)
    (dpose : list (list R)) : result (list (list R)) :=
  match kp with
  | Vector k => _compute_osc_torques (osc_self cfg k) (osc_envs self) dpose
  | Matrix m =>
      let* ed := Torch.broadcast2 pair (osc_envs self) dpose in
      let* rows :=
        Torch.broadcast2 (λ k (ed : OscEnv * list R), osc_env (osc_self cfg k) ed.1 ed.2)
          m ed in
      Torch.collect rows
  end.

(** The orientation error towards [quat_desired]: zero on the first step,
    angle times axis of the quaternion difference afterwards. *)
Definition ori_error (cfg : Config) (ctl : Controller) (quat_desired : list quat)
    (self : State) : result (list (list R)) :=
  if decide (_steps_elapsed ctl = 0%nat) then Ok (replicate (num_envs cfg) [0; 0; 0])
  else
    Torch.broadcast2
      (λ d e, let '(angle, axis) := quat_to_angle_axis (quat_mul d (quat_conjugate e)) in
              [angle * vx axis; angle * vy axis; angle * vz axis])
      quat_desired (eef_quat (states self)).

(** [pre_physics_step]: the controller attributes and the task state
    after the call.  The three branches of the source are written out;
    where [u_arm] is never assigned, the final write raises. *)
Definition pre_physics_step (cfg : Config) (cc : ControlConfig) (noise : nat → nat → R)
    (actions : list (list R)) (ctl : Controller) (self : State)
    : outcome (Controller * State) :=
  let quat_desired0 :=
    match quat_desired ctl with
    | None => (λ _, Quat 1 0 0 0) <$> eef_quat (states self)
    | Some q => q
    end in
  let branch : outcome (list (list R) * Controller * list (list R)) :=
    match control_type cc with
    | joint_tor => Raises (UnboundLocalError "u_arm")
    | osc =>
        match control_input cfg with
        | pose2d =>
            lift (
              let z_error := (λ p, table_z_height - vz p) <$> eef_pos (states self) in
              let actions := with_noise cc noise 2 actions in
              let u_arm := take 2 <$> actions in
              let* kp :=
                if variable_imp cc
                then let* kp := gains cc (drop 2 <$> actions) in
                     set_kp_2 (ctl_kp ctl) kp
                else Ok (ctl_kp ctl) in
              let* u_arm := scale_cmd cfg cc 2 u_arm in
              let* ori_error := ori_error cfg ctl quat_desired0 self in
              let dpose := replicate (num_envs cfg) (replicate 6 0) in
              let* dpose := Torch.inplace2 (assign_cols 0 2) dpose u_arm in
              let* dpose :=
                Torch.inplace2 (λ row z, assign_cols 2 3 row [z]) dpose z_error in
              let* dpose := Torch.inplace2 (assign_cols 3 6) dpose ori_error in
              let* u_arm := osc_torques cfg kp self dpose in
              Ok (actions,
                  {| ctl_kp := kp; quat_desired := Some quat_desired0;
                     _steps_elapsed := S (_steps_elapsed ctl) |},
                  u_arm))
        | pose3d =>
            lift (
              let actions := with_noise cc noise 3 actions in
              let u_arm := take 3 <$> actions in
              let* kp :=
                if variable_imp cc
                then let* kp := gains cc ((λ a, take 6 (drop 3 a)) <$> actions) in
                     Ok (Matrix kp)
                else Ok (ctl_kp ctl) in
              let* u_arm := scale_cmd cfg cc 3 u_arm in
              let* ori_error := ori_error cfg ctl quat_desired0 self in
              let dpose := replicate (num_envs cfg) (replicate 6 0) in
              let* dpose := Torch.inplace2 (assign_cols 0 3) dpose u_arm in
              let* dpose := Torch.inplace2 (assign_cols 3 6) dpose ori_error in
              let* u_arm := osc_torques cfg kp self dpose in
              Ok (actions,
                  {| ctl_kp := kp; quat_desired := Some quat_desired0;
                     _steps_elapsed := S (_steps_elapsed ctl) |},
                  u_arm))
        | pose6d =>
            lift (
              let actions := with_noise cc noise 6 actions in
              let u_arm := take 6 <$> actions in
              let* kp :=
                if variable_imp cc
                then let* kp := gains cc ((λ a, take 6 (drop 6 a)) <$> actions) in
                     Ok (Matrix kp)
                else Ok (ctl_kp ctl) in
              let* u_arm := scale_cmd cfg cc 6 u_arm in
              let* u_arm := osc_torques cfg kp self u_arm in
              Ok (actions,
                  {| ctl_kp := kp; quat_desired := Some quat_desired0;
                     _steps_elapsed := _steps_elapsed ctl |},
                  u_arm))
        | primitive => Raises (UnboundLocalError "u_arm")
        end
    end in
  match branch with
  | Raises e => Raises e
  | Returns (actions, ctl, u_arm) =>
      match Torch.inplace2 (assign_cols 0 7) (_effort_control self) u_arm with
      | Err e => Raises (TorchError e)
      | Ok effort => Returns (ctl, set_effort_control effort (set_actions actions self))
      end
  end.

End Control.

End Push.

(** * FrankaCubeSlide ([franka_cube_slide.py]) *)

Module Slide.

Record Config : Type := {
  num_envs : nat;
  max_episode_length : Z;
  posRewardScale : R;
  oriRewardScale : R;
  contactRewardScale : R;
}.

(** [self.reward_settings], built by [__init__]: three keys. *)
Definition reward_settings (cfg : Config) : gmap string R :=
  <["r_pos_scale" := posRewardScale cfg]>
  (<["r_ori_scale" := oriRewardScale cfg]>
  (<["r_contact_scale" := contactRewardScale cfg]> ∅)).

(** The entries of [self.states] that the reward function reads. *)
Record States : Type := {
  cube_pos : list vec3;
  cube_vel : list vec3;
  cube_contact : list vec3;
  goal_cube_pos : list vec3;
}.

Record State : Type := {
  progress_buf : list Z;
  reset_buf : list Z;
  rew_buf : list R;
  extras_success : list bool;
  actions : list (list R);
  states : States;
}.

(** [torch.where(cond, a, torch.zeros_like(a))] with [cond] of shape (n,)
    and [a] of shape (N, 3): torch aligns the trailing dimensions, so
    [cond] is read as a row of shape (1, n) and selects by column; n must
    be 1 or 3. *)
Definition where_rows3 (cond : list bool) (a : list vec3) : result (list vec3) :=
  match cond with
  | [c] => Ok ((λ v, if c then v else vzero) <$> a)
  | [c0; c1; c2] =>
      Ok ((λ v, Vec3 (if c0 then vx v else 0) (if c1 then vy v else 0)
                     (if c2 then vz v else 0)) <$> a)
  | _ => Err ShapeError
  end.

(** The lines of [compute_franka_reward] up to [vel_along_direction]: the
    projection of the cube velocity on the direction to the goal. *)
Definition vel_along_direction (cube_pos goal_pos cube_vel : list vec3)
    : result (list vec3 * list R) :=
  let* delta_pos_vector := Torch.broadcast2 vsub goal_pos cube_pos in
  let delta_pos := vnorm <$> delta_pos_vector in
  let direction :=
    zip_with (λ v d, vdiv_scalar v (d + 1e-6)) delta_pos_vector delta_pos in
  let* prod := Torch.broadcast2 vmul cube_vel direction in
  Ok (delta_pos_vector, vsum <$> prod).

(** [compute_franka_reward]. *)
Definition compute_franka_reward (reset_buf progress_buf : list Z)
    (actions : list (list R)) (states : States) (reward_settings : gmap string R)
    (max_episode_length : R) : result (list R * list Z * list bool) :=
  let cube_pos := cube_pos states in
  let cube_vel := cube_vel states in
  let contact := cube_contact states in
  let goal_pos := goal_cube_pos states in
  let* (delta_pos_vector, vel_along_direction) :=
    vel_along_direction cube_pos goal_pos cube_vel in
  let delta_pos := vnorm <$> delta_pos_vector in
  let pos_reward := (λ d, 1.0 - tanh (10.0 * d)) <$> delta_pos in
  let vel_reward := (λ v, Torch.clamp_min v 0.0) <$> vel_along_direction in
  let contact_threshold := 0.1 in
  let* contact_penalty :=
    where_rows3 ((λ v, bool_decide (v > contact_threshold)) <$> vel_along_direction)
                contact in
  let contact_reward := (λ c, 1.0 - tanh (10.0 * vnorm c)) <$> contact_penalty in
  let* r_pos_scale := dict_get reward_settings "r_pos_scale" in
  let* r_contact_scale := dict_get reward_settings "r_contact_scale" in
  let* partial := Torch.broadcast2 Rplus (Rmult r_pos_scale <$> pos_reward)
                                   (Rmult r_contact_scale <$> contact_reward) in
  let* r_vel_scale := dict_get reward_settings "r_vel_scale" in
  let* rewards := Torch.broadcast2 Rplus partial (Rmult r_vel_scale <$> vel_reward) in
  let success_threshold := 0.05 in
  let success_condition := (λ d, bool_decide (d < success_threshold)) <$> delta_pos in
  let* reset_buf :=
    termination reset_buf progress_buf max_episode_length success_condition in
  Ok (rewards, reset_buf, success_condition).

(** [compute_reward]: the reward computation of every tick. *)
Definition compute_reward (cfg : Config) (self : State) : result State :=
  let* (rewards, reset, success) :=
    compute_franka_reward (reset_buf self) (progress_buf self) (actions self)
      (states self) (reward_settings cfg) (IZR (max_episode_length cfg)) in
  let* rew := assign_all (rew_buf self) rewards in
  let* rst := assign_all (reset_buf self) reset in
  Ok {| progress_buf := progress_buf self; reset_buf := rst; rew_buf := rew;
        extras_success := success; actions := actions self; states := states self |}.

(** ** The action path ([pre_physics_step]) *)

(** [cfg["env"]["controlInput"]] and [cfg["env"]["controlType"]]. *)
Inductive ControlInput : Type := pose3d | pose6d.
Inductive ControlType : Type := osc | joint_tor.

(** The settings and constants that the action path reads. *)
Record Control : Type := {
  control_input : ControlInput;
  control_type : ControlType;
  action_scale : R;
  effort_limits : list R;
}.

(** [cfg["env"]["numActions"]] as [__init__] computes it. *)
Definition numActions (ctl : Control) : nat :=
  match control_input ctl with
  | pose3d => 3
  | pose6d => 6
  end.

(** [self.cmd_limit], of shape (1, 6) or (1, 7). *)
Definition cmd_limit (ctl : Control) : list R :=
  match control_type ctl with
  | osc => [0.1; 0.1; 0.1; 0.5; 0.5; 0.5]
  | joint_tor => take 7 (effort_limits ctl)
  end.

(** The gains of [__init__]: [self.kp] has fifteen entries. *)
Definition osc_self (ctl : Control) : OscSelf :=
  {| kp := replicate 15 200;
     kd := (λ k, 2 * sqrt k) <$> replicate 15 200;
     kp_null := replicate 7 10;
     kd_null := (λ k, 2 * sqrt k) <$> replicate 7 10;
     franka_default_dof_pos := [0; 0.1963; 0; -2.6180; 0; 2.9416; 0.7854; 0.001; 0.001];
     _franka_effort_limits := effort_limits ctl |}.

Section Control.
Context `{TorchLinalg}.

(** [pre_physics_step]: the effort buffer after the call.  [dpose] is
    assigned in the branch of [pose3d] only. *)
Definition pre_physics_step (ctl : Control) (num_envs : nat) (envs : list OscEnv)
    (actions _effort_control : list (list R)) : outcome (list (list R)) :=
  let branch : result (list (list R) * option (list (list R))) :=
    match control_input ctl with
    | pose3d =>
        let* u_arm :=
          Torch.collect
            ((λ a, Torch.broadcast2 Rmult (take 3 a) (take 3 (cmd_limit ctl))) <$> actions) in
        let u_arm := map (λ x, x / action_scale ctl) <$> u_arm in
        let fixed_orientation := [0.0; 0.0; 0.0] in
        let dpose := replicate num_envs (replicate 6 0) in
        let* dpose := Torch.inplace2 (assign_cols 0 3) dpose u_arm in
        let* dpose :=
          Torch.collect ((λ row, assign_cols 3 6 row fixed_orientation) <$> dpose) in
        Ok (u_arm, Some dpose)
    | pose6d =>
        let* u_arm :=
          Torch.collect ((λ a, Torch.broadcast2 Rmult a (cmd_limit ctl)) <$> actions) in
        Ok (map (λ x, x / action_scale ctl) <$> u_arm, None)
    end in
  match branch with
  | Err e => Raises (TorchError e)
  | Ok (u_arm, dpose) =>
      let torques : outcome (list (list R)) :=
        match control_type ctl with
        | osc =>
            match dpose with
            | Some dpose => lift (_compute_osc_torques (osc_self ctl) envs dpose)
            | None => Raises (UnboundLocalError "dpose")
            end
        | joint_tor => Returns u_arm
        end in
      match torques with
      | Raises e => Raises e
      | Returns u_arm => lift (Torch.inplace2 (assign_cols 0 7) _effort_control u_arm)
      end
  end.

End Control.

End Slide.

(** * FrankaCubeThrow ([franka_cube_throw.py]) *)

Module Throw.

Inductive ControlType : Type := osc | jvel.

Record Config : Type := {
  num_envs : nat;
  max_episode_length : Z;
  control_type : ControlType;      (* cfg["env"]["controlType"] *)
  action_scale : R;
  goal_cube_pos_noise : R;
  franka_dof_noise : R;
  posRewardScale : R;
  oriRewardScale : R;
  contactRewardScale : R;
  velRewardScale : R;
  successRewardScale : R;
  eefApproachPenaltyScale : R;
  franka_dof_lower_limits : list R;
  franka_dof_upper_limits : list R;
  effort_limits : list R;          (* self._franka_effort_limits *)
  _table_surface_pos : vec3;
  prop_dim : nat;
}.

Definition reward_settings (cfg : Config) : gmap string R :=
  <["r_pos_scale" := posRewardScale cfg]>
  (<["r_ori_scale" := oriRewardScale cfg]>
  (<["r_contact_scale" := contactRewardScale cfg]>
  (<["r_vel_scale" := velRewardScale cfg]>
  (<["r_success_scale" := successRewardScale cfg]>
  (<["r_eef_approach_scale" := eefApproachPenaltyScale cfg]> ∅))))).

Definition default_dof_pos : list R :=
  [0; 1.0472; 0; -1.5708; 0; 2.61799; 0.7854; 0.020; 0.020].

Definition controlled_joints : list nat := [1; 3; 5]%nat.
Definition kp_vel : list R := replicate 7 10.
Definition ki_vel : list R := replicate 7 50.

Record States : Type := {
  q : list (list R);
  q_gripper : list (list R);
  eef_pos : list vec3;
  eef_quat : list quat;
  eef_vel : list (list R);
  finger_pos : list vec3;
  finger_quat : list quat;
  cube_pos : list vec3;
  cube_quat : list quat;
  cube_vel : list vec3;
  cube_contact : list vec3;
  st_contact_time : list R;        (* states["contact_time"] *)
  goal_cube_pos : list vec3;
  goal_cube_quat : list quat;
  cube_to_goal_cube_pos : list vec3;
  cube_size : list R;
}.

Record State : Type := {
  progress_buf : list Z;
  reset_buf : list Z;
  rew_buf : list R;
  extras_success : list bool;
  actions : list (list R);
  states : States;
  sim : SimBuffers;
  _init_cube_state : list RigidState;
  _goal_cube_state : list RigidState;
  _pos_control : list (list R);
  _effort_control : list (list R);
  contact_time : list R;          (* self.contact_time *)
  vel_i_error : list (list R);    (* self.vel_i_error, shape (num_envs, 7) *)
  proprio_hist_buf : list (list (list R));
}.

Definition set_progress_buf (v : list Z) (s : State) : State :=
  {| progress_buf := v; reset_buf := reset_buf s; rew_buf := rew_buf s;
     extras_success := extras_success s; actions := actions s; states := states s;
     sim := sim s; _init_cube_state := _init_cube_state s;
     _goal_cube_state := _goal_cube_state s; _pos_control := _pos_control s;
     _effort_control := _effort_control s; contact_time := contact_time s;
     vel_i_error := vel_i_error s; proprio_hist_buf := proprio_hist_buf s |}.
Definition set_reset_buf (v : list Z) (s : State) : State :=
  {| progress_buf := progress_buf s; reset_buf := v; rew_buf := rew_buf s;
     extras_success := extras_success s; actions := actions s; states := states s;
     sim := sim s; _init_cube_state := _init_cube_state s;
     _goal_cube_state := _goal_cube_state s; _pos_control := _pos_control s;
     _effort_control := _effort_control s; contact_time := contact_time s;
     vel_i_error := vel_i_error s; proprio_hist_buf := proprio_hist_buf s |}.
Definition set_rew_buf (v : list R) (s : State) : State :=
  {| progress_buf := progress_buf s; reset_buf := reset_buf s; rew_buf := v;
     extras_success := extras_success s; actions := actions s; states := states s;
     sim := sim s; _init_cube_state := _init_cube_state s;
     _goal_cube_state := _goal_cube_state s; _pos_control := _pos_control s;
     _effort_control := _effort_control s; contact_time := contact_time s;
     vel_i_error := vel_i_error s; proprio_hist_buf := proprio_hist_buf s |}.
Definition set_extras_success (v : list bool) (s : State) : State :=
  {| progress_buf := progress_buf s; reset_buf := reset_buf s; rew_buf := rew_buf s;
     extras_success := v; actions := actions s; states := states s; sim := sim s;
     _init_cube_state := _init_cube_state s; _goal_cube_state := _goal_cube_state s;
     _pos_control := _pos_control s; _effort_control := _effort_control s;
     contact_time := contact_time s; vel_i_error := vel_i_error s;
     proprio_hist_buf := proprio_hist_buf s |}.
Definition set_actions (v : list (list R)) (s : State) : State :=
  {| progress_buf := progress_buf s; reset_buf := reset_buf s; rew_buf := rew_buf s;
     extras_success := extras_success s; actions := v; states := states s;
     sim := sim s; _init_cube_state := _init_cube_state s;
     _goal_cube_state := _goal_cube_state s; _pos_control := _pos_control s;
     _effort_control := _effort_control s; contact_time := contact_time s;
     vel_i_error := vel_i_error s; proprio_hist_buf := proprio_hist_buf s |}.
Definition set_states (v : States) (s : State) : State :=
  {| progress_buf := progress_buf s; reset_buf := reset_buf s; rew_buf := rew_buf s;
     extras_success := extras_success s; actions := actions s; states := v;
     sim := sim s; _init_cube_state := _init_cube_state s;
     _goal_cube_state := _goal_cube_state s; _pos_control := _pos_control s;
     _effort_control := _effort_control s; contact_time := contact_time s;
     vel_i_error := vel_i_error s; proprio_hist_buf := proprio_hist_buf s |}.
Definition set_sim (v : SimBuffers) (s : State) : State :=
  {| progress_buf := progress_buf s; reset_buf := reset_buf s; rew_buf := rew_buf s;
     extras_success := extras_success s; actions := actions s; states := states s;
     sim := v; _init_cube_state := _init_cube_state s;
     _goal_cube_state := _goal_cube_state s; _pos_control := _pos_control s;
     _effort_control := _effort_control s; contact_time := contact_time s;
     vel_i_error := vel_i_error s; proprio_hist_buf := proprio_hist_buf s |}.
Definition set_init_cube_state (v : list RigidState) (s : State) : State :=
  {| progress_buf := progress_buf s; reset_buf := reset_buf s; rew_buf := rew_buf s;
     extras_success := extras_success s; actions := actions s; states := states s;
     sim := sim s; _init_cube_state := v; _goal_cube_state := _goal_cube_state s;
     _pos_control := _pos_control s; _effort_control := _effort_control s;
     contact_time := contact_time s; vel_i_error := vel_i_error s;
     proprio_hist_buf := proprio_hist_buf s |}.
Definition set_goal_cube_state (v : list RigidState) (s : State) : State :=
  {| progress_buf := progress_buf s; reset_buf := reset_buf s; rew_buf := rew_buf s;
     extras_success := extras_success s; actions := actions s; states := states s;
     sim := sim s; _init_cube_state := _init_cube_state s; _goal_cube_state := v;
     _pos_control := _pos_control s; _effort_control := _effort_control s;
     contact_time := contact_time s; vel_i_error := vel_i_error s;
     proprio_hist_buf := proprio_hist_buf s |}.
Definition set_pos_control (v : list (list R)) (s : State) : State :=
  {| progress_buf := progress_buf s; reset_buf := reset_buf s; rew_buf := rew_buf s;
     extras_success := extras_success s; actions := actions s; states := states s;
     sim := sim s; _init_cube_state := _init_cube_state s;
     _goal_cube_state := _goal_cube_state s; _pos_control := v;
     _effort_control := _effort_control s; contact_time := contact_time s;
     vel_i_error := vel_i_error s; proprio_hist_buf := proprio_hist_buf s |}.
Definition set_effort_control (v : list (list R)) (s : State) : State :=
  {| progress_buf := progress_buf s; reset_buf := reset_buf s; rew_buf := rew_buf s;
     extras_success := extras_success s; actions := actions s; states := states s;
     sim := sim s; _init_cube_state := _init_cube_state s;
     _goal_cube_state := _goal_cube_state s; _pos_control := _pos_control s;
     _effort_control := v; contact_time := contact_time s;
     vel_i_error := vel_i_error s; proprio_hist_buf := proprio_hist_buf s |}.
Definition set_contact_time (v : list R) (s : State) : State :=
  {| progress_buf := progress_buf s; reset_buf := reset_buf s; rew_buf := rew_buf s;
     extras_success := extras_success s; actions := actions s; states := states s;
     sim := sim s; _init_cube_state := _init_cube_state s;
     _goal_cube_state := _goal_cube_state s; _pos_control := _pos_control s;
     _effort_control := _effort_control s; contact_time := v;
     vel_i_error := vel_i_error s; proprio_hist_buf := proprio_hist_buf s |}.
Definition set_vel_i_error (v : list (list R)) (s : State) : State :=
  {| progress_buf := progress_buf s; reset_buf := reset_buf s; rew_buf := rew_buf s;
     extras_success := extras_success s; actions := actions s; states := states s;
     sim := sim s; _init_cube_state := _init_cube_state s;
     _goal_cube_state := _goal_cube_state s; _pos_control := _pos_control s;
     _effort_control := _effort_control s; contact_time := contact_time s;
     vel_i_error := v; proprio_hist_buf := proprio_hist_buf s |}.
Definition set_proprio_hist_buf (v : list (list (list R))) (s : State) : State :=
  {| progress_buf := progress_buf s; reset_buf := reset_buf s; rew_buf := rew_buf s;
     extras_success := extras_success s; actions := actions s; states := states s;
     sim := sim s; _init_cube_state := _init_cube_state s;
     _goal_cube_state := _goal_cube_state s; _pos_control := _pos_control s;
     _effort_control := _effort_control s; contact_time := contact_time s;
     vel_i_error := vel_i_error s; proprio_hist_buf := v |}.

(** [_update_states]. *)
Definition _update_states (self : State) : result State :=
  let b := sim self in
  let* contact := Torch.broadcast2 vsub (rs_pos <$> _cube_state b)
                                        (rs_pos <$> _finger_state b) in
  let* to_goal := Torch.broadcast2 vsub (rs_pos <$> _goal_cube_state self)
                                        (rs_pos <$> _cube_state b) in
  Ok (set_states
        {| q := _q b;
           q_gripper := (λ row, drop (length row - 2) row) <$> _q b;
           eef_pos := rs_pos <$> _eef_state b;
           eef_quat := rs_quat <$> _eef_state b;
           eef_vel := twist <$> _eef_state b;
           finger_pos := rs_pos <$> _finger_state b;
           finger_quat := rs_quat <$> _finger_state b;
           cube_pos := rs_pos <$> _cube_state b;
           cube_quat := rs_quat <$> _cube_state b;
           cube_vel := rs_lin_vel <$> _cube_state b;
           cube_contact := contact;
           st_contact_time := contact_time self;
           goal_cube_pos := rs_pos <$> _goal_cube_state self;
           goal_cube_quat := rs_quat <$> _goal_cube_state self;
           cube_to_goal_cube_pos := to_goal;
           cube_size := cube_size (states self) |} self).

Definition _refresh (snap : SimBuffers) (self : State) : result State :=
  _update_states (set_sim snap self).

(** The lines of [compute_franka_reward] that compute [dir_alignment]: the
    dot product of the goal direction and the velocity direction. *)
Definition dir_alignment (cube_pos goal_pos cube_vel : list vec3) : result (list R) :=
  let* goal_dir := Torch.broadcast2 vsub goal_pos cube_pos in
  let goal_dir := (λ g, vdiv_scalar g (vnorm g + 1e-7)) <$> goal_dir in
  let vel_dir := (λ v, vdiv_scalar v (vnorm v + 1e-7)) <$> cube_vel in
  let* prod := Torch.broadcast2 vmul goal_dir vel_dir in
  Ok (vsum <$> prod).

(** [compute_franka_reward]. *)
Definition compute_franka_reward (reset_buf progress_buf : list Z)
    (actions : list (list R)) (states : States) (reward_settings : gmap string R)
    (max_episode_length : R) : result (list R * list Z * list bool) :=
  let cube_pos := cube_pos states in
  let goal_pos := goal_cube_pos states in
  let cube_vel := cube_vel states in
  let eef_pos := eef_pos states in
  let* diff := Torch.broadcast2 vsub cube_pos goal_pos in
  let delta_pos := vnorm <$> diff in
  let* r_pos_scale := dict_get reward_settings "r_pos_scale" in
  let distance_reward := (λ d, r_pos_scale * (1.0 - tanh (10.0 * d))) <$> delta_pos in
  let* dir_alignment := dir_alignment cube_pos goal_pos cube_vel in
  let* r_vel_scale := dict_get reward_settings "r_vel_scale" in
  let direction_reward :=
    (λ a, r_vel_scale * Torch.clamp_min a 0.0) <$> dir_alignment in
  let vel_magnitude := vnorm <$> cube_vel in
  let* r_vel_scale := dict_get reward_settings "r_vel_scale" in
  let velocity_reward := (λ m, r_vel_scale * tanh (0.5 * m)) <$> vel_magnitude in
  let success_threshold := 0.05 in
  let terminal_velocity_threshold := 0.001 in
  let success_condition1 :=
    (λ v, bool_decide (vnorm v < terminal_velocity_threshold)) <$> cube_vel in
  let success_condition2 :=
    (λ d, bool_decide (d < success_threshold)) <$> delta_pos in
  let success_condition3 := (λ p, bool_decide (p > 0)%Z) <$> progress_buf in
  let* c12 := Torch.broadcast2 andb success_condition1 success_condition2 in
  let* success_condition := Torch.broadcast2 andb c12 success_condition3 in
  let* r_success_scale := dict_get reward_settings "r_success_scale" in
  let* success_reward :=
    Torch.where_ success_condition [r_success_scale] ((λ _, 0) <$> distance_reward) in
  let ee_goal_dist : result (list R) :=
    let* d := Torch.broadcast2 vsub eef_pos goal_pos in Ok (vnorm <$> d) in
  let* r1 := Torch.broadcast2 Rplus distance_reward direction_reward in
  let* r2 := Torch.broadcast2 Rplus r1 velocity_reward in
  let* rewards := Torch.broadcast2 Rplus r2 success_reward in
  let* reset_buf :=
    termination reset_buf progress_buf max_episode_length success_condition in
  Ok (rewards, reset_buf, success_condition).

Definition compute_reward (cfg : Config) (self : State) : result State :=
  let* (rewards, reset, success) :=
    compute_franka_reward (reset_buf self) (progress_buf self) (actions self)
      (states self) (reward_settings cfg) (IZR (max_episode_length cfg)) in
  let* rew := assign_all (rew_buf self) rewards in
  let* rst := assign_all (reset_buf self) reset in
  Ok (set_extras_success success (set_reset_buf rst (set_rew_buf rew self))).

Definition compute_observations (snap : SimBuffers) (self : State) : result State :=
  _refresh snap self.

Definition store_proprio_hist (cfg : Config) (self : State) : State * result () :=
  let '(buf, r) := store_hist (num_envs cfg) (prop_dim cfg) (cube_pos (states self))
                     (cube_quat (states self)) (proprio_hist_buf self) in
  (set_proprio_hist_buf buf self, r).

(** [_reset_init_cube_state]: the cube starts at a fixed place in front of
    the gripper, the goal is sampled around (2.0, 0.0). *)
Definition _reset_init_cube_state (cfg : Config) (env_ids : list nat)
    (noise : ResetNoise) (self : State) : result State :=
  let cube_height := cube_size (states self) in
  let goal_x_offset := 2.0 in
  let goal_y_offset := 0.0 in
  let* eef_pos := Torch.index_select env_ids (rs_pos <$> _eef_state (sim self)) in
  let* heights := Torch.index_select env_ids cube_height in
  let sampled_init_cube_state :=
    (λ h, {| rs_pos := Vec3 0.216 0 (vz (_table_surface_pos cfg) + h / 2);
             rs_quat := Quat 0 0 0 1.0;
             rs_lin_vel := vzero;
             rs_ang_vel := vzero |}) <$> heights in
  let sampled_goal_cube_state :=
    imap (λ k h,
            {| rs_pos :=
                 Vec3 (goal_x_offset + 2.0 * goal_cube_pos_noise cfg
                                       * (rand_goal_xy noise k 0%nat - 0.5))
                      (goal_y_offset + 2.0 * goal_cube_pos_noise cfg
                                       * (rand_goal_xy noise k 1%nat - 0.5))
                      (vz (_table_surface_pos cfg) + h / 2);
               rs_quat := Quat 0 0 0 1.0;
               rs_lin_vel := vzero;
               rs_ang_vel := vzero |}) heights in
  let* init := Torch.index_put env_ids sampled_init_cube_state (_init_cube_state self) in
  let* goal := Torch.index_put env_ids sampled_goal_cube_state (_goal_cube_state self) in
  Ok (set_goal_cube_state goal (set_init_cube_state init self)).

(** [reset_idx].  The integral error of the velocity controller is not
    among the attributes it writes. *)
Definition reset_idx (cfg : Config) (env_ids : list nat) (noise : ResetNoise)
    (self : State) : result State :=
  let* contact := Torch.index_fill env_ids 0.0 (contact_time self) in
  let self := set_contact_time contact self in
  let* self := _reset_init_cube_state cfg env_ids noise self in
  let* init_rows := Torch.index_select env_ids (_init_cube_state self) in
  let* cube := Torch.index_put env_ids init_rows (_cube_state (sim self)) in
  let* goal_rows := Torch.index_select env_ids (_goal_cube_state self) in
  let* goal := Torch.index_put env_ids goal_rows (_goal_cube_state self) in
  let* pos :=
    Torch.collect
      (sample_dof_pos default_dof_pos (franka_dof_lower_limits cfg)
         (franka_dof_upper_limits cfg) (franka_dof_noise cfg) (rand_dof noise)
       <$> seq 0 (length env_ids)) in
  let* q := Torch.index_put env_ids pos (_q (sim self)) in
  let* qd_rows := Torch.index_select env_ids (_qd (sim self)) in
  let* qd := Torch.index_put env_ids (map (λ _, 0) <$> qd_rows) (_qd (sim self)) in
  let* pos_control := Torch.index_put env_ids pos (_pos_control self) in
  let* effort_control :=
    Torch.index_put env_ids (map (λ _, 0) <$> pos) (_effort_control self) in
  let* progress := Torch.index_fill env_ids 0%Z (progress_buf self) in
  let* reset := Torch.index_fill env_ids 0%Z (reset_buf self) in
  Ok (set_reset_buf reset
     (set_progress_buf progress
     (set_effort_control effort_control
     (set_pos_control pos_control
     (set_sim (set_q_qd q qd (set_cube_state cube (sim self)))
     (set_goal_cube_state goal self)))))).

(** The velocity error of one environment in [_compute_jvel_torques]:
    commanded minus measured on the controlled joints, zero minus measured
    on the others. *)
Definition vel_error_row (jvel qd : list R) : result (list R) :=
  let uncontrolled_joints :=
    filter (λ i, i ∉ controlled_joints) (seq 0 7) in
  let vel_error := (λ _, 0) <$> qd in
  let* cmd := Torch.index_select controlled_joints jvel in
  let* cur := Torch.index_select controlled_joints qd in
  let* vel_error := Torch.index_put controlled_joints (zip_with Rminus cmd cur) vel_error in
  let* cur := Torch.index_select uncontrolled_joints qd in
  Torch.index_put uncontrolled_joints ((λ x, 0 - x) <$> cur) vel_error.

(** [_compute_jvel_torques]: the state with the updated integral error,
    and the clamped torques. *)
Definition _compute_jvel_torques (cfg : Config) (jvel : list (list R)) (self : State)
    : result (State * list (list R)) :=
  let qd := take 7 <$> _qd (sim self) in
  let* rows := Torch.broadcast2 vel_error_row jvel qd in
  let* vel_error := Torch.collect rows in
  let* vel_i_error :=
    Torch.inplace2 (Torch.broadcast2 Rplus) (vel_i_error self) vel_error in
  let self := set_vel_i_error vel_i_error self in
  let* u := Torch.broadcast2
              (λ e i,
                 let* p := Torch.broadcast2 Rmult kp_vel e in
                 let* s := Torch.broadcast2 Rmult ki_vel i in
                 let* u := Torch.broadcast2 Rplus p s in
                 tensor_clamp u (Ropp <$> take 7 (effort_limits cfg))
                                (take 7 (effort_limits cfg)))
              vel_error vel_i_error in
  let* u := Torch.collect u in
  Ok (self, u).

(** [pre_physics_step]: three action columns drive joints 1, 3 and 5, the
    last one the gripper.  With [control_type = osc] the command of seven
    columns is scaled by a limit of six columns, which torch rejects before
    the controller is reached. *)
Definition pre_physics_step (cfg : Config) (actions : list (list R)) (self : State)
    : result State :=
  let self := set_actions actions self in
  let u_arm := (λ a, take (length a - 1) a) <$> actions in
  let u_gripper := (λ a, drop (length a - 1) a) <$> actions in
  let joint_cmd := replicate (num_envs cfg) (replicate 7 0) in
  let* rows := Torch.broadcast2 (Torch.index_put controlled_joints) u_arm joint_cmd in
  let* joint_cmd := Torch.collect rows in
  let cmd_limit :=
    match control_type cfg with
    | osc => [0.1; 0.1; 0.1; 0.5; 0.5; 0.5]
    | jvel => take 7 (effort_limits cfg)
    end in
  let* rows := Torch.collect ((λ c, Torch.broadcast2 Rmult c cmd_limit) <$> joint_cmd) in
  let joint_cmd := map (λ x, x / action_scale cfg) <$> rows in
  match control_type cfg with
  | osc => Err ShapeError
  | jvel =>
      let* (self, u_arm) := _compute_jvel_torques cfg joint_cmd self in
      let* effort :=
        Torch.inplace2 (λ row u, Ok (u ++ drop 7 row))
          (_effort_control self) u_arm in
      let upper := franka_dof_upper_limits cfg in
      let lower := franka_dof_lower_limits cfg in
      let* fingers :=
        Torch.collect
          ((λ g, match g, drop (length upper - 2) upper, drop (length lower - 2) lower with
                 | [g], [u1; u2], [l1; l2] =>
                     Ok (if bool_decide (g >= 0.0) then [u1; u2] else [l1; l2])
                 | _, _, _ => Err IndexError
                 end) <$> u_gripper) in
      let* pos :=
        Torch.inplace2 (λ row f, Ok (take 7 row ++ f ++ drop 9 row))
          (_pos_control self) fingers in
      Ok (set_pos_control pos (set_effort_control effort self))
  end.

Record TickInput : Type := {
  tick_noise : ResetNoise;
  tick_snap : SimBuffers;
}.

(** [post_physics_step]. *)
Definition post_physics_step (cfg : Config) (inp : TickInput) (self : State)
    : result State :=
  let self := set_progress_buf ((λ p, p + 1)%Z <$> progress_buf self) self in
  let in_contact :=
    (λ c, if bool_decide (vnorm c < 0.2) then 1 else 0) <$> cube_contact (states self) in
  let* sum := Torch.broadcast2 Rplus (contact_time self) in_contact in
  let* contact :=
    Torch.broadcast2 Rmult sum ((λ r, 1 - IZR r) <$> reset_buf self) in
  let self := set_contact_time contact self in
  let env_ids := nonzero (reset_buf self) in
  let* self :=
    if decide (0 < length env_ids)%nat
    then reset_idx cfg env_ids (tick_noise inp) self
    else Ok self in
  let* self := compute_observations (tick_snap inp) self in
  let* self := compute_reward cfg self in
  let (self, r) := store_proprio_hist cfg self in
  let* _ := r in
  Ok self.

(** The end of [__init__]. *)
Definition allocated (cfg : Config) (progress0 reset0 : list Z) (rew0 : list R)
    (hist0 : list (list (list R))) (sim0 : SimBuffers) : State :=
  {| progress_buf := progress0;
     reset_buf := reset0;
     rew_buf := rew0;
     extras_success := [];
     actions := [];
     states :=
       {| q := []; q_gripper := []; eef_pos := []; eef_quat := []; eef_vel := [];
          finger_pos := []; finger_quat := []; cube_pos := []; cube_quat := [];
          cube_vel := []; cube_contact := []; st_contact_time := [];
          goal_cube_pos := []; goal_cube_quat := []; cube_to_goal_cube_pos := [];
          cube_size := replicate (num_envs cfg) 0.05 |};
     sim := sim0;
     _init_cube_state := replicate (num_envs cfg) rigid_zeros;
     _goal_cube_state := replicate (num_envs cfg) rigid_zeros;
     _pos_control := replicate (num_envs cfg) (replicate (ncols (_q sim0)) 0);
     _effort_control := replicate (num_envs cfg) (replicate (ncols (_q sim0)) 0);
     contact_time := replicate (num_envs cfg) 0;
     vel_i_error := replicate (num_envs cfg) (replicate 7 0);
     proprio_hist_buf := hist0 |}.

Definition init (cfg : Config) (progress0 reset0 : list Z) (rew0 : list R)
    (hist0 : list (list (list R))) (sim0 : SimBuffers) (noise : ResetNoise)
    (snap : SimBuffers) : result State :=
  let* self := reset_idx cfg (seq 0 (num_envs cfg)) noise
                 (allocated cfg progress0 reset0 rew0 hist0 sim0) in
  _refresh snap self.

(** The states the task can be in. *)
Inductive reachable (cfg : Config) : State → Prop :=
  | reach_init progress0 reset0 rew0 hist0 sim0 noise snap self :
      length reset0 = num_envs cfg →
      init cfg progress0 reset0 rew0 hist0 sim0 noise snap = Ok self →
      reachable cfg self
  | reach_pre_physics_step actions self self' :
      reachable cfg self →
      pre_physics_step cfg actions self = Ok self' →
      reachable cfg self'
  | reach_post_physics_step inp self self' :
      reachable cfg self →
      post_physics_step cfg inp self = Ok self' →
      reachable cfg self'
  | reach_refresh snap self self' :
      reachable cfg self →
      _refresh snap self = Ok self' →
      reachable cfg self'
  | reach_reset_idx env_ids noise self self' :
      reachable cfg self →
      reset_idx cfg env_ids noise self = Ok self' →
      reachable cfg self'.

(** ** The observation vector and the reward read from it *)

(** The tensor that [compute_observations] assembles from the refreshed
    states and returns. *)
Definition obs_buf (include_priv_info : bool) (priv_info_buf : list (list R))
    (self : State) : result (list (list R)) :=
  let cube_pos := cube_pos (states self) in
  let cube_quat := cube_quat (states self) in
  let eef_pos := eef_pos (states self) in
  let eef_quat := eef_quat (states self) in
  let cube_vel := cube_vel (states self) in
  let* cube_pos_diff :=
    Torch.broadcast2 vsub (rs_pos <$> _goal_cube_state self) cube_pos in
  let obs := [row4 <$> cube_quat; row3 <$> eef_pos; row4 <$> eef_quat;
              row3 <$> cube_vel; row3 <$> cube_pos_diff] in
  let obs := if include_priv_info then obs ++ [priv_info_buf] else obs in
  cat_last (row3 <$> cube_pos) obs.

(** [batch_reward_fn] on one observation vector of the batch. *)
Definition batch_reward_row (cfg : Config) (obs : list R) : result R :=
  let cube_pos := take 3 obs in
  let eef_pos := take 3 (drop 7 obs) in
  let cube_pos_diff := take 3 (drop 17 obs) in
  let delta_pos := Push.norm_list cube_pos_diff in
  let pos_reward := 1.0 - tanh (10.0 * delta_pos) in
  let* cube_contact := Torch.broadcast2 Rminus cube_pos eef_pos in
  let contact_reward := 1.0 - tanh (10.0 * Push.norm_list cube_contact) in
  let success_threshold := 0.05 in
  let success_condition := bool_decide (delta_pos < success_threshold) in
  let success_reward :=
    (if success_condition then 1 else 0) * IZR (max_episode_length cfg) in
  let* r_pos_scale := dict_get (reward_settings cfg) "r_pos_scale" in
  let* r_contact_scale := dict_get (reward_settings cfg) "r_contact_scale" in
  let* r_success_scale := dict_get (reward_settings cfg) "r_success_scale" in
  Ok (r_pos_scale * pos_reward + r_contact_scale * contact_reward
      + r_success_scale * success_reward).

(** [batch_reward_fn]: [obs] has shape (batch, horizon, width). *)
Definition batch_reward_fn (cfg : Config) (obs : list (list (list R)))
    : result (list (list R)) :=
  Torch.collect ((λ traj, Torch.collect (batch_reward_row cfg <$> traj)) <$> obs).

End Throw.

(** * Statements

    The predicates in which the properties below are phrased, and concrete
    instances of the parameters for the examples. *)


(** The quaternion product and conjugate in the (x, y, z, w) layout. *)
Definition hamilton : JitUtils :=
  {| quat_mul a b :=
       Quat (qw a * qx b + qx a * qw b + qy a * qz b - qz a * qy b)
            (qw a * qy b - qx a * qz b + qy a * qw b + qz a * qx b)
            (qw a * qz b + qx a * qy b - qy a * qx b + qz a * qw b)
            (qw a * qw b - qx a * qx b - qy a * qy b - qz a * qz b);
     quat_conjugate a := Quat (- qx a) (- qy a) (- qz a) (qw a) |}.




(** An instance of [torch.inverse] for the examples: exact on the matrices
    that are their own inverse, such as the identity. *)
Definition involutive_inverse : TorchLinalg := {| torch_inverse m := Ok m |}.


(** An environment at rest with unit mass matrix, whose Jacobian selects
    the first six joints. *)
Definition example_osc_env : OscEnv :=
  {| osc_q := replicate 9 0;
     osc_qd := replicate 9 0;
     osc_mm := eye 7;
     osc_j_eef := take 6 (eye 7);
     osc_eef_vel := replicate 6 0 |}.




(** The dot product of two rows, and a row divided by its norm plus
    [eps]. *)
Definition vdot (a b : vec3) : R := vsum (vmul a b).
Definition normalize_eps (eps : R) (v : vec3) : vec3 := vdiv_scalar v (vnorm v + eps).

(** A configuration of the push task with one environment, and the
    simulator tensors of one environment with the cube at [c]. *)
Definition push_config (ci : Push.ControlInput) (n_hold : R) (dim : nat) : Push.Config :=
  {| Push.num_envs := 1;
     Push.max_episode_length := 100;
     Push.control_input := ci;
     Push.init_cube_pos_noise := 0.1;
     Push.goal_cube_pos_noise := 0.1;
     Push.franka_dof_noise := 0.25;
     Push.posRewardScale := 1;
     Push.oriRewardScale := 0;
     Push.contactRewardScale := 1;
     Push.successRewardScale := 1;
     Push.nHoldSteps := n_hold;
     Push.franka_dof_lower_limits := replicate 9 (-3);
     Push.franka_dof_upper_limits := replicate 9 3;
     Push.effort_limits := [87; 87; 87; 87; 12; 12; 12; 200; 200];
     Push._table_surface_pos := Vec3 0 0 1.025;
     Push.prop_dim := dim |}.

Definition rigid_at (c : vec3) : RigidState :=
  {| rs_pos := c; rs_quat := Quat 0 0 0 1; rs_lin_vel := vzero; rs_ang_vel := vzero |}.

Definition one_env_sim (c : vec3) : SimBuffers :=
  {| _cube_state := [rigid_at c];
     _eef_state := [rigid_at (Vec3 0 0 1.3)];
     _finger_state := [rigid_at (Vec3 0 0 1.2)];
     _q := [replicate 9 0];
     _qd := [replicate 9 0];
     _j_eef := [take 6 (eye 7)];
     _mm := [eye 7] |}.

(** Random samples at the middle of their range: no noise. *)
Definition no_noise : ResetNoise :=
  {| rand_init_xy _ _ := 0.5; rand_goal_xy _ _ := 0.5; rand_dof _ _ := 0.5 |}.

(** A state of the push task with one environment, a history of two
    slots, the cube at [c] and the goal at [g], with the given hold
    counter. *)
Definition push_state (dim : nat) (c g : vec3) (hold : R) : Push.State :=
  {| Push.progress_buf := [0%Z];
     Push.reset_buf := [0%Z];
     Push.rew_buf := [0];
     Push.extras_success := [false];
     Push.actions := [[0; 0; 0]];
     Push.states :=
       {| Push.q := [replicate 9 0]; Push.eef_pos := [Vec3 0 0 1.3];
          Push.eef_quat := [Quat 0 0 0 1]; Push.eef_vel := [replicate 6 0];
          Push.finger_pos := [Vec3 0 0 1.2]; Push.finger_quat := [Quat 0 0 0 1];
          Push.cube_pos := [c]; Push.cube_quat := [Quat 0 0 0 1];
          Push.cube_vel := [vzero]; Push.cube_contact := [vsub c (Vec3 0 0 1.2)];
          Push.goal_cube_pos := [g]; Push.goal_cube_quat := [Quat 0 0 0 1];
          Push.cube_to_goal_cube_pos := [vsub g c];
          Push.hold_counters := [hold]; Push.cube_size := [0.05] |};
     Push.sim := one_env_sim c;
     Push._init_cube_state := [rigid_at c];
     Push._goal_cube_state := [rigid_at g];
     Push._pos_control := [replicate 9 0];
     Push._effort_control := [replicate 9 0];
     Push.proprio_hist_buf := [replicate 2 (replicate dim 0)] |}.


(** The configurations in which every call of [post_physics_step] resets
    every environment (one-step primitive episodes). *)
Definition single_step_primitive (cfg : Push.Config) : Prop :=
  Push.control_input cfg = Push.primitive ∧ Push.max_episode_length cfg = 1%Z.

(** A reset flag is 0 or 1. *)
Definition is_flag (r : Z) : Prop := r = 0%Z ∨ r = 1%Z.

(** The invariant of the throw task: the contact timer is non-negative and
    the reset flags are 0 or 1. *)
Definition throw_inv (self : Throw.State) : Prop :=
  Forall (λ t, 0 <= t) (Throw.contact_time self) ∧ Forall is_flag (Throw.reset_buf self).

(** One tick of the push task: no reset noise, the cube at [c]. *)
Definition push_tick (c : vec3) : Push.TickInput :=
  {| Push.tick_noise := no_noise;
     Push.tick_snap := one_env_sim c;
     Push.tick_snap2 := one_env_sim c |}.

(** A configuration and a state of the throw task with one environment;
    the integral error of every joint is [acc]. *)
Definition throw_config : Throw.Config :=
  {| Throw.num_envs := 1;
     Throw.max_episode_length := 100;
     Throw.control_type := Throw.jvel;
     Throw.action_scale := 1;
     Throw.goal_cube_pos_noise := 0.1;
     Throw.franka_dof_noise := 0.25;
     Throw.posRewardScale := 1;
     Throw.oriRewardScale := 0;
     Throw.contactRewardScale := 1;
     Throw.velRewardScale := 1;
     Throw.successRewardScale := 1;
     Throw.eefApproachPenaltyScale := 0;
     Throw.franka_dof_lower_limits := replicate 9 (-3);
     Throw.franka_dof_upper_limits := replicate 9 3;
     Throw.effort_limits := [87; 87; 87; 87; 12; 12; 12; 200; 200];
     Throw._table_surface_pos := Vec3 1 0 1.025;
     Throw.prop_dim := 32 |}.

Definition throw_state (acc : R) : Throw.State :=
  {| Throw.progress_buf := [0%Z];
     Throw.reset_buf := [0%Z];
     Throw.rew_buf := [0];
     Throw.extras_success := [false];
     Throw.actions := [[0; 0; 0; 0]];
     Throw.states :=
       {| Throw.q := [replicate 9 0]; Throw.q_gripper := [replicate 2 0];
          Throw.eef_pos := [Vec3 0 0 1.3]; Throw.eef_quat := [Quat 0 0 0 1];
          Throw.eef_vel := [replicate 6 0];
          Throw.finger_pos := [Vec3 0 0 1.2]; Throw.finger_quat := [Quat 0 0 0 1];
          Throw.cube_pos := [Vec3 0.216 0 1.05]; Throw.cube_quat := [Quat 0 0 0 1];
          Throw.cube_vel := [vzero]; Throw.cube_contact := [Vec3 0.216 0 (-0.15)];
          Throw.st_contact_time := [0];
          Throw.goal_cube_pos := [Vec3 2 0 1.05]; Throw.goal_cube_quat := [Quat 0 0 0 1];
          Throw.cube_to_goal_cube_pos := [Vec3 1.784 0 0];
          Throw.cube_size := [0.05] |};
     Throw.sim := one_env_sim (Vec3 0.216 0 1.05);
     Throw._init_cube_state := [rigid_at (Vec3 0.216 0 1.05)];
     Throw._goal_cube_state := [rigid_at (Vec3 2 0 1.05)];
     Throw._pos_control := [replicate 9 0];
     Throw._effort_control := [replicate 9 0];
     Throw.contact_time := [0];
     Throw.vel_i_error := [replicate 7 acc];
     Throw.proprio_hist_buf := [replicate 2 (replicate 32 0)] |}.

(** [n] copies of the simulator tensors of one environment, with the
    joints away from their defaults and moving. *)
Definition sim_batch (n : nat) (c : vec3) : SimBuffers :=
  {| _cube_state := replicate n (rigid_at c);
     _eef_state := replicate n (rigid_at (Vec3 0 0 1.3));
     _finger_state := replicate n (rigid_at (Vec3 0 0 1.2));
     _q := replicate n (replicate 9 0.5);
     _qd := replicate n (replicate 9 0.1);
     _j_eef := replicate n (take 6 (eye 7));
     _mm := replicate n (eye 7) |}.

(** A state of the push task with [n] environments in the middle of an
    episode: step count 7, reset flag up, hold counter 3, non-zero
    controls. *)
Definition push_batch (n : nat) (c g : vec3) : Push.State :=
  {| Push.progress_buf := replicate n 7%Z;
     Push.reset_buf := replicate n 1%Z;
     Push.rew_buf := replicate n 0;
     Push.extras_success := replicate n false;
     Push.actions := replicate n [0; 0; 0];
     Push.states :=
       {| Push.q := replicate n (replicate 9 0.5);
          Push.eef_pos := replicate n (Vec3 0 0 1.3);
          Push.eef_quat := replicate n (Quat 0 0 0 1);
          Push.eef_vel := replicate n (replicate 6 0);
          Push.finger_pos := replicate n (Vec3 0 0 1.2);
          Push.finger_quat := replicate n (Quat 0 0 0 1);
          Push.cube_pos := replicate n c;
          Push.cube_quat := replicate n (Quat 0 0 0 1);
          Push.cube_vel := replicate n vzero;
          Push.cube_contact := replicate n (vsub c (Vec3 0 0 1.2));
          Push.goal_cube_pos := replicate n g;
          Push.goal_cube_quat := replicate n (Quat 0 0 0 1);
          Push.cube_to_goal_cube_pos := replicate n (vsub g c);
          Push.hold_counters := replicate n 3;
          Push.cube_size := replicate n 0.05 |};
     Push.sim := sim_batch n c;
     Push._init_cube_state := replicate n (rigid_at c);
     Push._goal_cube_state := replicate n (rigid_at g);
     Push._pos_control := replicate n (replicate 9 0.5);
     Push._effort_control := replicate n (replicate 9 2);
     Push.proprio_hist_buf := replicate n (replicate 2 (replicate 32 0)) |}.

(** The same for the throw task, with a contact timer of 4. *)
Definition throw_batch (n : nat) : Throw.State :=
  {| Throw.progress_buf := replicate n 7%Z;
     Throw.reset_buf := replicate n 1%Z;
     Throw.rew_buf := replicate n 0;
     Throw.extras_success := replicate n false;
     Throw.actions := replicate n [0; 0; 0; 0];
     Throw.states :=
       {| Throw.q := replicate n (replicate 9 0.5);
          Throw.q_gripper := replicate n (replicate 2 0.5);
          Throw.eef_pos := replicate n (Vec3 0 0 1.3);
          Throw.eef_quat := replicate n (Quat 0 0 0 1);
          Throw.eef_vel := replicate n (replicate 6 0);
          Throw.finger_pos := replicate n (Vec3 0 0 1.2);
          Throw.finger_quat := replicate n (Quat 0 0 0 1);
          Throw.cube_pos := replicate n (Vec3 0.216 0 1.05);
          Throw.cube_quat := replicate n (Quat 0 0 0 1);
          Throw.cube_vel := replicate n vzero;
          Throw.cube_contact := replicate n (Vec3 0.216 0 (-0.15));
          Throw.st_contact_time := replicate n 4;
          Throw.goal_cube_pos := replicate n (Vec3 2 0 1.05);
          Throw.goal_cube_quat := replicate n (Quat 0 0 0 1);
          Throw.cube_to_goal_cube_pos := replicate n (Vec3 1.784 0 0);
          Throw.cube_size := replicate n 0.05 |};
     Throw.sim := sim_batch n (Vec3 0.216 0 1.05);
     Throw._init_cube_state := replicate n (rigid_at (Vec3 0.216 0 1.05));
     Throw._goal_cube_state := replicate n (rigid_at (Vec3 2 0 1.05));
     Throw._pos_control := replicate n (replicate 9 0.5);
     Throw._effort_control := replicate n (replicate 9 2);
     Throw.contact_time := replicate n 4;
     Throw.vel_i_error := replicate n (replicate 7 0);
     Throw.proprio_hist_buf := replicate n (replicate 2 (replicate 32 0)) |}.

(** One tick of the throw task: no reset noise, the cube at [c]. *)
Definition throw_tick (c : vec3) : Throw.TickInput :=
  {| Throw.tick_noise := no_noise; Throw.tick_snap := one_env_sim c |}.

(** Every per-environment buffer of the push task holds at index [i] of
    [self'] what it holds in [self]. *)
Definition push_env_unchanged (i : nat) (self self' : Push.State) : Prop :=
  Push.progress_buf self' !! i = Push.progress_buf self !! i ∧
  Push.reset_buf self' !! i = Push.reset_buf self !! i ∧
  Push.hold_counters (Push.states self') !! i
    = Push.hold_counters (Push.states self) !! i ∧
  Push._init_cube_state self' !! i = Push._init_cube_state self !! i ∧
  Push._goal_cube_state self' !! i = Push._goal_cube_state self !! i ∧
  _cube_state (Push.sim self') !! i = _cube_state (Push.sim self) !! i ∧
  _q (Push.sim self') !! i = _q (Push.sim self) !! i ∧
  _qd (Push.sim self') !! i = _qd (Push.sim self) !! i ∧
  Push._pos_control self' !! i = Push._pos_control self !! i ∧
  Push._effort_control self' !! i = Push._effort_control self !! i.

(** The same for the throw task. *)
Definition throw_env_unchanged (i : nat) (self self' : Throw.State) : Prop :=
  Throw.progress_buf self' !! i = Throw.progress_buf self !! i ∧
  Throw.reset_buf self' !! i = Throw.reset_buf self !! i ∧
  Throw.contact_time self' !! i = Throw.contact_time self !! i ∧
  Throw._init_cube_state self' !! i = Throw._init_cube_state self !! i ∧
  Throw._goal_cube_state self' !! i = Throw._goal_cube_state self !! i ∧
  _cube_state (Throw.sim self') !! i = _cube_state (Throw.sim self) !! i ∧
  _q (Throw.sim self') !! i = _q (Throw.sim self) !! i ∧
  _qd (Throw.sim self') !! i = _qd (Throw.sim self) !! i ∧
  Throw._pos_control self' !! i = Throw._pos_control self !! i ∧
  Throw._effort_control self' !! i = Throw._effort_control self !! i.

(** The samples of [torch.rand] lie in the interval [0, 1). *)
Definition unit_samples (rand : nat → nat → R) : Prop :=
  ∀ k c : nat, 0 <= rand k c < 1.

(** [s] is the state of a cube of edge [h] at rest on the table, upright,
    within [noise] of the point ([cx], [cy]) in both horizontal
    directions. *)
Definition on_table_near (table : vec3) (cx cy noise h : R) (s : RigidState) : Prop :=
  Rabs (vx (rs_pos s) - cx) <= noise ∧ Rabs (vy (rs_pos s) - cy) <= noise ∧
  vz (rs_pos s) = vz table + h / 2 ∧
  rs_quat s = Quat 0 0 0 1 ∧ rs_lin_vel s = vzero ∧ rs_ang_vel s = vzero.

(** The cube of environment [i] is not within the success threshold of the
    goal position [g] at the refresh of the tick [inp]. *)
Definition outside_threshold (i : nat) (g : RigidState) (inp : Push.TickInput) : Prop :=
  ∃ c, _cube_state (Push.tick_snap inp) !! i = Some c ∧
       ¬ vnorm (vsub (rs_pos g) (rs_pos c)) < 0.05.


(** A configuration of the action path of the slide task. *)
Definition slide_control : Slide.Control :=
  {| Slide.control_input := Slide.pose3d;
     Slide.control_type := Slide.osc;
     Slide.action_scale := 1;
     Slide.effort_limits := [87; 87; 87; 87; 12; 12; 12; 200; 200] |}.

(** The angle and axis of the identity rotation, whatever the quaternion:
    enough for a first step, where the orientation error is not computed. *)
Definition identity_angle_axis : AngleAxis :=
  {| quat_to_angle_axis _ := (0, Vec3 0 0 1) |}.

(** Variable impedance between 10 and 300, no action noise. *)
Definition push_control (ct : Push.ControlType) : Push.ControlConfig :=
  {| Push.control_type := ct;
     Push.variable_imp := true;
     Push.kp_min := 10;
     Push.kp_max := 300;
     Push.action_scale := 1;
     Push.add_action_noise := false |}.

(** The controller as [__init__] leaves it. *)
Definition push_controller : Push.Controller :=
  {| Push.ctl_kp := Push.Vector (replicate 6 200);
     Push.quat_desired := None;
     Push._steps_elapsed := 0 |}.

(** * Properties *)

(** ** The result monad and the tensor library *)

Lemma bind_Ok {A B} (m : result A) (f : A → result B) (b : B) :
  bind m f = Ok b → ∃ a, m = Ok a ∧ f a = Ok b.
Proof. destruct m as [a|e]; simpl; [eauto | discriminate]. Qed.

Lemma bind_Ok_l {A B} (m : result A) (f : A → result B) (a : A) :
  m = Ok a → bind m f = f a.
Proof. intros ->. reflexivity. Qed.

(** Peel the binds of a hypothesis [H : let* x := m in k = Ok r]. *)
Ltac inv_bind H :=
  repeat match type of H with
         | bind _ _ = Ok _ =>
             let x := fresh "x" in
             let Hx := fresh "Hx" in
             apply bind_Ok in H as (x & Hx & H)
         end.

Lemma Ok_inj {A} (a b : A) : Ok a = Ok b → a = b.
Proof. congruence. Qed.

Ltac inv_Ok H := try apply Ok_inj in H; simplify_eq.


(** Whatever way the operands were broadcast, position [i] of the result is
    [f] of the two operands at [i], when both have a position [i]. *)
Lemma broadcast2_lookup {A B C} (f : A → B → C) (xs : list A) (ys : list B)
    (zs : list C) (i : nat) (x : A) (y : B) :
  Torch.broadcast2 f xs ys = Ok zs →
  xs !! i = Some x → ys !! i = Some y → zs !! i = Some (f x y).
Proof.
  unfold Torch.broadcast2. intros Hb Hx Hy.
  destruct (decide (length xs = length ys)) as [E|E].
  - inv_Ok Hb. rewrite lookup_zip_with, Hx. simpl. rewrite Hy. done.
  - destruct xs as [|x0 [|x1 xs]]; [done| |].
    + destruct i; [|done]. simpl in Hx. inv_Ok Hx. inv_Ok Hb.
      rewrite list_lookup_fmap, Hy. done.
    + destruct ys as [|y0 [|y1 ys]]; [done| |done].
      destruct i; [|done]. simpl in Hy. inv_Ok Hy. inv_Ok Hb.
      simpl in *. congruence.
Qed.

Lemma where_lookup {A} (cond : list bool) (a b out : list A) (i : nat) (c : bool)
    (x y : A) :
  Torch.where_ cond a b = Ok out →
  cond !! i = Some c → a !! i = Some x → b !! i = Some y →
  out !! i = Some (if c then x else y).
Proof.
  unfold Torch.where_. intros Hw Hc Ha Hb. inv_bind Hw.
  eapply broadcast2_lookup in Hx; [|done..].
  eapply broadcast2_lookup in Hw; [|done..]. done.
Qed.

(** [torch.where(cond, a, y)] with a scalar [y]. *)
Lemma where_scalar_lookup {A} (cond : list bool) (a out : list A) (y : A) (i : nat)
    (c : bool) (x : A) :
  Torch.where_ cond a [y] = Ok out →
  cond !! i = Some c → a !! i = Some x →
  out !! i = Some (if c then x else y).
Proof.
  unfold Torch.where_. intros Hw Hc Ha. inv_bind Hw.
  assert (Hab : x0 !! i = Some (x, y)).
  { unfold Torch.broadcast2 in Hx.
    destruct (decide (length a = length [y])) as [E|E].
    - inv_Ok Hx. destruct a as [|a0 [|? ?]]; try done.
      destruct i; [|done]. simpl in *. by inv_Ok Ha.
    - destruct a as [|a0 [|a1 a]]; try done. inv_Ok Hx.
      by rewrite list_lookup_fmap, Ha. }
  eapply broadcast2_lookup in Hw; [|done..]. done.
Qed.

(** The termination rule, per environment. *)
Lemma termination_lookup (reset_buf progress_buf : list Z) max_len
    (success : list bool) (out : list Z) (i : nat) (p : Z) (s : bool) (r : Z) :
  termination reset_buf progress_buf max_len success = Ok out →
  progress_buf !! i = Some p → success !! i = Some s → reset_buf !! i = Some r →
  out !! i = Some (if bool_decide (IZR p >= max_len - 1) || s then 1%Z else r).
Proof.
  unfold termination. intros Ht Hp Hs Hr. inv_bind Ht.
  eapply broadcast2_lookup in Hx; [| by rewrite list_lookup_fmap, Hp | done].
  eapply where_lookup in Ht; [| done | by rewrite list_lookup_fmap, Hr | done].
  done.
Qed.


Lemma dict_get_None d k : d !! k = None → dict_get d k = Err (KeyError k).
Proof. unfold dict_get. by intros ->. Qed.

(** ** C1: the termination rule *)



(** ** C10: the reward of the push task ignores orientations *)


(** ** C4: the wrapped joint-angle error *)

Lemma remainder_range (x m : R) :
  0 < m → 0 <= Torch.remainder x m < m.
Proof.
  intros Hm. unfold Torch.remainder.
  destruct (base_Int_part (x / m)) as [Hlo Hhi].
  assert (Hx : x = x / m * m) by (field; lra).
  set (k := IZR (Int_part (x / m))) in *.
  split; nra.
Qed.

Lemma Int_part_1 : Int_part 1 = 1%Z.
Proof. symmetry. apply Int_part_spec. lra. Qed.

(** C4, as the code has it.  The joint-angle error that is multiplied by
    [kp_null] differs from [default_pose - q] by a multiple of [2 * PI] and
    lies in the half-open interval that contains [- PI] and excludes
    [PI]. *)
Theorem null_error_wrapped (default_q q : R) :
  (∃ k : Z, null_error default_q q = default_q - q + 2 * PI * IZR k) ∧
  - PI <= null_error default_q q < PI.
Proof.
  pose proof PI_RGT_0 as Hpi.
  split.
  - exists (- Int_part ((default_q - q + PI) / (2 * PI)))%Z.
    unfold null_error, Torch.remainder. rewrite opp_IZR. lra.
  - unfold null_error.
    destruct (remainder_range (default_q - q + PI) (2 * PI)) as [Hlo Hhi]; lra.
Qed.

(** The error at [q = default - PI] is [- PI], which the interval of the
    claim excludes. *)
Lemma null_error_at_minus_pi :
  null_error 0 (- PI) = - PI ∧ ¬ (- PI < null_error 0 (- PI) <= PI).
Proof.
  pose proof PI_RGT_0 as Hpi.
  assert (E : null_error 0 (- PI) = - PI).
  { unfold null_error, Torch.remainder.
    replace ((0 - - PI + PI) / (2 * PI)) with 1 by (field; lra).
    rewrite Int_part_1. lra. }
  split; [exact E|]. rewrite E. lra.
Qed.

(** ** C6: the torque command stays within the effort limits *)

(** Every element of a broadcast result comes from elements of the two
    operands: the ones at the same position, or the single element of an
    operand of size 1. *)
Lemma broadcast2_lookup_inv {A B C} (f : A → B → C) (xs : list A) (ys : list B)
    (zs : list C) (i : nat) (z : C) :
  Torch.broadcast2 f xs ys = Ok zs → zs !! i = Some z →
  ∃ x y, z = f x y ∧ (xs !! i = Some x ∨ xs = [x]) ∧ (ys !! i = Some y ∨ ys = [y]).
Proof.
  unfold Torch.broadcast2. intros Hb Hz.
  destruct (decide (length xs = length ys)) as [E|E].
  - inv_Ok Hb. apply lookup_zip_with_Some in Hz as (x & y & -> & Hx & Hy). eauto 10.
  - destruct xs as [|x0 [|x1 xs]].
    + destruct ys as [|y0 [|y1 ys]]; [done| |done]. by inv_Ok Hb.
    + inv_Ok Hb. rewrite list_lookup_fmap in Hz.
      destruct (ys !! i) as [y|] eqn:Hy; [|done]. simpl in Hz. inv_Ok Hz. eauto 10.
    + destruct ys as [|y0 [|y1 ys]]; [done| |done]. inv_Ok Hb.
      rewrite list_lookup_fmap in Hz.
      destruct ((x0 :: x1 :: xs) !! i) as [x|] eqn:Hx; [|done]. simpl in Hz.
      inv_Ok Hz. eauto 10.
Qed.

Lemma collect_lookup {A} (rows : list (result A)) (out : list A) (i : nat) (a : A) :
  Torch.collect rows = Ok out → out !! i = Some a → rows !! i = Some (Ok a).
Proof.
  revert out i. induction rows as [|r rows IH]; intros out i Hc Ha; simpl in Hc.
  - by inv_Ok Hc.
  - inv_bind Hc. inv_Ok Hc. destruct i; simpl in *.
    + congruence.
    + eauto.
Qed.






(** ** C9: the reward computation of the slide task never returns *)








(** ** C5: the velocity-alignment term *)

Lemma vnorm_nonneg (a : vec3) : 0 <= vnorm a.
Proof. apply sqrt_pos. Qed.

(** Cauchy-Schwarz on rows of three. *)
Lemma vdot_le_norms (a b : vec3) : vdot a b <= vnorm a * vnorm b.
Proof.
  destruct a as [a1 a2 a3], b as [b1 b2 b3]. unfold vdot, vsum, vmul, vnorm. simpl.
  set (A := a1 * a1 + a2 * a2 + a3 * a3).
  set (B := b1 * b1 + b2 * b2 + b3 * b3).
  set (d := a1 * b1 + a2 * b2 + a3 * b3).
  assert (HA : 0 <= A) by (unfold A; nra).
  assert (HB : 0 <= B) by (unfold B; nra).
  assert (Hd : Rsqr d <= A * B).
  { unfold Rsqr, d, A, B.
    pose proof (Rle_0_sqr (a1 * b2 - a2 * b1)).
    pose proof (Rle_0_sqr (a1 * b3 - a3 * b1)).
    pose proof (Rle_0_sqr (a2 * b3 - a3 * b2)).
    unfold Rsqr in *. nra. }
  rewrite <- sqrt_mult by done.
  apply Rle_trans with (Rabs d); [apply Rle_abs|].
  rewrite <- sqrt_Rsqr_abs. apply sqrt_le_1; [apply Rle_0_sqr | nra | done].
Qed.

Lemma vdot_normalize_eps (e1 e2 : R) (a b : vec3) :
  0 < e1 → 0 < e2 →
  vdot (normalize_eps e1 a) (normalize_eps e2 b)
  = vdot a b / ((vnorm a + e1) * (vnorm b + e2)).
Proof.
  intros H1 H2. pose proof (vnorm_nonneg a). pose proof (vnorm_nonneg b).
  unfold vdot, normalize_eps, vsum, vmul, vdiv_scalar. simpl. field. lra.
Qed.

Lemma vdot_normalize_eps_le_1 (e1 e2 : R) (a b : vec3) :
  0 < e1 → 0 < e2 → vdot (normalize_eps e1 a) (normalize_eps e2 b) <= 1.
Proof.
  intros H1 H2. rewrite vdot_normalize_eps by done.
  pose proof (vnorm_nonneg a) as Ha. pose proof (vnorm_nonneg b) as Hb.
  pose proof (vdot_le_norms a b) as Hcs.
  set (D := (vnorm a + e1) * (vnorm b + e2)).
  assert (HD : 0 < D) by (unfold D; nra).
  assert (Hx : vdot a b <= D) by (unfold D; nra).
  unfold Rdiv. apply Rmult_le_reg_r with D; [done|].
  rewrite Rmult_assoc, Rinv_l by lra. lra.
Qed.

Lemma clamp_min_0_nonneg (x : R) : 0 <= Torch.clamp_min x 0.0.
Proof. unfold Torch.clamp_min. replace 0.0 with 0 by lra. apply Rmax_r. Qed.

Lemma clamp_min_0_le (x y : R) : x <= y → 0 <= y → Torch.clamp_min x 0.0 <= y.
Proof.
  intros. unfold Torch.clamp_min. replace 0.0 with 0 by lra. by apply Rmax_lub.
Qed.




(** ** C8: the proprioception history never truncates its source *)

Lemma set_proprio_hist_buf_same (self : Push.State) :
  Push.set_proprio_hist_buf (Push.proprio_hist_buf self) self = self.
Proof. by destruct self. Qed.

Lemma last_insert_last {A} (l : list A) (x : A) :
  l ≠ [] → last (<[(length l - 1)%nat := x]> l) = Some x.
Proof.
  intros Hl. rewrite last_lookup, length_insert.
  replace (Nat.pred (length l)) with (length l - 1)%nat by lia.
  apply list_lookup_insert_eq. destruct l; [done|simpl; lia].
Qed.

(** The newest slot of every environment after a successful call of
    [store_hist] on a buffer of width at least 7. *)
Lemma store_hist_newest (n dim : nat) (cube_pos : list vec3) (cube_quat : list quat)
    (buf buf' : list (list (list R))) (i : nat) (p : vec3) (q : quat)
    (hist : list (list R)) :
  (7 <= dim)%nat →
  store_hist n dim cube_pos cube_quat buf = (buf', Ok ()) →
  cube_pos !! i = Some p → cube_quat !! i = Some q → buf' !! i = Some hist →
  last hist = Some (pos_quat_row p q ++ replicate (dim - 7) 0).
Proof.
  intros Hdim Hs Hp Hq Hh. unfold store_hist in Hs.
  destruct (cat1 _ _) as [cs|e] eqn:Hcat; [|done].
  rewrite decide_False in Hs by lia.
  match type of Hs with
  | context [match ?pad with Ok _ => _ | Err _ => _ end] =>
      destruct pad as [cs'|e] eqn:Hpad; [|done]
  end.
  destruct (Torch.inplace2 _ _ _) as [out|e] eqn:Hin; [|done].
  inv_Ok Hs.
  assert (Hcs : cs !! i = Some (pos_quat_row p q)).
  { unfold cat1 in Hcat. destruct (decide _); [|done]. inv_Ok Hcat.
    rewrite lookup_zip_with, !list_lookup_fmap, Hp, Hq. done. }
  assert (Hcs' : cs' !! i = Some (pos_quat_row p q ++ replicate (dim - 7) 0)).
  { destruct (decide (7 < dim)%nat) as [Hlt|Hge].
    - unfold cat1 in Hpad. destruct (decide _) as [El|]; [|done]. inv_Ok Hpad.
      rewrite lookup_zip_with, Hcs. simpl.
      rewrite lookup_replicate_2; [done|].
      rewrite length_replicate in El. rewrite <- El. by eapply lookup_lt_Some.
    - inv_Ok Hpad. replace (dim - 7)%nat with 0%nat by lia.
      change (replicate 0 0) with (@nil R). by rewrite app_nil_r. }
  unfold Torch.inplace2 in Hin. inv_bind Hin.
  destruct (decide (length x0 = _)); [|done]. inv_Ok Hin.
  pose proof (collect_lookup _ _ _ _ Hx0 Hh) as Hrow.
  destruct (broadcast2_lookup_inv _ _ _ _ _ _ Hx Hrow) as (h0 & row & Hf & _ & Hr).
  assert (row = pos_quat_row p q ++ replicate (dim - 7) 0) as ->.
  { destruct Hr as [Hr|Hr]; [by simplify_eq|]. subst cs'.
    destruct i; simpl in Hcs'; by simplify_eq. }
  destruct h0 as [|s0 h0]; [done|]. inv_Ok Hf.
  by apply last_insert_last.
Qed.

(** C8.  [store_proprio_hist] on a buffer narrower than the seven columns
    of the cube pose raises without writing the buffer (the dimension
    mismatch error, when position and orientation have the same number of
    rows); on a buffer of width at least seven, a call that returns leaves,
    in every environment, the newest slot equal to the cube pose followed
    by zeros up to the width. *)
Theorem store_proprio_hist_pads_or_fails (cfg : Push.Config) (self : Push.State) :
  ((Push.prop_dim cfg < 7)%nat →
     (∃ e, Push.store_proprio_hist cfg self = (self, Err e)) ∧
     (length (Push.cube_pos (Push.states self))
        = length (Push.cube_quat (Push.states self)) →
      Push.store_proprio_hist cfg self = (self, Err ValueError))) ∧
  ((7 <= Push.prop_dim cfg)%nat →
     ∀ self' (i : nat) (p : vec3) (q : quat) (hist : list (list R)),
       Push.store_proprio_hist cfg self = (self', Ok ()) →
       Push.cube_pos (Push.states self) !! i = Some p →
       Push.cube_quat (Push.states self) !! i = Some q →
       Push.proprio_hist_buf self' !! i = Some hist →
       last hist = Some (pos_quat_row p q ++ replicate (Push.prop_dim cfg - 7) 0)).
Proof.
  split.
  - intros Hdim.
    unfold Push.store_proprio_hist, store_hist.
    destruct (cat1 _ _) as [cs|e0] eqn:Hcat.
    + rewrite decide_True by lia. rewrite set_proprio_hist_buf_same. eauto.
    + rewrite set_proprio_hist_buf_same. split; [eauto|].
      intros Hlen. unfold cat1 in Hcat.
      rewrite decide_True in Hcat by (by rewrite !length_fmap). done.
  - intros Hdim self' i p q hist Hs Hp Hq Hh.
    unfold Push.store_proprio_hist in Hs.
    destruct (store_hist _ _ _ _ _) as [buf r] eqn:Hst. inv_Ok Hs.
    simpl in Hh. eapply store_hist_newest; eauto.
Qed.

Lemma store_proprio_hist_pads_or_fails_witness :
  Push.store_proprio_hist (push_config Push.pose3d 2 5)
    (push_state 5 (Vec3 0.1 0.2 1.05) (Vec3 0 0.25 1.05) 0)
  = (push_state 5 (Vec3 0.1 0.2 1.05) (Vec3 0 0.25 1.05) 0, Err ValueError) ∧
  ∃ self' hist,
    Push.store_proprio_hist (push_config Push.pose3d 2 32)
      (push_state 32 (Vec3 0.1 0.2 1.05) (Vec3 0 0.25 1.05) 0) = (self', Ok ()) ∧
    Push.proprio_hist_buf self' !! 0%nat = Some hist ∧
    last hist = Some (pos_quat_row (Vec3 0.1 0.2 1.05) (Quat 0 0 0 1) ++ replicate 25 0).
Proof.
  split.
  - apply (proj1 (store_proprio_hist_pads_or_fails (push_config Push.pose3d 2 5)
                    (push_state 5 (Vec3 0.1 0.2 1.05) (Vec3 0 0.25 1.05) 0))).
    + simpl. lia.
    + reflexivity.
  - eexists _, _. split; [reflexivity|]. split; [reflexivity|].
    refine (proj2 (store_proprio_hist_pads_or_fails (push_config Push.pose3d 2 32)
                     (push_state 32 (Vec3 0.1 0.2 1.05) (Vec3 0 0.25 1.05) 0))
              _ _ 0%nat (Vec3 0.1 0.2 1.05) (Quat 0 0 0 1) _
              eq_refl eq_refl eq_refl eq_refl).
    simpl. lia.
Defined.

(** ** Indexed writes *)

Lemma index_fill_length {A} (ids : list nat) (v : A) (t t' : list A) :
  Torch.index_fill ids v t = Ok t' → length t' = length t.
Proof.
  revert t. induction ids as [|i ids IH]; intros t Hf; simpl in Hf.
  - by inv_Ok Hf.
  - destruct (decide (i < length t)%nat); [|done].
    apply IH in Hf. by rewrite length_insert in Hf.
Qed.

Lemma index_fill_lookup_stable {A} (ids : list nat) (v : A) (t t' : list A) (i : nat) :
  Torch.index_fill ids v t = Ok t' → t !! i = Some v → t' !! i = Some v.
Proof.
  revert t. induction ids as [|i0 ids IH]; intros t Hf Hi; simpl in Hf.
  - by inv_Ok Hf.
  - destruct (decide (i0 < length t)%nat); [|done].
    apply (IH _ Hf). destruct (decide (i0 = i)) as [->|Hne].
    + by apply list_lookup_insert_eq.
    + by rewrite list_lookup_insert_ne.
Qed.

(** After [t[ids] = v], every index of [ids] holds [v]. *)
Lemma index_fill_lookup {A} (ids : list nat) (v : A) (t t' : list A) (i : nat) :
  Torch.index_fill ids v t = Ok t' → i ∈ ids → t' !! i = Some v.
Proof.
  revert t. induction ids as [|i0 ids IH]; intros t Hf Hi; simpl in Hf.
  - by apply elem_of_nil in Hi.
  - destruct (decide (i0 < length t)%nat); [|done].
    apply elem_of_cons in Hi as [->|Hi].
    + eapply index_fill_lookup_stable; [done|]. by apply list_lookup_insert_eq.
    + by eapply IH.
Qed.

(** ... and the other indices are untouched. *)
Lemma index_fill_lookup_ne {A} (ids : list nat) (v : A) (t t' : list A) (i : nat) :
  Torch.index_fill ids v t = Ok t' → i ∉ ids → t' !! i = t !! i.
Proof.
  revert t. induction ids as [|i0 ids IH]; intros t Hf Hi; simpl in Hf.
  - by inv_Ok Hf.
  - destruct (decide (i0 < length t)%nat); [|done].
    apply not_elem_of_cons in Hi as [Hne Hi].
    rewrite (IH _ Hf Hi). by rewrite list_lookup_insert_ne.
Qed.

Lemma index_fill_Forall {A} (P : A → Prop) (ids : list nat) (v : A) (t t' : list A) :
  Torch.index_fill ids v t = Ok t' → P v → Forall P t → Forall P t'.
Proof.
  revert t. induction ids as [|i0 ids IH]; intros t Hf Hv Ht; simpl in Hf.
  - by inv_Ok Hf.
  - destruct (decide (i0 < length t)%nat); [|done].
    eapply IH; [done..|]. by apply Forall_insert.
Qed.

Lemma index_put_zip_lookup_ne {A} (ids : list nat) (rows t t' : list A) (i : nat) :
  Torch.index_put_zip ids rows t = Ok t' → i ∉ ids → t' !! i = t !! i.
Proof.
  revert rows t. induction ids as [|i0 ids IH]; intros rows t Hf Hi; simpl in Hf.
  - by inv_Ok Hf.
  - destruct rows as [|r rows]; [by inv_Ok Hf|].
    destruct (decide (i0 < length t)%nat); [|done].
    apply not_elem_of_cons in Hi as [Hne Hi].
    rewrite (IH _ _ Hf Hi). by rewrite list_lookup_insert_ne.
Qed.

Lemma index_put_lookup_ne {A} (ids : list nat) (rows t t' : list A) (i : nat) :
  Torch.index_put ids rows t = Ok t' → i ∉ ids → t' !! i = t !! i.
Proof.
  unfold Torch.index_put. intros Hf Hi.
  destruct (decide (length ids = length rows)).
  - by eapply index_put_zip_lookup_ne.
  - destruct rows as [|r [|? ?]]; try done. by eapply index_fill_lookup_ne.
Qed.

Lemma nonzero_elem (t : list Z) (i : nat) :
  i ∈ nonzero t ↔ ∃ r, t !! i = Some r ∧ r ≠ 0%Z.
Proof.
  unfold nonzero. rewrite list_elem_of_omap. split.
  - intros ([j r] & Hin & Hsome). simpl in Hsome.
    destruct (decide (r = 0%Z)); [done|]. inv_Ok Hsome.
    apply list_elem_of_lookup in Hin as [k Hk].
    rewrite list_lookup_imap in Hk.
    destruct (t !! k) as [r'|] eqn:Hr; [|done]. simpl in Hk. inv_Ok Hk. eauto.
  - intros (r & Hr & Hne). exists (i, r). split.
    + apply list_elem_of_lookup. exists i. rewrite list_lookup_imap, Hr. done.
    + simpl. by rewrite decide_False.
Qed.

Lemma assign_all_lookup {A} (t v t' : list A) (i : nat) (x y : A) :
  assign_all t v = Ok t' → v !! i = Some x → t !! i = Some y → t' !! i = Some x.
Proof.
  unfold assign_all. intros Ha Hv Ht.
  destruct (decide (length v = length t)); [by inv_Ok Ha|].
  destruct v as [|x0 [|? ?]]; try done. inv_Ok Ha.
  destruct i; [|done]. simpl in Hv. inv_Ok Hv.
  apply lookup_replicate_2. by eapply lookup_lt_Some.
Qed.

Lemma broadcast2_Forall {A B C} (P : C → Prop) (f : A → B → C) (xs : list A)
    (ys : list B) (zs : list C) :
  Torch.broadcast2 f xs ys = Ok zs →
  (∀ x y, x ∈ xs → y ∈ ys → P (f x y)) → Forall P zs.
Proof.
  intros Hb Hf. apply Forall_lookup. intros i z Hz.
  destruct (broadcast2_lookup_inv _ _ _ _ _ _ Hb Hz) as (x & y & -> & Hx & Hy).
  apply Hf.
  - destruct Hx as [Hx | ->]; [by eapply list_elem_of_lookup_2 | by apply list_elem_of_singleton].
  - destruct Hy as [Hy | ->]; [by eapply list_elem_of_lookup_2 | by apply list_elem_of_singleton].
Qed.

Lemma where_Forall {A} (P : A → Prop) (cond : list bool) (a b out : list A) :
  Torch.where_ cond a b = Ok out → Forall P a → Forall P b → Forall P out.
Proof.
  unfold Torch.where_. intros Hw Ha Hb. inv_bind Hw.
  rewrite Forall_forall in Ha, Hb.
  assert (Hx' : Forall (λ p : A * A, P p.1 ∧ P p.2) x).
  { eapply broadcast2_Forall; [done|]. simpl. eauto. }
  rewrite Forall_forall in Hx'.
  eapply broadcast2_Forall; [done|]. intros c p _ Hp.
  destruct (Hx' p Hp). by destruct c.
Qed.

(** ** The episode bookkeeping of the push task *)

Section PushBookkeeping.
Context `{JitUtils}.

Lemma push_reset_init_frame cfg env_ids noise self self' :
  Push._reset_init_cube_state cfg env_ids noise self = Ok self' →
  Push.progress_buf self' = Push.progress_buf self ∧
  Push.reset_buf self' = Push.reset_buf self ∧
  Push.states self' = Push.states self ∧
  Push.sim self' = Push.sim self ∧
  ∀ i : nat, i ∉ env_ids → Push._goal_cube_state self' !! i = Push._goal_cube_state self !! i.
Proof.
  unfold Push._reset_init_cube_state. intros Hr. inv_bind Hr. inv_Ok Hr. simpl.
  repeat split; try done. intros i Hi. by eapply index_put_lookup_ne.
Qed.

(** What [reset_idx] does to the counters: zero on [env_ids], nothing
    elsewhere. *)
Lemma push_reset_idx_counters cfg env_ids noise self self' :
  Push.reset_idx cfg env_ids noise self = Ok self' →
  Torch.index_fill env_ids 0%Z (Push.progress_buf self) = Ok (Push.progress_buf self') ∧
  Torch.index_fill env_ids 0%Z (Push.reset_buf self) = Ok (Push.reset_buf self') ∧
  Torch.index_fill env_ids 0 (Push.hold_counters (Push.states self))
    = Ok (Push.hold_counters (Push.states self')) ∧
  ∀ i : nat, i ∉ env_ids → Push._goal_cube_state self' !! i = Push._goal_cube_state self !! i.
Proof.
  unfold Push.reset_idx. intros Hr. inv_bind Hr. inv_Ok Hr. simpl.
  destruct (push_reset_init_frame _ _ _ _ _ Hx) as (Hp & Hrb & Hst & Hsim & Hg).
  rewrite <- Hp, <- Hrb, <- Hst. repeat split; try done.
  intros i Hi. rewrite <- (Hg i Hi). by eapply index_put_lookup_ne.
Qed.

Lemma push_n_hold_steps cfg v :
  dict_get (Push.reward_settings cfg) "n_hold_steps" = Ok v → v = Push.nHoldSteps cfg.
Proof. intros Hk. change (Ok (Push.nHoldSteps cfg) = Ok v) in Hk. by inv_Ok Hk. Qed.

Lemma push_success_threshold cfg v :
  dict_get (Push.reward_settings cfg) "success_threshold" = Ok v → v = 0.05.
Proof. intros Hk. change (Ok 0.05 = Ok v) in Hk. by inv_Ok Hk. Qed.

Lemma push_update_states_frame cfg self self' :
  Push._update_states cfg self = Ok self' →
  Push.progress_buf self' = Push.progress_buf self ∧
  Push.reset_buf self' = Push.reset_buf self ∧
  Push._goal_cube_state self' = Push._goal_cube_state self ∧
  Torch.where_
    ((λ d, bool_decide (d < 0.05)) <$>
       (vnorm <$> Push.cube_to_goal_cube_pos (Push.states self')))
    ((λ h, h + 1) <$> Push.hold_counters (Push.states self)) [0]
  = Ok (Push.hold_counters (Push.states self')) ∧
  Torch.broadcast2 vsub (rs_pos <$> Push._goal_cube_state self)
    (rs_pos <$> _cube_state (Push.sim self))
  = Ok (Push.cube_to_goal_cube_pos (Push.states self')).
Proof.
  unfold Push._update_states. intros Hu. inv_bind Hu. inv_Ok Hu. simpl.
  match goal with
  | Hk : dict_get _ "success_threshold" = Ok _ |- _ =>
      apply push_success_threshold in Hk; subst
  end.
  done.
Qed.

(** The hold counter of one environment after a state refresh. *)
Lemma push_update_states_hold cfg self self' (i : nat) (g c : RigidState) (h : R) :
  Push._update_states cfg self = Ok self' →
  Push._goal_cube_state self !! i = Some g →
  _cube_state (Push.sim self) !! i = Some c →
  Push.hold_counters (Push.states self) !! i = Some h →
  Push.hold_counters (Push.states self') !! i
  = Some (if bool_decide (vnorm (vsub (rs_pos g) (rs_pos c)) < 0.05) then h + 1 else 0).
Proof.
  intros Hu Hg Hc Hh.
  destruct (push_update_states_frame _ _ _ Hu) as (_ & _ & _ & Hw & Hd).
  eapply broadcast2_lookup in Hd;
    [| by rewrite list_lookup_fmap, Hg | by rewrite list_lookup_fmap, Hc].
  eapply where_scalar_lookup in Hw;
    [exact Hw | by rewrite !list_lookup_fmap, Hd | by rewrite list_lookup_fmap, Hh].
Qed.

Lemma push_update_states_hold_nonneg cfg self self' :
  Push._update_states cfg self = Ok self' →
  Forall (λ h, 0 <= h) (Push.hold_counters (Push.states self)) →
  Forall (λ h, 0 <= h) (Push.hold_counters (Push.states self')).
Proof.
  intros Hu Hpos.
  destruct (push_update_states_frame _ _ _ Hu) as (_ & _ & _ & Hw & _).
  eapply where_Forall; [exact Hw| |].
  - apply Forall_fmap. eapply Forall_impl; [exact Hpos|]. intros h Hh. simpl. lra.
  - apply Forall_singleton. lra.
Qed.

Lemma push_reset_idx_hold_nonneg cfg env_ids noise self self' :
  Push.reset_idx cfg env_ids noise self = Ok self' →
  Forall (λ h, 0 <= h) (Push.hold_counters (Push.states self)) →
  Forall (λ h, 0 <= h) (Push.hold_counters (Push.states self')).
Proof.
  intros Hr Hpos.
  destruct (push_reset_idx_counters _ _ _ _ _ Hr) as (_ & _ & Hh & _).
  eapply index_fill_Forall; [exact Hh | lra | done].
Qed.

Lemma push_compute_reward_frame cfg self self' :
  Push.compute_reward cfg self = Ok self' →
  Push.states self' = Push.states self ∧
  Push.progress_buf self' = Push.progress_buf self ∧
  Push._goal_cube_state self' = Push._goal_cube_state self ∧
  Push.extras_success self'
  = (λ h, bool_decide (h > Push.nHoldSteps cfg)) <$> Push.hold_counters (Push.states self) ∧
  ∃ reset,
    termination (Push.reset_buf self) (Push.progress_buf self)
      (IZR (Push.max_episode_length cfg)) (Push.extras_success self') = Ok reset ∧
    assign_all (Push.reset_buf self) reset = Ok (Push.reset_buf self').
Proof.
  unfold Push.compute_reward. intros Hc. inv_bind Hc.
  destruct x as [[rewards reset] success]. inv_bind Hc. inv_Ok Hc. simpl.
  unfold Push.compute_franka_reward in Hx. inv_bind Hx. inv_Ok Hx.
  match goal with
  | Hk : dict_get _ "n_hold_steps" = Ok _ |- _ =>
      apply push_n_hold_steps in Hk; subst
  end.
  repeat split; try done. eauto.
Qed.

Lemma push_store_proprio_hist_frame cfg self self' r :
  Push.store_proprio_hist cfg self = (self', r) →
  Push.states self' = Push.states self ∧
  Push.progress_buf self' = Push.progress_buf self ∧
  Push.reset_buf self' = Push.reset_buf self ∧
  Push._goal_cube_state self' = Push._goal_cube_state self ∧
  Push.extras_success self' = Push.extras_success self.
Proof.
  unfold Push.store_proprio_hist. intros Hs.
  destruct (store_hist _ _ _ _ _) as [buf r']. by inv_Ok Hs.
Qed.

Lemma push_maybe_reset cfg env_ids noise self self' :
  (if decide (0 < length env_ids)%nat
   then Push.reset_idx cfg env_ids noise self else Ok self) = Ok self' →
  (Forall (λ h, 0 <= h) (Push.hold_counters (Push.states self)) →
   Forall (λ h, 0 <= h) (Push.hold_counters (Push.states self'))) ∧
  ∀ i : nat, i ∉ env_ids →
    Push.hold_counters (Push.states self') !! i
      = Push.hold_counters (Push.states self) !! i ∧
    Push.progress_buf self' !! i = Push.progress_buf self !! i ∧
    Push.reset_buf self' !! i = Push.reset_buf self !! i ∧
    Push._goal_cube_state self' !! i = Push._goal_cube_state self !! i.
Proof.
  destruct (decide _); intros Hr; [|by inv_Ok Hr].
  split; [by eapply push_reset_idx_hold_nonneg|].
  intros i Hi.
  destruct (push_reset_idx_counters _ _ _ _ _ Hr) as (Hp & Hrb & Hh & Hg).
  repeat split; [by eapply index_fill_lookup_ne.. | by apply Hg].
Qed.

Lemma push_post_physics_step_hold_nonneg cfg inp self self' :
  Push.post_physics_step cfg inp self = Ok self' →
  Forall (λ h, 0 <= h) (Push.hold_counters (Push.states self)) →
  Forall (λ h, 0 <= h) (Push.hold_counters (Push.states self')).
Proof.
  unfold Push.post_physics_step. cbv zeta. intros Hs Hpos. inv_bind Hs.
  destruct (Push.store_proprio_hist cfg x1) as [s2 r] eqn:Hst. inv_bind Hs.
  apply push_maybe_reset in Hx as [Hx _]. specialize (Hx Hpos).
  apply push_update_states_hold_nonneg in Hx0; [|done].
  destruct (push_compute_reward_frame _ _ _ Hx1) as (Hst1 & _).
  destruct (push_store_proprio_hist_frame _ _ _ _ Hst) as (Hst2 & _).
  rewrite <- Hst1, <- Hst2 in Hx0.
  destruct (bool_decide _); [|by inv_Ok Hs].
  by eapply push_update_states_hold_nonneg.
Qed.

(** One tick, seen from an environment that is not flagged for reset. *)
Lemma push_tick_env cfg inp self self' (i : nat) (g c : RigidState) (h : R) (p : Z) :
  ¬ single_step_primitive cfg →
  Push.post_physics_step cfg inp self = Ok self' →
  Push.hold_counters (Push.states self) !! i = Some h →
  Push.reset_buf self !! i = Some 0%Z →
  Push.progress_buf self !! i = Some p →
  Push._goal_cube_state self !! i = Some g →
  _cube_state (Push.tick_snap inp) !! i = Some c →
  let h' := if bool_decide (vnorm (vsub (rs_pos g) (rs_pos c)) < 0.05)
            then h + 1 else 0 in
  Push.hold_counters (Push.states self') !! i = Some h' ∧
  Push.progress_buf self' !! i = Some (p + 1)%Z ∧
  Push._goal_cube_state self' !! i = Some g ∧
  Push.extras_success self' !! i = Some (bool_decide (h' > Push.nHoldSteps cfg)) ∧
  Push.reset_buf self' !! i
  = Some (if bool_decide (IZR (p + 1) >= IZR (Push.max_episode_length cfg) - 1)
             || bool_decide (h' > Push.nHoldSteps cfg) then 1%Z else 0%Z).
Proof.
  intros Hhack Hs Hh Hr Hp Hg Hc h'.
  unfold Push.post_physics_step in Hs. cbv zeta in Hs.
  rewrite (bool_decide_eq_false_2 _ Hhack) in Hs.
  inv_bind Hs.
  destruct (Push.store_proprio_hist cfg x1) as [s2 r] eqn:Hst. inv_bind Hs. inv_Ok Hs.
  assert (Hni : i ∉ nonzero (Push.reset_buf self)).
  { rewrite nonzero_elem. intros (r0 & Hr0 & Hne). congruence. }
  apply push_maybe_reset in Hx as [_ Hx]. destruct (Hx i Hni) as (Eh & Ep & Er & Eg).
  simpl in Eh, Ep, Er, Eg. clear Hx.
  rewrite Hh in Eh. rewrite Hr in Er. rewrite Hg in Eg.
  rewrite list_lookup_fmap, Hp in Ep. simpl in Ep.
  unfold Push.compute_observations, Push._refresh in Hx0.
  pose proof (push_update_states_hold _ _ _ i g c h Hx0 Eg Hc Eh) as Hh0.
  destruct (push_update_states_frame _ _ _ Hx0) as (Ep0 & Er0 & Eg0 & _).
  simpl in Ep0, Er0, Eg0.
  destruct (push_compute_reward_frame _ _ _ Hx1)
    as (Es1 & Ep1 & Eg1 & Ex1 & reset & Ht & Ha).
  destruct (push_store_proprio_hist_frame _ _ _ _ Hst) as (Es2 & Ep2 & Er2 & Eg2 & Ex2).
  fold h' in Hh0.
  assert (Hsucc : Push.extras_success x1 !! i
                  = Some (bool_decide (h' > Push.nHoldSteps cfg))).
  { rewrite Ex1, list_lookup_fmap, Hh0. done. }
  repeat split.
  - by rewrite Es2, Es1.
  - by rewrite Ep2, Ep1, Ep0.
  - by rewrite Eg2, Eg1, Eg0.
  - by rewrite Ex2.
  - rewrite Er2.
    assert (Hp0 : Push.progress_buf x0 !! i = Some (p + 1)%Z) by (by rewrite Ep0).
    assert (Hr0 : Push.reset_buf x0 !! i = Some 0%Z) by (by rewrite Er0).
    pose proof (termination_lookup _ _ _ _ _ _ _ _ _ Ht Hp0 Hsucc Hr0) as Hl.
    by eapply assign_all_lookup.
Qed.

End PushBookkeeping.

(** ** C3: the hold counter and the timing of success *)

Section HoldCounter.
Context `{JitUtils}.




End HoldCounter.



(** ** The episode bookkeeping of the throw task *)

Lemma throw_reset_init_frame cfg env_ids noise self self' :
  Throw._reset_init_cube_state cfg env_ids noise self = Ok self' →
  Throw.progress_buf self' = Throw.progress_buf self ∧
  Throw.reset_buf self' = Throw.reset_buf self ∧
  Throw.contact_time self' = Throw.contact_time self ∧
  Throw.vel_i_error self' = Throw.vel_i_error self.
Proof.
  unfold Throw._reset_init_cube_state. intros Hr. inv_bind Hr. by inv_Ok Hr.
Qed.

(** What [reset_idx] does to the counters of the throw task, and what it
    leaves alone. *)
Lemma throw_reset_idx_counters cfg env_ids noise self self' :
  Throw.reset_idx cfg env_ids noise self = Ok self' →
  Torch.index_fill env_ids 0%Z (Throw.progress_buf self) = Ok (Throw.progress_buf self') ∧
  Torch.index_fill env_ids 0%Z (Throw.reset_buf self) = Ok (Throw.reset_buf self') ∧
  Torch.index_fill env_ids 0.0 (Throw.contact_time self) = Ok (Throw.contact_time self') ∧
  Throw.vel_i_error self' = Throw.vel_i_error self.
Proof.
  unfold Throw.reset_idx. intros Hr. inv_bind Hr. inv_Ok Hr. simpl.
  destruct (throw_reset_init_frame _ _ _ _ _ Hx0) as (Hp & Hrb & Hc & Hv).
  simpl in Hp, Hrb, Hc, Hv. rewrite <- Hp, <- Hrb, Hc, Hv. done.
Qed.

Lemma throw_update_states_frame self self' :
  Throw._update_states self = Ok self' →
  Throw.reset_buf self' = Throw.reset_buf self ∧
  Throw.contact_time self' = Throw.contact_time self ∧
  Throw.vel_i_error self' = Throw.vel_i_error self.
Proof.
  unfold Throw._update_states. intros Hu. inv_bind Hu. by inv_Ok Hu.
Qed.

Lemma assign_all_Forall {A} (P : A → Prop) (t v t' : list A) :
  assign_all t v = Ok t' → Forall P v → Forall P t'.
Proof.
  unfold assign_all. intros Ha Hv.
  destruct (decide (length v = length t)); [by inv_Ok Ha|].
  destruct v as [|x [|? ?]]; try done. inv_Ok Ha.
  apply Forall_replicate. by inversion Hv.
Qed.

Lemma termination_flags reset_buf progress_buf max_len success out :
  termination reset_buf progress_buf max_len success = Ok out →
  Forall is_flag reset_buf → Forall is_flag out.
Proof.
  unfold termination. intros Ht Hr. inv_bind Ht.
  eapply where_Forall; [done| |done].
  apply Forall_fmap, Forall_true. intros r. by right.
Qed.

Lemma throw_compute_reward_frame cfg self self' :
  Throw.compute_reward cfg self = Ok self' →
  Throw.contact_time self' = Throw.contact_time self ∧
  Throw.vel_i_error self' = Throw.vel_i_error self ∧
  (Forall is_flag (Throw.reset_buf self) → Forall is_flag (Throw.reset_buf self')).
Proof.
  unfold Throw.compute_reward. intros Hc. inv_bind Hc.
  destruct x as [[rewards reset] success]. inv_bind Hc. inv_Ok Hc. simpl.
  repeat split. intros Hf.
  unfold Throw.compute_franka_reward in Hx. inv_bind Hx. inv_Ok Hx.
  eapply assign_all_Forall; [done|]. by eapply termination_flags.
Qed.

Lemma throw_store_proprio_hist_frame cfg self self' r :
  Throw.store_proprio_hist cfg self = (self', r) →
  Throw.reset_buf self' = Throw.reset_buf self ∧
  Throw.contact_time self' = Throw.contact_time self ∧
  Throw.vel_i_error self' = Throw.vel_i_error self.
Proof.
  unfold Throw.store_proprio_hist. intros Hs.
  destruct (store_hist _ _ _ _ _) as [buf r']. by inv_Ok Hs.
Qed.

Lemma throw_jvel_frame cfg jvel self self' u :
  Throw._compute_jvel_torques cfg jvel self = Ok (self', u) →
  Throw.reset_buf self' = Throw.reset_buf self ∧
  Throw.contact_time self' = Throw.contact_time self.
Proof.
  unfold Throw._compute_jvel_torques. intros Hj. inv_bind Hj. by inv_Ok Hj.
Qed.

Lemma throw_pre_physics_step_frame cfg actions self self' :
  Throw.pre_physics_step cfg actions self = Ok self' →
  Throw.reset_buf self' = Throw.reset_buf self ∧
  Throw.contact_time self' = Throw.contact_time self.
Proof.
  unfold Throw.pre_physics_step. cbv zeta. intros Hp. inv_bind Hp.
  destruct (Throw.control_type cfg); [done|]. inv_bind Hp.
  match goal with
  | Hj : Throw._compute_jvel_torques _ _ _ = Ok ?pr |- _ =>
      destruct pr as [s1 u]; apply throw_jvel_frame in Hj as [Hrb Hct]
  end.
  inv_bind Hp. inv_Ok Hp. simpl in *. done.
Qed.

Lemma throw_reset_idx_inv cfg env_ids noise self self' :
  Throw.reset_idx cfg env_ids noise self = Ok self' → throw_inv self → throw_inv self'.
Proof.
  intros Hr [Hc Hf].
  destruct (throw_reset_idx_counters _ _ _ _ _ Hr) as (_ & Hrb & Hct & _).
  split.
  - eapply index_fill_Forall; [exact Hct | lra | done].
  - eapply index_fill_Forall; [exact Hrb | by left | done].
Qed.

Lemma throw_refresh_inv snap self self' :
  Throw._refresh snap self = Ok self' → throw_inv self → throw_inv self'.
Proof.
  unfold Throw._refresh. intros Hu [Hc Hf].
  destruct (throw_update_states_frame _ _ Hu) as (Hrb & Hct & _).
  simpl in Hrb, Hct. split; congruence.
Qed.

Lemma throw_post_physics_step_inv cfg inp self self' :
  Throw.post_physics_step cfg inp self = Ok self' → throw_inv self → throw_inv self'.
Proof.
  unfold Throw.post_physics_step. cbv zeta. intros Hs [Hc Hf]. inv_bind Hs.
  destruct (Throw.store_proprio_hist cfg x3) as [s4 r] eqn:Hst. inv_bind Hs. inv_Ok Hs.
  simpl in *.
  assert (Hinv1 : throw_inv
            (Throw.set_contact_time x0
               (Throw.set_progress_buf ((λ p : Z, (p + 1)%Z) <$> Throw.progress_buf self)
                  self))).
  { split; simpl; [|done].
    assert (Hsum : Forall (λ t, 0 <= t) x).
    { eapply broadcast2_Forall; [done|]. intros t c Ht Hin.
      rewrite Forall_forall in Hc. specialize (Hc t Ht).
      apply list_elem_of_fmap in Hin as (v & -> & _).
      destruct (bool_decide _); lra. }
    eapply broadcast2_Forall; [done|]. intros t m Ht Hin.
    rewrite Forall_forall in Hsum. specialize (Hsum t Ht).
    apply list_elem_of_fmap in Hin as (r0 & -> & Hr0).
    rewrite Forall_forall in Hf. destruct (Hf r0 Hr0) as [-> | ->]; simpl; nra. }
  assert (Hinv2 : throw_inv x1).
  { destruct (decide _); [by eapply throw_reset_idx_inv|by inv_Ok Hx1]. }
  assert (Hinv3 : throw_inv x2) by (by eapply throw_refresh_inv).
  destruct (throw_compute_reward_frame _ _ _ Hx3) as (Hct & _ & Hfl).
  destruct (throw_store_proprio_hist_frame _ _ _ _ Hst) as (Hrb4 & Hct4 & _).
  destruct Hinv3 as [Hc3 Hf3]. split.
  - by rewrite Hct4, Hct.
  - rewrite Hrb4. by apply Hfl.
Qed.

Lemma index_fill_all {A} (n : nat) (v : A) (t t' : list A) :
  Torch.index_fill (seq 0 n) v t = Ok t' → length t = n → Forall (λ x, x = v) t'.
Proof.
  intros Hf Hlen. apply Forall_lookup. intros i x Hx.
  assert (Hi : i ∈ seq 0 n).
  { apply elem_of_seq. apply lookup_lt_Some in Hx.
    rewrite (index_fill_length _ _ _ _ Hf) in Hx. lia. }
  rewrite (index_fill_lookup _ _ _ _ _ Hf Hi) in Hx. by inv_Ok Hx.
Qed.

Lemma throw_init_inv cfg progress0 reset0 rew0 hist0 sim0 noise snap self :
  length reset0 = Throw.num_envs cfg →
  Throw.init cfg progress0 reset0 rew0 hist0 sim0 noise snap = Ok self →
  throw_inv self.
Proof.
  unfold Throw.init. intros Hlen Hi. inv_bind Hi.
  eapply throw_refresh_inv; [done|].
  destruct (throw_reset_idx_counters _ _ _ _ _ Hx) as (_ & Hrb & Hct & _).
  simpl in Hrb, Hct. split.
  - eapply index_fill_Forall; [exact Hct | lra |].
    apply Forall_replicate. lra.
  - eapply Forall_impl; [by eapply index_fill_all|]. intros r ->. by left.
Qed.

Lemma throw_reachable_inv cfg self : Throw.reachable cfg self → throw_inv self.
Proof.
  induction 1 as [? ? ? ? ? ? ? ? Hlen Hi | ? self self' _ IH Hp | ? self self' _ IH Hp
                 | ? self self' _ IH Hr | ? ? self self' _ IH Hr].
  - by eapply throw_init_inv.
  - destruct (throw_pre_physics_step_frame _ _ _ _ Hp) as [Hrb Hct].
    destruct IH as [Hc Hf]. split; congruence.
  - by eapply throw_post_physics_step_inv.
  - by eapply throw_refresh_inv.
  - by eapply throw_reset_idx_inv.
Qed.

(** ** C7: the counters are non-negative and zero after a reset *)

Lemma push_init_hold_nonneg cfg progress0 reset0 rew0 hist0 sim0 noise snap self :
  Push.init cfg progress0 reset0 rew0 hist0 sim0 noise snap = Ok self →
  Forall (λ h, 0 <= h) (Push.hold_counters (Push.states self)).
Proof.
  unfold Push.init, Push._refresh. intros Hi. inv_bind Hi.
  eapply push_update_states_hold_nonneg; [done|]. simpl.
  eapply push_reset_idx_hold_nonneg; [done|]. simpl.
  apply Forall_replicate. lra.
Qed.

Lemma push_reachable_hold_nonneg `{JitUtils} cfg self :
  Push.reachable cfg self → Forall (λ h, 0 <= h) (Push.hold_counters (Push.states self)).
Proof.
  induction 1 as [? ? ? ? ? ? ? ? Hi | ? self self' _ IH Hp | ? self self' _ IH Hr
                 | self self' _ IH Hu | ? ? self self' _ IH Hr | ? self _ IH].
  - by eapply push_init_hold_nonneg.
  - by eapply push_post_physics_step_hold_nonneg.
  - unfold Push._refresh in Hr. by eapply push_update_states_hold_nonneg.
  - by eapply push_update_states_hold_nonneg.
  - by eapply push_reset_idx_hold_nonneg.
  - done.
Qed.

(** C7.  In every reachable state of the push task the hold counters are
    non-negative, in every reachable state of the throw task the contact
    timers are non-negative, and right after [reset_idx] on a set of
    indices the hold counter (push), the contact timer (throw), the step
    count and the reset flag of every index of the set are zero. *)
Theorem counters_nonneg_and_zero_after_reset `{JitUtils} :
  (∀ cfg self, Push.reachable cfg self →
     Forall (λ h, 0 <= h) (Push.hold_counters (Push.states self))) ∧
  (∀ cfg self, Throw.reachable cfg self →
     Forall (λ t, 0 <= t) (Throw.contact_time self)) ∧
  (∀ cfg env_ids noise self self' (i : nat),
     Push.reset_idx cfg env_ids noise self = Ok self' → i ∈ env_ids →
     Push.hold_counters (Push.states self') !! i = Some 0 ∧
     Push.progress_buf self' !! i = Some 0%Z ∧
     Push.reset_buf self' !! i = Some 0%Z) ∧
  (∀ cfg env_ids noise self self' (i : nat),
     Throw.reset_idx cfg env_ids noise self = Ok self' → i ∈ env_ids →
     Throw.contact_time self' !! i = Some 0 ∧
     Throw.progress_buf self' !! i = Some 0%Z ∧
     Throw.reset_buf self' !! i = Some 0%Z).
Proof.
  split; [|split; [|split]].
  - intros cfg self. apply push_reachable_hold_nonneg.
  - intros cfg self Hr. by destruct (throw_reachable_inv _ _ Hr).
  - intros cfg env_ids noise self self' i Hr Hi.
    destruct (push_reset_idx_counters _ _ _ _ _ Hr) as (Hp & Hrb & Hh & _).
    repeat split; by eapply index_fill_lookup.
  - intros cfg env_ids noise self self' i Hr Hi.
    destruct (throw_reset_idx_counters _ _ _ _ _ Hr) as (Hp & Hrb & Hc & _).
    repeat split; [|by eapply index_fill_lookup..].
    replace 0 with 0.0 by lra. by eapply index_fill_lookup.
Qed.

Lemma counters_nonneg_and_zero_after_reset_witness :
  (∃ self,
     Push.init (push_config Push.pose3d 2 32) [0%Z] [1%Z] [0]
       [replicate 2 (replicate 32 0)] (one_env_sim vzero) no_noise
       (one_env_sim (Vec3 0 0 1.05)) = Ok self ∧
     Forall (λ h, 0 <= h) (Push.hold_counters (Push.states self))) ∧
  (∃ self',
     Throw.reset_idx throw_config [0%nat] no_noise (throw_state 1) = Ok self' ∧
     Throw.contact_time self' !! 0%nat = Some 0 ∧
     Throw.progress_buf self' !! 0%nat = Some 0%Z ∧
     Throw.reset_buf self' !! 0%nat = Some 0%Z).
Proof.
  split.
  - eexists. split; [vm_compute; reflexivity|].
    apply (proj1 (counters_nonneg_and_zero_after_reset (H := hamilton))
             (push_config Push.pose3d 2 32)).
    eapply (Push.reach_init _ [0%Z] [1%Z] [0] [replicate 2 (replicate 32 0)]
              (one_env_sim vzero) no_noise (one_env_sim (Vec3 0 0 1.05))).
    vm_compute. reflexivity.
  - eexists. split; [vm_compute; reflexivity|].
    eapply (proj2 (proj2 (proj2 (counters_nonneg_and_zero_after_reset (H := hamilton))))
              throw_config [0%nat] no_noise (throw_state 1)).
    + vm_compute. reflexivity.
    + apply list_elem_of_singleton. reflexivity.
Defined.

(** ** C2: the integral error of the joint-velocity controller *)

Lemma collect_lookup_fwd {A} (rows : list (result A)) (out : list A) (i : nat)
    (r : result A) :
  Torch.collect rows = Ok out → rows !! i = Some r →
  ∃ a, r = Ok a ∧ out !! i = Some a.
Proof.
  revert out i. induction rows as [|r0 rows IH]; intros out i Hc Hr; simpl in Hc.
  - done.
  - inv_bind Hc. inv_Ok Hc. destruct i; simpl in *.
    + inv_Ok Hr. eauto.
    + eauto.
Qed.

Lemma inplace2_lookup {A B} (f : A → B → result A) (xs : list A) (ys : list B)
    (out : list A) (i : nat) (x : A) (y : B) :
  Torch.inplace2 f xs ys = Ok out → xs !! i = Some x → ys !! i = Some y →
  ∃ a, f x y = Ok a ∧ out !! i = Some a.
Proof.
  unfold Torch.inplace2. intros Hi Hx Hy. inv_bind Hi.
  destruct (decide (length x1 = length xs)); [|done]. inv_Ok Hi.
  pose proof (broadcast2_lookup _ _ _ _ _ _ _ Hx0 Hx Hy) as Hr.
  by eapply collect_lookup_fwd.
Qed.

(** C2, as the code has it.  A call of [_compute_jvel_torques] adds the
    velocity error of every joint to its integral error, which therefore
    strictly increases where the error is positive; [reset_idx] leaves the
    integral error of every environment as it is. *)
Theorem vel_i_error_accumulates (cfg : Throw.Config) :
  (∀ jvel self self' u (i j : nat) (jv qd er arow : list R) (e a : R),
     Throw._compute_jvel_torques cfg jvel self = Ok (self', u) →
     jvel !! i = Some jv → _qd (Throw.sim self) !! i = Some qd →
     Throw.vel_error_row jv (take 7 qd) = Ok er → er !! j = Some e →
     Throw.vel_i_error self !! i = Some arow → arow !! j = Some a →
     0 < e →
     ∃ arow', Throw.vel_i_error self' !! i = Some arow' ∧
              arow' !! j = Some (a + e) ∧ a < a + e) ∧
  (∀ env_ids noise self self',
     Throw.reset_idx cfg env_ids noise self = Ok self' →
     Throw.vel_i_error self' = Throw.vel_i_error self).
Proof.
  split.
  - intros jvel self self' u i j jv qd er arow e a Hc Hjv Hqd Her He Harow Ha Hpos.
    unfold Throw._compute_jvel_torques in Hc. cbv zeta in Hc. inv_bind Hc.
    inv_Ok Hc. simpl.
    assert (Hrow : x !! i = Some (Throw.vel_error_row jv (take 7 qd))).
    { eapply broadcast2_lookup; [done..|]. by rewrite list_lookup_fmap, Hqd. }
    destruct (collect_lookup_fwd _ _ _ _ Hx0 Hrow) as (er' & Her' & Hve).
    rewrite Her in Her'. inv_Ok Her'.
    destruct (inplace2_lookup _ _ _ _ _ _ _ Hx1 Harow Hve) as (arow' & Hsum & Hacc).
    exists arow'. split; [done|]. split; [|lra].
    by eapply broadcast2_lookup.
  - intros env_ids noise self self' Hr.
    by destruct (throw_reset_idx_counters _ _ _ _ _ Hr) as (_ & _ & _ & Hv).
Qed.

Lemma vel_i_error_accumulates_witness :
  ∃ self' u,
    Throw._compute_jvel_torques throw_config [[0; 1; 0; 0; 0; 0; 0]] (throw_state 2)
      = Ok (self', u) ∧
    ∃ arow', Throw.vel_i_error self' !! 0%nat = Some arow' ∧
             arow' !! 1%nat = Some (2 + (1 - 0)) ∧ 2 < 2 + (1 - 0).
Proof.
  eexists _, _. split; [vm_compute; reflexivity|].
  refine (proj1 (vel_i_error_accumulates throw_config)
            [[0; 1; 0; 0; 0; 0; 0]] (throw_state 2) _ _ 0%nat 1%nat
            [0; 1; 0; 0; 0; 0; 0] (replicate 9 0)
            [0 - 0; 1 - 0; 0 - 0; 0 - 0; 0 - 0; 0 - 0; 0 - 0] (replicate 7 2)
            (1 - 0) 2 _ eq_refl eq_refl eq_refl eq_refl eq_refl eq_refl _).
  - vm_compute. reflexivity.
  - lra.
Defined.

(** After one velocity command on joint 1 and a reset of the environment,
    the integral error of that joint is not zero. *)
Lemma vel_i_error_not_zeroed_by_reset :
  ∃ s1 s2 row v,
    Throw.pre_physics_step throw_config [[1; 0; 0; 0]] (throw_state 0) = Ok s1 ∧
    Throw.reset_idx throw_config [0%nat] no_noise s1 = Ok s2 ∧
    Throw.vel_i_error s2 !! 0%nat = Some row ∧ row !! 1%nat = Some v ∧ v ≠ 0.
Proof.
  eexists _, _, _, _.
  split; [vm_compute; reflexivity|]. split; [vm_compute; reflexivity|].
  split; [reflexivity|]. split; [reflexivity|].
  lra.
Qed.

(** * Further properties of the code *)

(** ** The axis-angle conversion *)

Lemma vnorm_sqr (v : vec3) : vnorm v * vnorm v = vx v * vx v + vy v * vy v + vz v * vz v.
Proof.
  unfold vnorm. apply sqrt_sqrt.
  pose proof (Rle_0_sqr (vx v)). pose proof (Rle_0_sqr (vy v)). pose proof (Rle_0_sqr (vz v)).
  unfold Rsqr in *. lra.
Qed.

(** X1.  [axisangle2quat] returns a unit quaternion in every row, whatever
    the rotation vectors, for a non-negative threshold [eps] (the default
    is 1e-6): the rows above the threshold are normalized by their angle,
    the others are the identity quaternion. *)
Theorem axisangle2quat_unit (vec : list vec3) (eps : R) :
  0 <= eps → Forall (λ q, qnorm q = 1) (axisangle2quat vec eps).
Proof.
  intros Heps. unfold axisangle2quat. apply Forall_fmap, Forall_forall.
  intros v _. simpl. case_bool_decide as Hgt.
  - unfold qnorm. simpl.
    assert (Ha : vnorm v ≠ 0) by lra.
    pose proof (vnorm_sqr v) as Hsq.
    pose proof (sin2_cos2 (vnorm v / 2.0)) as Hsc. unfold Rsqr in Hsc.
    set (a := vnorm v) in *. set (s := sin (a / 2.0)) in *. set (c := cos (a / 2.0)) in *.
    replace (vx v * s / a * (vx v * s / a) + vy v * s / a * (vy v * s / a)
             + vz v * s / a * (vz v * s / a) + c * c)
      with ((vx v * vx v + vy v * vy v + vz v * vz v) * (s * s) / (a * a) + c * c)
      by (field; exact Ha).
    rewrite <- Hsq.
    replace (a * a * (s * s) / (a * a) + c * c) with (s * s + c * c) by (field; exact Ha).
    rewrite Hsc. apply sqrt_1.
  - unfold qnorm. simpl.
    replace (0 * 0 + 0 * 0 + 0 * 0 + 1.0 * 1.0) with 1 by lra. apply sqrt_1.
Qed.

Lemma axisangle2quat_unit_witness :
  Forall (λ q, qnorm q = 1) (axisangle2quat [Vec3 0 0 1; vzero; Vec3 1 2 3] 1e-6).
Proof. apply axisangle2quat_unit. lra. Defined.

Lemma vnorm_z (theta : R) : vnorm (Vec3 0 0 theta) = Rabs theta.
Proof.
  unfold vnorm. simpl. replace (0 * 0 + 0 * 0 + theta * theta) with (Rsqr theta) by (unfold Rsqr; lra).
  apply sqrt_Rsqr_abs.
Qed.

(** X2.  For a rotation vector along the z axis, the way [_create_envs]
    calls it for the start orientation of the robot, [axisangle2quat]
    returns the half-angle quaternion (0, 0, sin(theta/2), cos(theta/2))
    when the angle exceeds [eps] in absolute value, for both signs of the
    angle, and the identity quaternion otherwise. *)
Theorem axisangle2quat_about_z (theta eps : R) :
  0 <= eps →
  axisangle2quat [Vec3 0 0 theta] eps
  = [if bool_decide (Rabs theta > eps)
     then Quat 0 0 (sin (theta / 2)) (cos (theta / 2))
     else Quat 0 0 0 1].
Proof.
  intros Heps. unfold axisangle2quat. simpl. rewrite vnorm_z.
  case_bool_decide as Hgt; [|by replace 1.0 with 1 by lra].
  f_equal.
  assert (Habs : Rabs theta ≠ 0) by lra.
  destruct (Rcase_abs theta) as [Hneg|Hpos].
  - rewrite (Rabs_left _ Hneg).
    replace (- theta / 2.0) with (- (theta / 2)) by lra.
    rewrite sin_neg, cos_neg. f_equal; field; lra.
  - rewrite (Rabs_right _ Hpos).
    replace (theta / 2.0) with (theta / 2) by lra.
    rewrite Rabs_right in Habs by done.
    f_equal; field; lra.
Qed.

Lemma axisangle2quat_about_z_witness :
  axisangle2quat [Vec3 0 0 (-1)] 1e-6
  = [if bool_decide (Rabs (-1) > 1e-6)
     then Quat 0 0 (sin (-1 / 2)) (cos (-1 / 2)) else Quat 0 0 0 1].
Proof. apply axisangle2quat_about_z. lra. Defined.

(** ** The proprioception history is a queue *)

Lemma roll_left_length {A} (l : list A) : length (roll_left l) = length l.
Proof. destruct l; simpl; [done|]. rewrite length_app. simpl. lia. Qed.

Lemma roll_left_lookup {A} (l : list A) (k : nat) :
  (S k < length l)%nat → roll_left l !! k = l !! S k.
Proof.
  destruct l as [|x l]; simpl; intros Hk; [lia|].
  rewrite lookup_app_l by lia. done.
Qed.

(** The slots of one environment's history after a successful call of
    [store_hist]: every slot but the newest holds what its right neighbour
    held before. *)
Lemma store_hist_shift (n dim : nat) (cube_pos : list vec3) (cube_quat : list quat)
    (buf buf' : list (list (list R))) (i : nat) (hist hist' : list (list R)) :
  store_hist n dim cube_pos cube_quat buf = (buf', Ok ()) →
  buf !! i = Some hist → buf' !! i = Some hist' →
  length hist' = length hist ∧
  ∀ k : nat, (S k < length hist)%nat → hist' !! k = hist !! S k.
Proof.
  intros Hs Hb Hb'. unfold store_hist in Hs.
  destruct (cat1 _ _) as [cs|e] eqn:Hcat; [|done].
  destruct (decide (dim < 7)%nat); [done|].
  match type of Hs with
  | context [match ?pad with Ok _ => _ | Err _ => _ end] =>
      destruct pad as [cs'|e] eqn:Hpad; [|done]
  end.
  destruct (Torch.inplace2 _ _ _) as [out|e] eqn:Hin; [|done].
  inv_Ok Hs.
  unfold Torch.inplace2 in Hin. inv_bind Hin.
  destruct (decide (length x0 = _)) as [Hlen|]; [|done]. inv_Ok Hin.
  pose proof (collect_lookup _ _ _ _ Hx0 Hb') as Hrow.
  destruct (broadcast2_lookup_inv _ _ _ _ _ _ Hx Hrow) as (h0 & row & Hf & Hh0 & _).
  assert (h0 = roll_left hist) as ->.
  { destruct Hh0 as [Hh0|Hh0].
    - rewrite list_lookup_fmap, Hb in Hh0. simpl in Hh0. by inv_Ok Hh0.
    - destruct buf as [|b [|? ?]]; try done. simpl in Hh0. inv_Ok Hh0.
      destruct i; [simpl in Hb; by inv_Ok Hb|done]. }
  remember (roll_left hist) as rl eqn:Hroll.
  destruct rl as [|s0 h0]; [done|]. apply Ok_inj in Hf. rewrite Hroll in Hf. subst hist'.
  rewrite length_insert, roll_left_length. split; [done|].
  intros k Hk. rewrite list_lookup_insert_ne.
  - by apply roll_left_lookup.
  - lia.
Qed.

(** X3.  [store_proprio_hist] keeps the history of every environment as a
    first-in first-out queue of fixed length: after a call that returns,
    the history has as many slots as before and slot [k] holds what slot
    [k + 1] held before the call, so that the oldest entry is dropped; in
    the push and in the throw task. *)
Theorem store_proprio_hist_shifts_history :
  (∀ cfg self self' (i : nat) (hist hist' : list (list R)),
     Push.store_proprio_hist cfg self = (self', Ok ()) →
     Push.proprio_hist_buf self !! i = Some hist →
     Push.proprio_hist_buf self' !! i = Some hist' →
     length hist' = length hist ∧
     ∀ k : nat, (S k < length hist)%nat → hist' !! k = hist !! S k) ∧
  (∀ cfg self self' (i : nat) (hist hist' : list (list R)),
     Throw.store_proprio_hist cfg self = (self', Ok ()) →
     Throw.proprio_hist_buf self !! i = Some hist →
     Throw.proprio_hist_buf self' !! i = Some hist' →
     length hist' = length hist ∧
     ∀ k : nat, (S k < length hist)%nat → hist' !! k = hist !! S k).
Proof.
  split; intros cfg self self' i hist hist' Hs Hb Hb'.
  - unfold Push.store_proprio_hist in Hs.
    destruct (store_hist _ _ _ _ _) as [buf r] eqn:Hst. inv_Ok Hs.
    simpl in Hb'. eapply store_hist_shift; eauto.
  - unfold Throw.store_proprio_hist in Hs.
    destruct (store_hist _ _ _ _ _) as [buf r] eqn:Hst. inv_Ok Hs.
    simpl in Hb'. eapply store_hist_shift; eauto.
Qed.

Lemma store_proprio_hist_shifts_history_witness :
  ∃ self' hist',
    Push.store_proprio_hist (push_config Push.pose3d 2 8)
      (Push.set_proprio_hist_buf [[replicate 8 1; replicate 8 2; replicate 8 3]]
         (push_state 8 (Vec3 0.1 0.2 1.05) (Vec3 0 0.25 1.05) 0)) = (self', Ok ()) ∧
    Push.proprio_hist_buf self' !! 0%nat = Some hist' ∧
    length hist' = 3%nat ∧
    hist' !! 0%nat = Some (replicate 8 2) ∧ hist' !! 1%nat = Some (replicate 8 3).
Proof.
  eexists _, _. split; [reflexivity|]. split; [reflexivity|].
  destruct (proj1 store_proprio_hist_shifts_history (push_config Push.pose3d 2 8)
              (Push.set_proprio_hist_buf [[replicate 8 1; replicate 8 2; replicate 8 3]]
                 (push_state 8 (Vec3 0.1 0.2 1.05) (Vec3 0 0.25 1.05) 0))
              _ 0%nat [replicate 8 1; replicate 8 2; replicate 8 3] _
              eq_refl eq_refl eq_refl) as [Hl Hk].
  split; [exact Hl|].
  split; [apply (Hk 0%nat) | apply (Hk 1%nat)]; simpl; lia.
Defined.

(** ** Indexed reads and writes *)

Lemma index_select_lookup {A} (ids : list nat) (t xs : list A) :
  Torch.index_select ids t = Ok xs →
  length xs = length ids ∧
  ∀ (k j : nat), ids !! k = Some j → xs !! k = t !! j.
Proof.
  revert xs. induction ids as [|i0 ids IH]; intros xs Hs; simpl in Hs.
  - inv_Ok Hs. split; [done|]. intros k j Hk. done.
  - destruct (t !! i0) as [x|] eqn:Hx; [|done]. inv_bind Hs. inv_Ok Hs.
    destruct (IH _ Hx0) as [Hl Hk]. split; [simpl; lia|].
    intros [|k] j Hj; simpl in *; [by inv_Ok Hj | by apply Hk].
Qed.

(** After [t[ids] = rows], an index of [ids] holds one of the rows that
    were written to it. *)
Lemma index_put_zip_lookup_elem {A} (ids : list nat) (rows t t' : list A) (i : nat) :
  length ids = length rows →
  Torch.index_put_zip ids rows t = Ok t' → i ∈ ids →
  ∃ (k : nat) (r : A), ids !! k = Some i ∧ rows !! k = Some r ∧ t' !! i = Some r.
Proof.
  revert rows t. induction ids as [|i0 ids IH]; intros rows t Hl Hf Hi.
  - by apply elem_of_nil in Hi.
  - destruct rows as [|r rows]; [done|]. simpl in Hl, Hf.
    destruct (decide (i0 < length t)%nat) as [Hlt|]; [|done].
    destruct (decide (i ∈ ids)) as [Hin|Hnin].
    + destruct (IH rows _ ltac:(lia) Hf Hin) as (k & r' & Hk & Hr & Ht).
      exists (S k), r'. done.
    + apply elem_of_cons in Hi as [->|Hi]; [|done].
      exists 0%nat, r. split; [done|]. split; [done|].
      rewrite (index_put_zip_lookup_ne _ _ _ _ _ Hf Hnin).
      by apply list_lookup_insert_eq.
Qed.

(** Two buffers written with the same rows at the same indices agree on
    these indices. *)
Lemma index_put_zip_agree {A} (ids : list nat) (rows t t' u u' : list A) (i : nat) :
  length ids = length rows →
  Torch.index_put_zip ids rows t = Ok t' → Torch.index_put_zip ids rows u = Ok u' →
  i ∈ ids → t' !! i = u' !! i ∧ is_Some (t' !! i).
Proof.
  revert rows t u. induction ids as [|i0 ids IH]; intros rows t u Hl Ht Hu Hi.
  - by apply elem_of_nil in Hi.
  - destruct rows as [|r rows]; [done|]. simpl in Hl, Ht, Hu.
    destruct (decide (i0 < length t)%nat) as [Hlt|]; [|done].
    destruct (decide (i0 < length u)%nat) as [Hlu|]; [|done].
    destruct (decide (i ∈ ids)) as [Hin|Hnin].
    + by apply (IH rows _ _ ltac:(lia) Ht Hu Hin).
    + apply elem_of_cons in Hi as [->|Hi]; [|done].
      rewrite (index_put_zip_lookup_ne _ _ _ _ _ Ht Hnin).
      rewrite (index_put_zip_lookup_ne _ _ _ _ _ Hu Hnin).
      rewrite !list_lookup_insert_eq by done. eauto.
Qed.

Lemma index_put_zip_eq {A} (ids : list nat) (rows t : list A) :
  length ids = length rows → Torch.index_put ids rows t = Torch.index_put_zip ids rows t.
Proof. intros Hl. unfold Torch.index_put. by rewrite decide_True. Qed.

Lemma collect_length {A} (rows : list (result A)) (out : list A) :
  Torch.collect rows = Ok out → length out = length rows.
Proof.
  revert out. induction rows as [|r rows IH]; intros out Hc; simpl in Hc.
  - by inv_Ok Hc.
  - inv_bind Hc. inv_Ok Hc. simpl. f_equal. by apply IH.
Qed.

(** Copying the rows at [ids] from [src] into [t]: [t[ids] = src[ids]]. *)
Lemma index_copy_lookup {A} (ids : list nat) (src rows t t' : list A) (i : nat) :
  Torch.index_select ids src = Ok rows → Torch.index_put ids rows t = Ok t' →
  i ∈ ids → t' !! i = src !! i ∧ is_Some (t' !! i).
Proof.
  intros Hs Hp Hi. destruct (index_select_lookup _ _ _ Hs) as [Hl Hk].
  rewrite index_put_zip_eq in Hp by done.
  eapply index_put_zip_lookup_elem in Hp as (k & r & Hik & Hr & Ht); [|done|exact Hi].
  rewrite (Hk _ _ Hik) in Hr. rewrite Ht, Hr. eauto.
Qed.

Lemma broadcast2_length_l {A B C} (f : A → B → C) (xs : list A) (ys : list B)
    (zs : list C) :
  Torch.broadcast2 f xs ys = Ok zs → length xs ≠ 1%nat → length zs = length xs.
Proof.
  unfold Torch.broadcast2. intros Hb Hx.
  destruct (decide (length xs = length ys)) as [E|E].
  - inv_Ok Hb. rewrite length_zip_with. lia.
  - destruct xs as [|x0 [|x1 xs]]; [|done|].
    + destruct ys as [|y0 [|y1 ys]]; try done. by inv_Ok Hb.
    + destruct ys as [|y0 [|y1 ys]]; try done. inv_Ok Hb. by rewrite length_fmap.
Qed.

Lemma map_const_replicate {A B} (b : B) (l : list A) :
  map (λ _, b) l = replicate (length l) b.
Proof. induction l as [|a l IH]; simpl; [done|]. by rewrite IH. Qed.

(** ** What a reset writes *)

(** X4.  [reset_idx] writes only the environments it is given: for every
    index outside [env_ids], the step count, the reset flag, the hold
    counter (push) or contact timer (throw), the initial and the goal state
    of the cube, the cube and joint state shared with the simulator, and
    the position and effort commands are what they were before the call. *)
Theorem reset_idx_leaves_other_environments :
  (∀ cfg env_ids noise (self self' : Push.State) (i : nat),
     Push.reset_idx cfg env_ids noise self = Ok self' → i ∉ env_ids →
     push_env_unchanged i self self') ∧
  (∀ cfg env_ids noise (self self' : Throw.State) (i : nat),
     Throw.reset_idx cfg env_ids noise self = Ok self' → i ∉ env_ids →
     throw_env_unchanged i self self').
Proof.
  split; intros cfg env_ids noise self self' i Hr Hi.
  - unfold Push.reset_idx in Hr. inv_bind Hr. inv_Ok Hr.
    unfold Push._reset_init_cube_state in Hx. inv_bind Hx. inv_Ok Hx.
    unfold push_env_unchanged. simpl in *.
    repeat split;
      repeat (first [ erewrite index_fill_lookup_ne by eassumption
                    | erewrite index_put_lookup_ne by eassumption ]);
      reflexivity.
  - unfold Throw.reset_idx in Hr. inv_bind Hr. inv_Ok Hr.
    unfold Throw._reset_init_cube_state in Hx0. inv_bind Hx0. inv_Ok Hx0.
    unfold throw_env_unchanged. simpl in *.
    repeat split;
      repeat (first [ erewrite index_fill_lookup_ne by eassumption
                    | erewrite index_put_lookup_ne by eassumption ]);
      reflexivity.
Qed.

Lemma reset_idx_leaves_other_environments_witness :
  (∃ self',
     Push.reset_idx (push_config Push.pose3d 2 32) [0%nat] no_noise
       (push_batch 2 (Vec3 0.1 0.2 1.05) (Vec3 0 0.25 1.05)) = Ok self' ∧
     push_env_unchanged 1 (push_batch 2 (Vec3 0.1 0.2 1.05) (Vec3 0 0.25 1.05)) self') ∧
  (∃ self',
     Throw.reset_idx throw_config [0%nat] no_noise (throw_batch 2) = Ok self' ∧
     throw_env_unchanged 1 (throw_batch 2) self').
Proof.
  split.
  - eexists. split; [vm_compute; reflexivity|].
    apply (proj1 reset_idx_leaves_other_environments
             (push_config Push.pose3d 2 32) [0%nat] no_noise).
    + vm_compute. reflexivity.
    + intros Hin. apply list_elem_of_singleton in Hin. discriminate Hin.
  - eexists. split; [vm_compute; reflexivity|].
    apply (proj2 reset_idx_leaves_other_environments throw_config [0%nat] no_noise).
    + vm_compute. reflexivity.
    + intros Hin. apply list_elem_of_singleton in Hin. discriminate Hin.
Defined.

Lemma push_reset_init_rows cfg env_ids noise (self self' : Push.State) (i : nat) :
  0 <= Push.init_cube_pos_noise cfg → 0 <= Push.goal_cube_pos_noise cfg →
  unit_samples (rand_init_xy noise) → unit_samples (rand_goal_xy noise) →
  Push._reset_init_cube_state cfg env_ids noise self = Ok self' → i ∈ env_ids →
  ∃ (c g : RigidState) (h : R),
    Push.cube_size (Push.states self) !! i = Some h ∧
    Push._init_cube_state self' !! i = Some c ∧
    Push._goal_cube_state self' !! i = Some g ∧
    on_table_near (Push._table_surface_pos cfg)
      (vx (Push._table_surface_pos cfg)) (vy (Push._table_surface_pos cfg))
      (Push.init_cube_pos_noise cfg) h c ∧
    on_table_near (Push._table_surface_pos cfg)
      (vx (Push._table_surface_pos cfg)) (vy (Push._table_surface_pos cfg) + 0.25)
      (Push.goal_cube_pos_noise cfg) h g.
Proof.
  intros Hni Hng Hri Hrg Hr Hi.
  unfold Push._reset_init_cube_state in Hr.
  apply bind_Ok in Hr as (heights & Hh & Hr).
  apply bind_Ok in Hr as (init & Hinit & Hr).
  apply bind_Ok in Hr as (goal & Hgoal & Hr). inv_Ok Hr. simpl.
  destruct (index_select_lookup _ _ _ Hh) as [Hlh Hhk].
  rewrite index_put_zip_eq in Hinit by (by rewrite length_imap).
  rewrite index_put_zip_eq in Hgoal by (by rewrite length_imap).
  eapply index_put_zip_lookup_elem in Hinit as (k & c & Hk & Hc & Hci);
    [|by rewrite length_imap|exact Hi].
  eapply index_put_zip_lookup_elem in Hgoal as (k' & g & Hk' & Hg & Hgi);
    [|by rewrite length_imap|exact Hi].
  rewrite list_lookup_imap in Hc, Hg.
  destruct (heights !! k) as [h|] eqn:Hxk; [|done].
  destruct (heights !! k') as [h'|] eqn:Hxk'; [|done].
  simpl in Hc, Hg. inv_Ok Hc. inv_Ok Hg.
  rewrite (Hhk _ _ Hk) in Hxk. rewrite (Hhk _ _ Hk') in Hxk'.
  assert (h' = h) as -> by congruence.
  eexists _, _, h. split; [done|]. split; [exact Hci|]. split; [exact Hgi|].
  pose proof (Hri k 0%nat). pose proof (Hri k 1%nat).
  pose proof (Hrg k' 0%nat). pose proof (Hrg k' 1%nat).
  unfold on_table_near. simpl.
  repeat split; try (apply Rabs_le; split; nra); f_equal; lra.
Qed.

(** X5.  In the push task, after [reset_idx] every environment of
    [env_ids] has its cube, in the tensor shared with the simulator, at the
    freshly sampled initial state: at rest and upright on the table
    surface (centre at half the cube size above it), within
    [init_cube_pos_noise] of the table centre in x and in y; and its goal
    state is on the table within [goal_cube_pos_noise] of the point 0.25
    further along y.  The samples of [torch.rand] are in [0, 1). *)
Theorem push_reset_places_cube_on_table cfg env_ids noise (self self' : Push.State)
    (i : nat) :
  0 <= Push.init_cube_pos_noise cfg → 0 <= Push.goal_cube_pos_noise cfg →
  unit_samples (rand_init_xy noise) → unit_samples (rand_goal_xy noise) →
  Push.reset_idx cfg env_ids noise self = Ok self' → i ∈ env_ids →
  ∃ (c g : RigidState) (h : R),
    Push.cube_size (Push.states self) !! i = Some h ∧
    _cube_state (Push.sim self') !! i = Some c ∧
    Push._init_cube_state self' !! i = Some c ∧
    Push._goal_cube_state self' !! i = Some g ∧
    on_table_near (Push._table_surface_pos cfg)
      (vx (Push._table_surface_pos cfg)) (vy (Push._table_surface_pos cfg))
      (Push.init_cube_pos_noise cfg) h c ∧
    on_table_near (Push._table_surface_pos cfg)
      (vx (Push._table_surface_pos cfg)) (vy (Push._table_surface_pos cfg) + 0.25)
      (Push.goal_cube_pos_noise cfg) h g.
Proof.
  intros Hni Hng Hri Hrg Hr Hi.
  unfold Push.reset_idx in Hr.
  apply bind_Ok in Hr as (s1 & Hs1 & Hr).
  apply bind_Ok in Hr as (init_rows & Hir & Hr).
  apply bind_Ok in Hr as (cube & Hcube & Hr).
  apply bind_Ok in Hr as (goal_rows & Hgr & Hr).
  apply bind_Ok in Hr as (goal & Hgoal & Hr).
  inv_bind Hr. inv_Ok Hr. simpl.
  destruct (push_reset_init_rows _ _ _ _ _ i Hni Hng Hri Hrg Hs1 Hi)
    as (c & g & h & Hh & Hc & Hg & Hpc & Hpg).
  destruct (push_reset_init_frame _ _ _ _ _ Hs1) as (_ & _ & Hst & Hsim & _).
  destruct (index_copy_lookup _ _ _ _ _ i Hir Hcube Hi) as [Ec _].
  destruct (index_copy_lookup _ _ _ _ _ i Hgr Hgoal Hi) as [Eg _].
  exists c, g, h. rewrite Ec, Eg. done.
Qed.

Lemma unit_samples_no_noise :
  unit_samples (rand_init_xy no_noise) ∧ unit_samples (rand_goal_xy no_noise).
Proof. split; intros k c; simpl; lra. Qed.

Lemma push_reset_places_cube_on_table_witness :
  ∃ self',
    Push.reset_idx (push_config Push.pose3d 2 32) [0%nat] no_noise
      (push_batch 2 (Vec3 0.1 0.2 1.05) (Vec3 0 0.25 1.05)) = Ok self' ∧
    ∃ (c g : RigidState) (h : R),
      Push.cube_size (Push.states (push_batch 2 (Vec3 0.1 0.2 1.05) (Vec3 0 0.25 1.05)))
        !! 0%nat = Some h ∧
      _cube_state (Push.sim self') !! 0%nat = Some c ∧
      Push._init_cube_state self' !! 0%nat = Some c ∧
      Push._goal_cube_state self' !! 0%nat = Some g ∧
      on_table_near (Vec3 0 0 1.025) 0 0 0.1 h c ∧
      on_table_near (Vec3 0 0 1.025) 0 (0 + 0.25) 0.1 h g.
Proof.
  eexists. split; [vm_compute; reflexivity|].
  apply (push_reset_places_cube_on_table (push_config Push.pose3d 2 32) [0%nat]
           no_noise (push_batch 2 (Vec3 0.1 0.2 1.05) (Vec3 0 0.25 1.05))).
  - simpl. lra.
  - simpl. lra.
  - apply unit_samples_no_noise.
  - apply unit_samples_no_noise.
  - vm_compute. reflexivity.
  - apply list_elem_of_singleton. reflexivity.
Defined.

(** A row sampled by the reset-agent block: nine joints, the two finger
    joints at their default opening. *)
Lemma sample_dof_pos_row (default lower upper : list R) (dof_noise : R)
    (noise : nat → nat → R) (k : nat) (r : list R) :
  length default = 9%nat →
  sample_dof_pos default lower upper dof_noise noise k = Ok r →
  length r = 9%nat ∧ drop 7 r = drop 7 default.
Proof.
  intros Hd Hs. unfold sample_dof_pos in Hs.
  apply bind_Ok in Hs as (raw & Hraw & Hs).
  apply bind_Ok in Hs as (pos & Hpos & Hs). inv_Ok Hs.
  unfold tensor_clamp in Hpos. apply bind_Ok in Hpos as (m & Hm & Hpos).
  apply broadcast2_length_l in Hraw; [|lia].
  apply broadcast2_length_l in Hm; [|lia].
  apply broadcast2_length_l in Hpos; [|lia].
  assert (Hlen : length pos = 9%nat) by lia.
  unfold set_last2. rewrite Hlen, Hd. simpl.
  split.
  - rewrite length_app, length_take, length_drop. lia.
  - rewrite drop_app_length'; [done|]. rewrite length_take. lia.
Qed.

Lemma push_default_dof_pos_length cfg : length (Push.default_dof_pos cfg) = 9%nat.
Proof. unfold Push.default_dof_pos. by destruct (Push.control_input cfg). Qed.

(** The rows written by the reset-agent block at an index of [ids]. *)
Lemma reset_agent_rows (default lower upper : list R) (dof_noise : R)
    (noise : nat → nat → R) (ids : list nat) (pos : list (list R))
    (q q' qd qd' qd_rows pc pc' ec ec' : list (list R)) (i : nat) :
  length default = 9%nat →
  Torch.collect (sample_dof_pos default lower upper dof_noise noise <$> seq 0 (length ids))
    = Ok pos →
  Torch.index_put ids pos q = Ok q' →
  Torch.index_select ids qd = Ok qd_rows →
  Torch.index_put ids (map (λ _, 0) <$> qd_rows) qd = Ok qd' →
  Torch.index_put ids pos pc = Ok pc' →
  Torch.index_put ids (map (λ _, 0) <$> pos) ec = Ok ec' →
  i ∈ ids →
  ∃ (row old : list R),
    q' !! i = Some row ∧ pc' !! i = Some row ∧
    length row = 9%nat ∧ drop 7 row = drop 7 default ∧
    qd !! i = Some old ∧ qd' !! i = Some (replicate (length old) 0) ∧
    ec' !! i = Some (replicate 9 0).
Proof.
  intros Hd Hpos Hq Hsel Hqd Hpc Hec Hi.
  pose proof (collect_length _ _ Hpos) as Hl. rewrite length_fmap, length_seq in Hl.
  destruct (index_select_lookup _ _ _ Hsel) as [Hlq Hkq].
  rewrite index_put_zip_eq in Hq, Hpc by done.
  rewrite index_put_zip_eq in Hqd, Hec by (by rewrite length_fmap).
  assert (Hl' : length ids = length pos) by done.
  destruct (index_put_zip_agree _ _ _ _ _ _ i Hl' Hq Hpc Hi) as [Eq _].
  eapply index_put_zip_lookup_elem in Hq as (k & row & Hk & Hrow & Hqi); [|done|exact Hi].
  eapply index_put_zip_lookup_elem in Hqd as (k1 & z & Hk1 & Hz & Hqdi);
    [|by rewrite length_fmap|exact Hi].
  eapply index_put_zip_lookup_elem in Hec as (k2 & e & Hk2 & He & Heci);
    [|by rewrite length_fmap|exact Hi].
  pose proof (collect_lookup _ _ _ _ Hpos Hrow) as Hs.
  rewrite list_lookup_fmap in Hs.
  destruct (seq 0 (length ids) !! k) as [k'|] eqn:Hseq; [|done]. simpl in Hs. inv_Ok Hs.
  match goal with
  | Hs : sample_dof_pos _ _ _ _ _ _ = Ok _ |- _ =>
      destruct (sample_dof_pos_row _ _ _ _ _ _ _ Hd Hs) as [Hlen Hdrop]
  end.
  rewrite list_lookup_fmap in Hz, He.
  destruct (qd_rows !! k1) as [old|] eqn:Hold; [|done]. simpl in Hz. inv_Ok Hz.
  destruct (pos !! k2) as [row2|] eqn:Hrow2; [|done]. simpl in He. inv_Ok He.
  rewrite (Hkq _ _ Hk1) in Hold.
  assert (Hlen2 : length row2 = 9%nat).
  { pose proof (collect_lookup _ _ _ _ Hpos Hrow2) as Hs2.
    rewrite list_lookup_fmap in Hs2.
    destruct (seq 0 (length ids) !! k2) as [k2'|]; [|done]. simpl in Hs2. inv_Ok Hs2.
    match goal with
    | Hs : sample_dof_pos _ _ _ _ _ k2' = Ok _ |- _ =>
        by destruct (sample_dof_pos_row _ _ _ _ _ _ _ Hd Hs)
    end. }
  exists row, old. rewrite <- Eq, Hqi, Hqdi, Heci, !map_const_replicate, Hlen2. done.
Qed.

(** X6.  After [reset_idx], for every environment of [env_ids]: the
    position target of the nine joints equals the joint position written
    to the simulator, whose two finger joints are at their default opening
    whatever the noise and the joint limits; the joint velocities are
    zero; and the nine effort commands are zero.  In the push and in the
    throw task. *)
Theorem reset_idx_joint_targets :
  (∀ cfg env_ids noise (self self' : Push.State) (i : nat),
     Push.reset_idx cfg env_ids noise self = Ok self' → i ∈ env_ids →
     ∃ (row old : list R),
       _q (Push.sim self') !! i = Some row ∧ Push._pos_control self' !! i = Some row ∧
       length row = 9%nat ∧ drop 7 row = drop 7 (Push.default_dof_pos cfg) ∧
       _qd (Push.sim self) !! i = Some old ∧
       _qd (Push.sim self') !! i = Some (replicate (length old) 0) ∧
       Push._effort_control self' !! i = Some (replicate 9 0)) ∧
  (∀ cfg env_ids noise (self self' : Throw.State) (i : nat),
     Throw.reset_idx cfg env_ids noise self = Ok self' → i ∈ env_ids →
     ∃ (row old : list R),
       _q (Throw.sim self') !! i = Some row ∧ Throw._pos_control self' !! i = Some row ∧
       length row = 9%nat ∧ drop 7 row = [0.020; 0.020] ∧
       _qd (Throw.sim self) !! i = Some old ∧
       _qd (Throw.sim self') !! i = Some (replicate (length old) 0) ∧
       Throw._effort_control self' !! i = Some (replicate 9 0)).
Proof.
  split; intros cfg env_ids noise self self' i Hr Hi.
  - unfold Push.reset_idx in Hr.
    apply bind_Ok in Hr as (s1 & Hs1 & Hr).
    destruct (push_reset_init_frame _ _ _ _ _ Hs1) as (_ & _ & _ & Hsim & _).
    assert (Hpc : Push._pos_control s1 = Push._pos_control self
                  ∧ Push._effort_control s1 = Push._effort_control self).
    { unfold Push._reset_init_cube_state in Hs1. inv_bind Hs1. by inv_Ok Hs1. }
    destruct Hpc as [Hpc Hec]. rewrite Hsim, Hpc, Hec in Hr.
    inv_bind Hr. inv_Ok Hr. simpl.
    eapply reset_agent_rows; eauto using push_default_dof_pos_length.
  - unfold Throw.reset_idx in Hr.
    apply bind_Ok in Hr as (ct & Hct & Hr).
    apply bind_Ok in Hr as (s1 & Hs1 & Hr).
    assert (Hpc : Throw.sim s1 = Throw.sim self
                  ∧ Throw._pos_control s1 = Throw._pos_control self
                  ∧ Throw._effort_control s1 = Throw._effort_control self).
    { unfold Throw._reset_init_cube_state in Hs1. inv_bind Hs1. by inv_Ok Hs1. }
    destruct Hpc as (Hsim & Hpc & Hec). simpl in Hsim, Hpc, Hec.
    rewrite Hsim, Hpc, Hec in Hr.
    inv_bind Hr. inv_Ok Hr. simpl.
    change [0.020; 0.020] with (drop 7 Throw.default_dof_pos).
    eapply reset_agent_rows; eauto.
Qed.

Lemma reset_idx_joint_targets_witness :
  (∃ self',
     Push.reset_idx (push_config Push.pose3d 2 32) [0%nat] no_noise
       (push_batch 2 (Vec3 0.1 0.2 1.05) (Vec3 0 0.25 1.05)) = Ok self' ∧
     ∃ (row old : list R),
       _q (Push.sim self') !! 0%nat = Some row ∧
       Push._pos_control self' !! 0%nat = Some row ∧
       length row = 9%nat ∧ drop 7 row = [0.001; 0.001] ∧
       _qd (sim_batch 2 (Vec3 0.1 0.2 1.05)) !! 0%nat = Some old ∧
       _qd (Push.sim self') !! 0%nat = Some (replicate (length old) 0) ∧
       Push._effort_control self' !! 0%nat = Some (replicate 9 0)) ∧
  (∃ self',
     Throw.reset_idx throw_config [0%nat] no_noise (throw_batch 2) = Ok self' ∧
     ∃ (row old : list R),
       _q (Throw.sim self') !! 0%nat = Some row ∧
       Throw._pos_control self' !! 0%nat = Some row ∧
       length row = 9%nat ∧ drop 7 row = [0.020; 0.020] ∧
       _qd (sim_batch 2 (Vec3 0.216 0 1.05)) !! 0%nat = Some old ∧
       _qd (Throw.sim self') !! 0%nat = Some (replicate (length old) 0) ∧
       Throw._effort_control self' !! 0%nat = Some (replicate 9 0)).
Proof.
  split.
  - eexists. split; [vm_compute; reflexivity|].
    apply (proj1 reset_idx_joint_targets (push_config Push.pose3d 2 32) [0%nat] no_noise
             (push_batch 2 (Vec3 0.1 0.2 1.05) (Vec3 0 0.25 1.05))).
    + vm_compute. reflexivity.
    + apply list_elem_of_singleton. reflexivity.
  - eexists. split; [vm_compute; reflexivity|].
    apply (proj2 reset_idx_joint_targets throw_config [0%nat] no_noise (throw_batch 2)).
    + vm_compute. reflexivity.
    + apply list_elem_of_singleton. reflexivity.
Defined.

(** ** Time-out of an episode of the push task *)

Lemma timeout_decide (p L : Z) :
  bool_decide (IZR p >= IZR L - 1) = bool_decide (L - 1 <= p)%Z.
Proof.
  apply bool_decide_ext. rewrite <- minus_IZR. split.
  - intros Hge. apply le_IZR. lra.
  - intros Hle. apply IZR_le in Hle. lra.
Qed.

Lemma push_run_time_out `{JitUtils} (cfg : Push.Config) (i : nat) (g : RigidState)
    (inps : list Push.TickInput) :
  0 <= Push.nHoldSteps cfg →
  ¬ single_step_primitive cfg →
  Forall (outside_threshold i g) inps →
  ∀ (self self' : Push.State) (h : R) (p : Z),
    Push.run cfg inps self = Ok self' →
    Push.hold_counters (Push.states self) !! i = Some h →
    Push.reset_buf self !! i = Some 0%Z →
    Push.progress_buf self !! i = Some p →
    Push._goal_cube_state self !! i = Some g →
    (0 < length inps)%nat →
    (p + Z.of_nat (length inps) <= Push.max_episode_length cfg - 1)%Z →
    Push.progress_buf self' !! i = Some (p + Z.of_nat (length inps))%Z ∧
    Push.extras_success self' !! i = Some false ∧
    Push.reset_buf self' !! i
    = Some (if bool_decide (p + Z.of_nat (length inps) = Push.max_episode_length cfg - 1)%Z
            then 1%Z else 0%Z).
Proof.
  intros Hn Hhack Hin.
  induction Hin as [|inp inps (c & Hc & Hd) Hin IH];
    intros self self' h p Hrun Hh Hr Hp Hg Hlen Hmax; [simpl in Hlen; lia|].
  simpl in Hrun. apply bind_Ok in Hrun as (s1 & Hs1 & Hrun).
  destruct (push_tick_env cfg inp self s1 i g c h p Hhack Hs1 Hh Hr Hp Hg Hc)
    as (Hh1 & Hp1 & Hg1 & Hsu1 & Hr1).
  rewrite (bool_decide_eq_false_2 _ Hd) in Hh1, Hsu1, Hr1.
  rewrite (bool_decide_eq_false_2 (0 > Push.nHoldSteps cfg)) in Hsu1, Hr1 by lra.
  rewrite timeout_decide, orb_false_r in Hr1.
  destruct inps as [|inp' inps].
  - simpl in Hrun. inv_Ok Hrun. simpl in *.
    split; [done|]. split; [done|]. rewrite Hr1. f_equal.
    repeat case_bool_decide; try done; lia.
  - rewrite bool_decide_eq_false_2 in Hr1 by (simpl length in Hmax; lia).
    destruct (IH s1 self' 0 (p + 1)%Z Hrun Hh1 Hr1 Hp1 Hg1) as (IHp & IHs & IHr).
    + simpl. lia.
    + simpl length in *. lia.
    + replace (p + Z.of_nat (length (inp :: inp' :: inps)))%Z
        with (p + 1 + Z.of_nat (length (inp' :: inps)))%Z by (simpl length; lia).
      done.
Qed.

(** X7.  In the push task, an environment that is not flagged for reset
    and whose cube stays outside the success threshold is flagged by the
    time-out and by nothing else: after [k] ticks its step count has grown
    by [k], no success is reported, and as long as the count does not
    exceed [max_episode_length - 1] the reset flag is up exactly when the
    count has reached [max_episode_length - 1]. *)
Theorem push_time_out_timing `{JitUtils} (cfg : Push.Config) (inps : list Push.TickInput)
    (self self' : Push.State) (i : nat) (g : RigidState) (h : R) (p : Z) :
  0 <= Push.nHoldSteps cfg →
  ¬ single_step_primitive cfg →
  Push.run cfg inps self = Ok self' →
  Push.hold_counters (Push.states self) !! i = Some h →
  Push.reset_buf self !! i = Some 0%Z →
  Push.progress_buf self !! i = Some p →
  Push._goal_cube_state self !! i = Some g →
  Forall (outside_threshold i g) inps →
  (0 < length inps)%nat →
  (p + Z.of_nat (length inps) <= Push.max_episode_length cfg - 1)%Z →
  Push.progress_buf self' !! i = Some (p + Z.of_nat (length inps))%Z ∧
  Push.extras_success self' !! i = Some false ∧
  Push.reset_buf self' !! i
  = Some (if bool_decide (p + Z.of_nat (length inps) = Push.max_episode_length cfg - 1)%Z
          then 1%Z else 0%Z).
Proof.
  intros Hn Hhack Hrun Hh Hr Hp Hg Hin Hlen Hmax.
  by eapply push_run_time_out.
Qed.

Lemma far_from_goal :
  ¬ vnorm (vsub (Vec3 0 0.25 1.05) (Vec3 0 0 1.05)) < 0.05.
Proof.
  apply Rle_not_lt. unfold vnorm, vsub. simpl.
  replace 0.05 with (sqrt (0.05 * 0.05)) by (rewrite sqrt_square; lra).
  apply sqrt_le_1; lra.
Qed.

Lemma push_time_out_timing_witness :
  ∃ self',
    Push.run (H := hamilton) (push_config Push.pose3d 2 32)
      [push_tick (Vec3 0 0 1.05)]
      (Push.set_progress_buf [98%Z]
         (push_state 32 (Vec3 0 0 1.05) (Vec3 0 0.25 1.05) 0)) = Ok self' ∧
    Push.progress_buf self' !! 0%nat = Some 99%Z ∧
    Push.extras_success self' !! 0%nat = Some false ∧
    Push.reset_buf self' !! 0%nat = Some 1%Z.
Proof.
  eexists. split; [vm_compute; reflexivity|].
  apply (push_time_out_timing (H := hamilton) (push_config Push.pose3d 2 32)
           [push_tick (Vec3 0 0 1.05)]
           (Push.set_progress_buf [98%Z]
              (push_state 32 (Vec3 0 0 1.05) (Vec3 0 0.25 1.05) 0))
           _ 0%nat (rigid_at (Vec3 0 0.25 1.05)) 0 98%Z).
  - simpl. lra.
  - intros [Hc _]. discriminate Hc.
  - vm_compute. reflexivity.
  - reflexivity.
  - reflexivity.
  - reflexivity.
  - reflexivity.
  - repeat constructor; exists (rigid_at (Vec3 0 0 1.05));
      (split; [reflexivity | exact far_from_goal]).
  - simpl. lia.
  - simpl. lia.
Defined.

(** ** One tick of the throw task, per environment *)

Lemma throw_update_states_fields self self' :
  Throw._update_states self = Ok self' →
  Throw.progress_buf self' = Throw.progress_buf self ∧
  Throw.reset_buf self' = Throw.reset_buf self ∧
  Throw.contact_time self' = Throw.contact_time self ∧
  Throw._goal_cube_state self' = Throw._goal_cube_state self ∧
  Throw.cube_pos (Throw.states self') = rs_pos <$> _cube_state (Throw.sim self) ∧
  Throw.cube_vel (Throw.states self') = rs_lin_vel <$> _cube_state (Throw.sim self) ∧
  Throw.goal_cube_pos (Throw.states self') = rs_pos <$> Throw._goal_cube_state self.
Proof.
  unfold Throw._update_states. intros Hu. inv_bind Hu. by inv_Ok Hu.
Qed.

(** What [compute_reward] of the throw task writes, per environment. *)
Lemma throw_compute_reward_env cfg self self' (i : nat) (c g v : vec3) (p r : Z) :
  Throw.compute_reward cfg self = Ok self' →
  Throw.cube_pos (Throw.states self) !! i = Some c →
  Throw.goal_cube_pos (Throw.states self) !! i = Some g →
  Throw.cube_vel (Throw.states self) !! i = Some v →
  Throw.progress_buf self !! i = Some p →
  Throw.reset_buf self !! i = Some r →
  let s := bool_decide (vnorm v < 0.001) && bool_decide (vnorm (vsub c g) < 0.05)
           && bool_decide (p > 0)%Z in
  Throw.progress_buf self' = Throw.progress_buf self ∧
  Throw.contact_time self' = Throw.contact_time self ∧
  Throw.extras_success self' !! i = Some s ∧
  Throw.reset_buf self' !! i
  = Some (if bool_decide (IZR p >= IZR (Throw.max_episode_length cfg) - 1) || s
          then 1%Z else r).
Proof.
  intros Hc Hcp Hgp Hv Hp Hr s.
  unfold Throw.compute_reward in Hc.
  apply bind_Ok in Hc as ([[rewards reset] success] & Hf & Hc).
  apply bind_Ok in Hc as (rew & Hrew & Hc).
  apply bind_Ok in Hc as (rst & Hrst & Hc). inv_Ok Hc. simpl.
  unfold Throw.compute_franka_reward in Hf.
  apply bind_Ok in Hf as (diff & Hdiff & Hf).
  apply bind_Ok in Hf as (rp & _ & Hf).
  apply bind_Ok in Hf as (da & _ & Hf).
  apply bind_Ok in Hf as (rv & _ & Hf).
  apply bind_Ok in Hf as (rv' & _ & Hf).
  apply bind_Ok in Hf as (c12 & Hc12 & Hf).
  apply bind_Ok in Hf as (sc & Hsc & Hf).
  apply bind_Ok in Hf as (rs & _ & Hf).
  apply bind_Ok in Hf as (sr & _ & Hf).
  apply bind_Ok in Hf as (r1 & _ & Hf).
  apply bind_Ok in Hf as (r2 & _ & Hf).
  apply bind_Ok in Hf as (rw & _ & Hf).
  apply bind_Ok in Hf as (rb & Hterm & Hf). inv_Ok Hf.
  pose proof (broadcast2_lookup _ _ _ _ _ _ _ Hdiff Hcp Hgp) as Hd.
  eapply broadcast2_lookup in Hc12;
    [| by rewrite list_lookup_fmap, Hv | by rewrite !list_lookup_fmap, Hd].
  eapply broadcast2_lookup in Hsc; [| exact Hc12 | by rewrite list_lookup_fmap, Hp].
  simpl in Hsc. fold s in Hsc.
  repeat split; [done|].
  pose proof (termination_lookup _ _ _ _ _ _ _ _ _ Hterm Hp Hsc Hr) as Hl.
  by eapply assign_all_lookup.
Qed.

Lemma throw_store_proprio_hist_fields cfg self self' r :
  Throw.store_proprio_hist cfg self = (self', r) →
  Throw.progress_buf self' = Throw.progress_buf self ∧
  Throw.reset_buf self' = Throw.reset_buf self ∧
  Throw.contact_time self' = Throw.contact_time self ∧
  Throw.extras_success self' = Throw.extras_success self.
Proof.
  unfold Throw.store_proprio_hist. intros Hs.
  destruct (store_hist _ _ _ _ _) as [buf r']. by inv_Ok Hs.
Qed.

(** X8.  One call of [post_physics_step] of the throw task, seen from one
    environment.  If its reset flag is up, the environment is reset: its
    step count and contact timer are zero after the tick, no success is
    reported for it in this tick wherever the cube is (success requires a
    positive step count), and its reset flag is down again unless
    [max_episode_length] is at most 1.  If its reset flag is down, its
    step count grows by one and its contact timer grows by one exactly
    when the finger tip was within 0.2 of the cube at the previous
    refresh. *)
Theorem throw_tick_per_environment (cfg : Throw.Config) (inp : Throw.TickInput)
    (self self' : Throw.State) (i : nat) (p r : Z) (t : R) (v : vec3) (c : RigidState) :
  Throw.post_physics_step cfg inp self = Ok self' →
  Throw.progress_buf self !! i = Some p →
  Throw.reset_buf self !! i = Some r →
  Throw.contact_time self !! i = Some t →
  Throw.cube_contact (Throw.states self) !! i = Some v →
  _cube_state (Throw.tick_snap inp) !! i = Some c →
  (r ≠ 0%Z →
     Throw.progress_buf self' !! i = Some 0%Z ∧
     Throw.contact_time self' !! i = Some 0 ∧
     Throw.extras_success self' !! i = Some false ∧
     Throw.reset_buf self' !! i
     = Some (if bool_decide (Throw.max_episode_length cfg <= 1)%Z then 1%Z else 0%Z)) ∧
  (r = 0%Z →
     Throw.progress_buf self' !! i = Some (p + 1)%Z ∧
     Throw.contact_time self' !! i
     = Some (t + (if bool_decide (vnorm v < 0.2) then 1 else 0))).
Proof.
  intros Hs Hp Hr Ht Hv Hc.
  unfold Throw.post_physics_step in Hs. cbv zeta in Hs.
  apply bind_Ok in Hs as (sum & Hsum & Hs).
  apply bind_Ok in Hs as (ct & Hct & Hs).
  apply bind_Ok in Hs as (s1 & Hs1 & Hs).
  apply bind_Ok in Hs as (s2 & Hs2 & Hs).
  apply bind_Ok in Hs as (s3 & Hs3 & Hs).
  destruct (Throw.store_proprio_hist cfg s3) as [s4 res] eqn:Hst.
  apply bind_Ok in Hs as (u & _ & Hs). inv_Ok Hs.
  simpl in Hs1, Hsum, Hct.
  eapply broadcast2_lookup in Hsum; [| exact Ht | by rewrite list_lookup_fmap, Hv].
  eapply broadcast2_lookup in Hct; [| exact Hsum | by rewrite list_lookup_fmap, Hr].
  unfold Throw.compute_observations, Throw._refresh in Hs2.
  destruct (throw_update_states_fields _ _ Hs2) as (Ep2 & Er2 & Ec2 & Eg2 & Ecp & Ecv & Egp).
  simpl in Ep2, Er2, Ec2, Eg2, Ecp, Ecv, Egp.
  destruct (throw_store_proprio_hist_fields _ _ _ _ Hst) as (Ep4 & Er4 & Ec4 & Es4).
  split.
  - intros Hne.
    assert (Hi : i ∈ nonzero (Throw.reset_buf self)) by (rewrite nonzero_elem; eauto).
    rewrite decide_True in Hs1
      by (apply list_elem_of_lookup in Hi as [k Hk]; apply lookup_lt_Some in Hk; lia).
    destruct (throw_reset_idx_counters _ _ _ _ _ Hs1) as (Hp1 & Hr1 & Hc1 & _).
    simpl in Hp1, Hr1, Hc1.
    pose proof (index_fill_lookup _ _ _ _ _ Hp1 Hi) as Hp1i.
    pose proof (index_fill_lookup _ _ _ _ _ Hr1 Hi) as Hr1i.
    pose proof (index_fill_lookup _ _ _ _ _ Hc1 Hi) as Hc1i.
    assert (Hg : is_Some (Throw._goal_cube_state s1 !! i)).
    { unfold Throw.reset_idx in Hs1.
      apply bind_Ok in Hs1 as (? & _ & Hs1). apply bind_Ok in Hs1 as (? & _ & Hs1).
      apply bind_Ok in Hs1 as (? & _ & Hs1). apply bind_Ok in Hs1 as (? & _ & Hs1).
      apply bind_Ok in Hs1 as (gr & Hgr & Hs1). apply bind_Ok in Hs1 as (g' & Hg' & Hs1).
      inv_bind Hs1. inv_Ok Hs1. simpl.
      by destruct (index_copy_lookup _ _ _ _ _ i Hgr Hg' Hi). }
    destruct Hg as [g Hg].
    destruct (throw_compute_reward_env cfg s2 s3 i (rs_pos c) (rs_pos g) (rs_lin_vel c)
                0%Z 0%Z Hs3) as (Ep3 & Ec3 & Es3 & Er3).
    { by rewrite Ecp, list_lookup_fmap, Hc. }
    { by rewrite Egp, list_lookup_fmap, Hg. }
    { by rewrite Ecv, list_lookup_fmap, Hc. }
    { by rewrite Ep2. }
    { by rewrite Er2. }
    rewrite Ep4, Ep3, Ep2, Ec4, Ec3, Ec2, Es4, Er4.
    rewrite (bool_decide_eq_false_2 (0 > 0)%Z), andb_false_r in Es3, Er3 by lia.
    rewrite orb_false_r, timeout_decide in Er3.
    repeat split; try done.
    + rewrite Hc1i. f_equal. lra.
    + rewrite Er3. f_equal. repeat case_bool_decide; try done; lia.
  - intros ->.
    assert (Hni : i ∉ nonzero (Throw.reset_buf self)).
    { rewrite nonzero_elem. intros (r0 & Hr0 & Hne). congruence. }
    assert (Hp1i : Throw.progress_buf s1 !! i = Some (p + 1)%Z
                   ∧ Throw.contact_time s1 !! i
                     = Some (t + (if bool_decide (vnorm v < 0.2) then 1 else 0))).
    { assert (Hct' : ct !! i = Some (t + (if bool_decide (vnorm v < 0.2) then 1 else 0))).
      { rewrite Hct. f_equal. simpl. lra. }
      destruct (decide _).
      - destruct (throw_reset_idx_counters _ _ _ _ _ Hs1) as (Hp1 & _ & Hc1 & _).
        simpl in Hp1, Hc1.
        rewrite (index_fill_lookup_ne _ _ _ _ _ Hp1 Hni).
        rewrite (index_fill_lookup_ne _ _ _ _ _ Hc1 Hni).
        by rewrite list_lookup_fmap, Hp.
      - apply Ok_inj in Hs1. subst s1. simpl. by rewrite list_lookup_fmap, Hp. }
    destruct Hp1i as [Hp1i Hc1i].
    destruct (throw_compute_reward_frame _ _ _ Hs3) as (Ec3 & _).
    assert (Ep3 : Throw.progress_buf s3 = Throw.progress_buf s2).
    { unfold Throw.compute_reward in Hs3.
      apply bind_Ok in Hs3 as ([[? ?] ?] & _ & Hs3). inv_bind Hs3. by inv_Ok Hs3. }
    by rewrite Ep4, Ep3, Ep2, Ec4, Ec3, Ec2.
Qed.

Lemma throw_tick_per_environment_witness :
  ∃ self',
    Throw.post_physics_step throw_config (throw_tick (Vec3 0.216 0 1.05))
      (Throw.set_reset_buf [1%Z] (throw_state 0)) = Ok self' ∧
    Throw.progress_buf self' !! 0%nat = Some 0%Z ∧
    Throw.contact_time self' !! 0%nat = Some 0 ∧
    Throw.extras_success self' !! 0%nat = Some false ∧
    Throw.reset_buf self' !! 0%nat = Some 0%Z.
Proof.
  eexists. split; [vm_compute; reflexivity|].
  apply (proj1 (throw_tick_per_environment throw_config (throw_tick (Vec3 0.216 0 1.05))
                  (Throw.set_reset_buf [1%Z] (throw_state 0)) _ 0%nat 0%Z 1%Z 0
                  (Vec3 0.216 0 (-0.15)) (rigid_at (Vec3 0.216 0 1.05))
                  ltac:(vm_compute; reflexivity) eq_refl eq_refl eq_refl eq_refl eq_refl)).
  discriminate.
Defined.

(** ** The range of the rewards *)

(** The hyperbolic tangent of a non-negative number lies in [0, 1). *)
Lemma tanh_range (x : R) : 0 <= x → 0 <= tanh x < 1.
Proof.
  intros Hx. unfold tanh, sinh, cosh.
  pose proof (exp_pos x) as Ha. pose proof (exp_pos (- x)) as Hb.
  assert (Hle : exp (- x) <= exp x).
  { destruct (Req_dec x 0) as [->|Hne].
    - rewrite Ropp_0. lra.
    - left. apply exp_increasing. lra. }
  set (a := exp x) in *. set (b := exp (- x)) in *.
  replace ((a - b) / 2 / ((a + b) / 2)) with ((a - b) / (a + b)) by (field; lra).
  split.
  - apply Rmult_le_pos; [lra|]. left. apply Rinv_0_lt_compat. lra.
  - apply Rmult_lt_reg_r with (a + b); [lra|].
    unfold Rdiv. rewrite Rmult_assoc, Rinv_l by lra. lra.
Qed.

Lemma shaped_reward_range (scale d : R) :
  0 <= scale → 0 <= d → 0 <= scale * (1.0 - tanh (10.0 * d)) <= scale.
Proof.
  intros Hs Hd. pose proof (tanh_range (10.0 * d) ltac:(lra)). nra.
Qed.

Lemma broadcast2_Rplus_range (xs ys zs : list R) (a b : R) :
  Torch.broadcast2 Rplus xs ys = Ok zs →
  Forall (λ x, 0 <= x <= a) xs → Forall (λ y, 0 <= y <= b) ys →
  Forall (λ z, 0 <= z <= a + b) zs.
Proof.
  intros Hb Hx Hy. rewrite Forall_forall in Hx, Hy.
  eapply broadcast2_Forall; [exact Hb|]. intros x y Hxi Hyi.
  specialize (Hx x Hxi). specialize (Hy y Hyi). simpl in *. lra.
Qed.

Lemma push_reward_settings_scales cfg rp rc rs :
  dict_get (Push.reward_settings cfg) "r_pos_scale" = Ok rp →
  dict_get (Push.reward_settings cfg) "r_contact_scale" = Ok rc →
  dict_get (Push.reward_settings cfg) "r_success_scale" = Ok rs →
  rp = Push.posRewardScale cfg ∧ rc = Push.contactRewardScale cfg
  ∧ rs = Push.successRewardScale cfg.
Proof.
  intros H1 H2 H3.
  change (Ok (Push.posRewardScale cfg) = Ok rp) in H1.
  change (Ok (Push.contactRewardScale cfg) = Ok rc) in H2.
  change (Ok (Push.successRewardScale cfg) = Ok rs) in H3.
  apply Ok_inj in H1, H2, H3. done.
Qed.

(** X9.  With non-negative reward scales and episode length, every reward
    that [compute_reward] of the push task writes lies between 0 and
    [posRewardScale + contactRewardScale + successRewardScale *
    max_episode_length]. *)
Theorem push_reward_range `{JitUtils} (cfg : Push.Config) (self self' : Push.State) :
  0 <= Push.posRewardScale cfg → 0 <= Push.contactRewardScale cfg →
  0 <= Push.successRewardScale cfg → (0 <= Push.max_episode_length cfg)%Z →
  Push.compute_reward cfg self = Ok self' →
  Forall (λ r, 0 <= r <= Push.posRewardScale cfg + Push.contactRewardScale cfg
                          + Push.successRewardScale cfg
                            * IZR (Push.max_episode_length cfg))
         (Push.rew_buf self').
Proof.
  intros Hp Hc Hs HL Hr.
  unfold Push.compute_reward in Hr.
  apply bind_Ok in Hr as ([[rewards reset] success] & Hf & Hr).
  apply bind_Ok in Hr as (rew & Hrew & Hr).
  apply bind_Ok in Hr as (rst & Hrst & Hr). inv_Ok Hr. simpl.
  eapply assign_all_Forall; [exact Hrew|].
  unfold Push.compute_franka_reward in Hf.
  apply bind_Ok in Hf as (diff & Hdiff & Hf).
  apply bind_Ok in Hf as (nh & Hnh & Hf).
  apply bind_Ok in Hf as (rp & Hrp & Hf).
  apply bind_Ok in Hf as (rc & Hrc & Hf).
  apply bind_Ok in Hf as (partial & Hpartial & Hf).
  apply bind_Ok in Hf as (rs & Hrs & Hf).
  apply bind_Ok in Hf as (rw & Hrw & Hf).
  apply bind_Ok in Hf as (rb & Hterm & Hf). inv_Ok Hf.
  destruct (push_reward_settings_scales _ _ _ _ Hrp Hrc Hrs) as (-> & -> & ->).
  apply IZR_le in HL.
  eapply broadcast2_Rplus_range; [exact Hrw| |].
  - eapply broadcast2_Rplus_range; [exact Hpartial| |].
    + rewrite <- !list_fmap_compose. apply Forall_fmap, Forall_true. intros v. simpl.
      apply shaped_reward_range; [done|apply vnorm_nonneg].
    + rewrite <- !list_fmap_compose. apply Forall_fmap, Forall_true. intros v. simpl.
      apply shaped_reward_range; [done|apply vnorm_nonneg].
  - rewrite <- !list_fmap_compose. apply Forall_fmap, Forall_true. intros h. simpl.
    destruct (bool_decide _); nra.
Qed.

Lemma push_reward_range_witness :
  ∃ self',
    Push.compute_reward (H := hamilton) (push_config Push.pose3d 2 32)
      (push_state 32 (Vec3 0 0 1.05) (Vec3 0 0.25 1.05) 0) = Ok self' ∧
    Forall (λ r, 0 <= r <= 1 + 1 + 1 * 100) (Push.rew_buf self').
Proof.
  eexists. split; [vm_compute; reflexivity|].
  apply (push_reward_range (H := hamilton) (push_config Push.pose3d 2 32)
           (push_state 32 (Vec3 0 0 1.05) (Vec3 0 0.25 1.05) 0)).
  - simpl. lra.
  - simpl. lra.
  - simpl. lra.
  - simpl. lia.
  - vm_compute. reflexivity.
Defined.

Lemma throw_reward_settings_scales cfg rp rv rs :
  dict_get (Throw.reward_settings cfg) "r_pos_scale" = Ok rp →
  dict_get (Throw.reward_settings cfg) "r_vel_scale" = Ok rv →
  dict_get (Throw.reward_settings cfg) "r_success_scale" = Ok rs →
  rp = Throw.posRewardScale cfg ∧ rv = Throw.velRewardScale cfg
  ∧ rs = Throw.successRewardScale cfg.
Proof.
  intros H1 H2 H3.
  change (Ok (Throw.posRewardScale cfg) = Ok rp) in H1.
  change (Ok (Throw.velRewardScale cfg) = Ok rv) in H2.
  change (Ok (Throw.successRewardScale cfg) = Ok rs) in H3.
  apply Ok_inj in H1, H2, H3. done.
Qed.

Lemma dir_alignment_le_1 (cube_pos goal_pos cube_vel : list vec3) (out : list R) :
  Throw.dir_alignment cube_pos goal_pos cube_vel = Ok out → Forall (λ a, a <= 1) out.
Proof.
  unfold Throw.dir_alignment. intros Hd.
  apply bind_Ok in Hd as (gd & Hgd & Hd). apply bind_Ok in Hd as (prod & Hprod & Hd).
  inv_Ok Hd. apply Forall_fmap.
  eapply broadcast2_Forall; [exact Hprod|]. intros g v Hg Hv. simpl.
  apply list_elem_of_fmap in Hg as (g0 & -> & _).
  apply list_elem_of_fmap in Hv as (v0 & -> & _).
  apply (vdot_normalize_eps_le_1 1e-7 1e-7 g0 v0); lra.
Qed.

(** X10.  With non-negative reward scales, every reward that
    [compute_reward] of the throw task writes lies between 0 and
    [posRewardScale + 2 * velRewardScale + successRewardScale]: the
    distance term is at most [posRewardScale], the direction and the speed
    term at most [velRewardScale] each, the success bonus is
    [successRewardScale] or nothing. *)
Theorem throw_reward_range (cfg : Throw.Config) (self self' : Throw.State) :
  0 <= Throw.posRewardScale cfg → 0 <= Throw.velRewardScale cfg →
  0 <= Throw.successRewardScale cfg →
  Throw.compute_reward cfg self = Ok self' →
  Forall (λ r, 0 <= r <= Throw.posRewardScale cfg + 2 * Throw.velRewardScale cfg
                          + Throw.successRewardScale cfg)
         (Throw.rew_buf self').
Proof.
  intros Hp Hv Hs Hr.
  unfold Throw.compute_reward in Hr.
  apply bind_Ok in Hr as ([[rewards reset] success] & Hf & Hr).
  apply bind_Ok in Hr as (rew & Hrew & Hr).
  apply bind_Ok in Hr as (rst & Hrst & Hr). inv_Ok Hr. simpl.
  eapply assign_all_Forall; [exact Hrew|].
  unfold Throw.compute_franka_reward in Hf.
  apply bind_Ok in Hf as (diff & Hdiff & Hf).
  apply bind_Ok in Hf as (rp & Hrp & Hf).
  apply bind_Ok in Hf as (da & Hda & Hf).
  apply bind_Ok in Hf as (rv & Hrv & Hf).
  apply bind_Ok in Hf as (rv' & Hrv' & Hf).
  apply bind_Ok in Hf as (c12 & Hc12 & Hf).
  apply bind_Ok in Hf as (sc & Hsc & Hf).
  apply bind_Ok in Hf as (rs & Hrs & Hf).
  apply bind_Ok in Hf as (sr & Hsr & Hf).
  apply bind_Ok in Hf as (r1 & Hr1 & Hf).
  apply bind_Ok in Hf as (r2 & Hr2 & Hf).
  apply bind_Ok in Hf as (rw & Hrw & Hf).
  apply bind_Ok in Hf as (rb & Hterm & Hf). inv_Ok Hf.
  destruct (throw_reward_settings_scales _ _ _ _ Hrp Hrv Hrs) as (-> & -> & ->).
  destruct (throw_reward_settings_scales _ _ _ _ Hrp Hrv' Hrs) as (_ & -> & _).
  replace (Throw.posRewardScale cfg + 2 * Throw.velRewardScale cfg
           + Throw.successRewardScale cfg)
    with (Throw.posRewardScale cfg + Throw.velRewardScale cfg
          + Throw.velRewardScale cfg + Throw.successRewardScale cfg) by lra.
  eapply broadcast2_Rplus_range; [exact Hrw| |].
  - eapply broadcast2_Rplus_range; [exact Hr2| |].
    + eapply broadcast2_Rplus_range; [exact Hr1| |].
      * rewrite <- !list_fmap_compose. apply Forall_fmap, Forall_true. intros v. simpl.
        apply shaped_reward_range; [done|apply vnorm_nonneg].
      * apply Forall_fmap. eapply Forall_impl; [by eapply dir_alignment_le_1|].
        intros a Ha. simpl.
        pose proof (clamp_min_0_nonneg a). pose proof (clamp_min_0_le a 1 Ha ltac:(lra)).
        nra.
    + rewrite <- !list_fmap_compose. apply Forall_fmap, Forall_true. intros v. simpl.
      pose proof (vnorm_nonneg v).
      pose proof (tanh_range (0.5 * vnorm v) ltac:(lra)). nra.
  - eapply where_Forall; [exact Hsr| |].
    + apply Forall_singleton. lra.
    + apply Forall_fmap, Forall_true. intros x. simpl. lra.
Qed.

Lemma throw_reward_range_witness :
  ∃ self',
    Throw.compute_reward throw_config (throw_state 0) = Ok self' ∧
    Forall (λ r, 0 <= r <= 1 + 2 * 1 + 1) (Throw.rew_buf self').
Proof.
  eexists. split; [vm_compute; reflexivity|].
  apply (throw_reward_range throw_config (throw_state 0)).
  - simpl. lra.
  - simpl. lra.
  - simpl. lra.
  - vm_compute. reflexivity.
Defined.

(** ** The start of an episode of the throw task *)

Lemma throw_reset_init_rows cfg env_ids noise (self self' : Throw.State) (i : nat) :
  0 <= Throw.goal_cube_pos_noise cfg → unit_samples (rand_goal_xy noise) →
  Throw._reset_init_cube_state cfg env_ids noise self = Ok self' → i ∈ env_ids →
  ∃ (c g : RigidState) (h : R),
    Throw.cube_size (Throw.states self) !! i = Some h ∧
    Throw._init_cube_state self' !! i = Some c ∧
    Throw._goal_cube_state self' !! i = Some g ∧
    on_table_near (Throw._table_surface_pos cfg) 0.216 0 0 h c ∧
    on_table_near (Throw._table_surface_pos cfg) 2.0 0 (Throw.goal_cube_pos_noise cfg) h g.
Proof.
  intros Hng Hrg Hr Hi.
  unfold Throw._reset_init_cube_state in Hr.
  apply bind_Ok in Hr as (eef & _ & Hr).
  apply bind_Ok in Hr as (heights & Hh & Hr).
  apply bind_Ok in Hr as (init & Hinit & Hr).
  apply bind_Ok in Hr as (goal & Hgoal & Hr). inv_Ok Hr. simpl.
  destruct (index_select_lookup _ _ _ Hh) as [Hlh Hhk].
  rewrite index_put_zip_eq in Hinit by (by rewrite length_fmap).
  rewrite index_put_zip_eq in Hgoal by (by rewrite length_imap).
  eapply index_put_zip_lookup_elem in Hinit as (k & c & Hk & Hc & Hci);
    [|by rewrite length_fmap|exact Hi].
  eapply index_put_zip_lookup_elem in Hgoal as (k' & g & Hk' & Hg & Hgi);
    [|by rewrite length_imap|exact Hi].
  rewrite list_lookup_fmap in Hc. rewrite list_lookup_imap in Hg.
  destruct (heights !! k) as [h|] eqn:Hxk; [|done].
  destruct (heights !! k') as [h'|] eqn:Hxk'; [|done].
  simpl in Hc, Hg. inv_Ok Hc. inv_Ok Hg.
  rewrite (Hhk _ _ Hk) in Hxk. rewrite (Hhk _ _ Hk') in Hxk'.
  assert (h' = h) as -> by congruence.
  eexists _, _, h. split; [done|]. split; [exact Hci|]. split; [exact Hgi|].
  pose proof (Hrg k' 0%nat). pose proof (Hrg k' 1%nat).
  unfold on_table_near. simpl.
  repeat split; try (apply Rabs_le; split; nra); f_equal; lra.
Qed.

(** X11.  In the throw task, after [reset_idx] every environment of
    [env_ids] has its cube, in the tensor shared with the simulator, at
    the fixed point x = 0.216, y = 0, at rest and upright, its centre half
    the cube size above the height of the table surface: the horizontal
    position of the table, the pose of the gripper and the noise settings
    play no part.  Its goal state is on that height within
    [goal_cube_pos_noise] of the point (2, 0). *)
Theorem throw_reset_places_cube_at_fixed_point cfg env_ids noise
    (self self' : Throw.State) (i : nat) :
  0 <= Throw.goal_cube_pos_noise cfg → unit_samples (rand_goal_xy noise) →
  Throw.reset_idx cfg env_ids noise self = Ok self' → i ∈ env_ids →
  ∃ (c g : RigidState) (h : R),
    Throw.cube_size (Throw.states self) !! i = Some h ∧
    _cube_state (Throw.sim self') !! i = Some c ∧
    Throw._init_cube_state self' !! i = Some c ∧
    Throw._goal_cube_state self' !! i = Some g ∧
    rs_pos c = Vec3 0.216 0 (vz (Throw._table_surface_pos cfg) + h / 2) ∧
    rs_quat c = Quat 0 0 0 1 ∧ rs_lin_vel c = vzero ∧ rs_ang_vel c = vzero ∧
    on_table_near (Throw._table_surface_pos cfg) 2.0 0 (Throw.goal_cube_pos_noise cfg) h g.
Proof.
  intros Hng Hrg Hr Hi.
  unfold Throw.reset_idx in Hr.
  apply bind_Ok in Hr as (contact & Hcontact & Hr).
  apply bind_Ok in Hr as (s1 & Hs1 & Hr).
  apply bind_Ok in Hr as (init_rows & Hir & Hr).
  apply bind_Ok in Hr as (cube & Hcube & Hr).
  apply bind_Ok in Hr as (goal_rows & Hgr & Hr).
  apply bind_Ok in Hr as (goal & Hgoal & Hr).
  inv_bind Hr. inv_Ok Hr. simpl.
  destruct (throw_reset_init_rows _ _ _ _ _ i Hng Hrg Hs1 Hi)
    as (c & g & h & Hh & Hc & Hg & Hpc & Hpg).
  destruct (index_copy_lookup _ _ _ _ _ i Hir Hcube Hi) as [Ec _].
  destruct (index_copy_lookup _ _ _ _ _ i Hgr Hgoal Hi) as [Eg _].
  exists c, g, h. rewrite Ec, Eg.
  destruct Hpc as (Hcx & Hcy & Hcz & Hcq & Hcl & Hca).
  assert (rs_pos c = Vec3 0.216 0 (vz (Throw._table_surface_pos cfg) + h / 2)) as Hpos.
  { destruct c as [[px py pz] pq pl pa]. simpl in *.
    unfold Rabs in Hcx, Hcy. repeat destruct (Rcase_abs _); f_equal; lra. }
  done.
Qed.

Lemma throw_reset_places_cube_at_fixed_point_witness :
  ∃ self',
    Throw.reset_idx throw_config [0%nat] no_noise (throw_batch 2) = Ok self' ∧
    ∃ (c g : RigidState) (h : R),
      Throw.cube_size (Throw.states (throw_batch 2)) !! 0%nat = Some h ∧
      _cube_state (Throw.sim self') !! 0%nat = Some c ∧
      Throw._init_cube_state self' !! 0%nat = Some c ∧
      Throw._goal_cube_state self' !! 0%nat = Some g ∧
      rs_pos c = Vec3 0.216 0 (1.025 + h / 2) ∧
      rs_quat c = Quat 0 0 0 1 ∧ rs_lin_vel c = vzero ∧ rs_ang_vel c = vzero ∧
      on_table_near (Vec3 1 0 1.025) 2.0 0 0.1 h g.
Proof.
  eexists. split; [vm_compute; reflexivity|].
  apply (throw_reset_places_cube_at_fixed_point throw_config [0%nat] no_noise
           (throw_batch 2)).
  - simpl. lra.
  - apply unit_samples_no_noise.
  - vm_compute. reflexivity.
  - apply list_elem_of_singleton. reflexivity.
Defined.

(** ** The actions of the throw task *)

Lemma inplace2_lookup_inv {A B} (f : A → B → result A) (xs : list A) (ys : list B)
    (out : list A) (i : nat) (x : A) (a : A) :
  Torch.inplace2 f xs ys = Ok out → xs !! i = Some x → out !! i = Some a →
  ∃ y, f x y = Ok a ∧ (ys !! i = Some y ∨ ys = [y]).
Proof.
  unfold Torch.inplace2. intros Hi Hx Ha. inv_bind Hi.
  destruct (decide (length x1 = length xs)) as [Hlen|]; [|done]. inv_Ok Hi.
  pose proof (collect_lookup _ _ _ _ Hx1 Ha) as Hrow.
  destruct (broadcast2_lookup_inv _ _ _ _ _ _ Hx0 Hrow) as (x' & y & Hf & Hx' & Hy).
  exists y. split; [|done].
  destruct Hx' as [Hx'|Hx']; [by simplify_eq|].
  subst xs. destruct i; [simpl in Hx; by simplify_eq|done].
Qed.

(** X12.  In the throw task under joint-velocity control, the first three
    action columns command joints 1, 3 and 5 only: after
    [pre_physics_step] the integral error of these joints has grown by
    the action times the effort limit of the joint, divided by
    [action_scale], minus the measured joint velocity; the integral error
    of joints 0, 2, 4 and 6 has grown by zero minus their measured
    velocity, so that these joints are regulated to rest. *)
Theorem throw_action_drives_three_joints (cfg : Throw.Config)
    (actions : list (list R)) (self self' : Throw.State) (i : nat)
    (a0 a1 a2 g q0 q1 q2 q3 q4 q5 q6 e0 e1 e2 e3 e4 e5 e6 l0 l1 l2 l3 l4 l5 l6 : R)
    (qrest lrest : list R) :
  Throw.control_type cfg = Throw.jvel →
  Throw.pre_physics_step cfg actions self = Ok self' →
  (i < Throw.num_envs cfg)%nat →
  actions !! i = Some [a0; a1; a2; g] →
  _qd (Throw.sim self) !! i = Some (q0 :: q1 :: q2 :: q3 :: q4 :: q5 :: q6 :: qrest) →
  Throw.vel_i_error self !! i = Some [e0; e1; e2; e3; e4; e5; e6] →
  Throw.effort_limits cfg = l0 :: l1 :: l2 :: l3 :: l4 :: l5 :: l6 :: lrest →
  let s := Throw.action_scale cfg in
  Throw.vel_i_error self' !! i
  = Some [e0 + (0 - q0); e1 + (a0 * l1 / s - q1); e2 + (0 - q2);
          e3 + (a1 * l3 / s - q3); e4 + (0 - q4); e5 + (a2 * l5 / s - q5);
          e6 + (0 - q6)].
Proof.
  intros Hct Hp Hi Ha Hq He Hl s.
  unfold Throw.pre_physics_step in Hp. cbv zeta in Hp. rewrite Hct, Hl in Hp.
  apply bind_Ok in Hp as (rows & Hrows & Hp).
  apply bind_Ok in Hp as (jc & Hjc & Hp).
  apply bind_Ok in Hp as (scaled & Hscaled & Hp).
  apply bind_Ok in Hp as ([s1 u] & Hj & Hp).
  apply bind_Ok in Hp as (eff & Heff & Hp).
  apply bind_Ok in Hp as (fing & Hfing & Hp).
  apply bind_Ok in Hp as (pos & Hpos & Hp). inv_Ok Hp. simpl.
  (* the joint command of environment [i] *)
  eapply broadcast2_lookup in Hrows;
    [| by rewrite list_lookup_fmap, Ha | by apply lookup_replicate_2].
  destruct (collect_lookup_fwd _ _ _ _ Hjc Hrows) as (jc_i & Hjc_i & Hjci).
  vm_compute in Hjc_i. apply Ok_inj in Hjc_i. subst jc_i.
  assert (Hsc : ((λ c, Torch.broadcast2 Rmult c [l0; l1; l2; l3; l4; l5; l6]) <$> jc) !! i
                = Some (Ok [0 * l0; a0 * l1; 0 * l2; a1 * l3; 0 * l4; a2 * l5; 0 * l6])).
  { rewrite list_lookup_fmap, Hjci. done. }
  destruct (collect_lookup_fwd _ _ _ _ Hscaled Hsc) as (sc_i & Hsc_i & Hsci).
  apply Ok_inj in Hsc_i. subst sc_i.
  (* the velocity controller *)
  unfold Throw._compute_jvel_torques in Hj.
  apply bind_Ok in Hj as (erows & Herows & Hj).
  apply bind_Ok in Hj as (verr & Hverr & Hj).
  apply bind_Ok in Hj as (acc & Hacc & Hj).
  apply bind_Ok in Hj as (u1 & Hu1 & Hj).
  apply bind_Ok in Hj as (u2 & Hu2 & Hj). inv_Ok Hj. simpl in *.
  eapply broadcast2_lookup in Herows;
    [| by rewrite list_lookup_fmap, Hsci | by rewrite list_lookup_fmap, Hq].
  destruct (collect_lookup_fwd _ _ _ _ Hverr Herows) as (ve & Hve & Hvei).
  vm_compute in Hve. apply Ok_inj in Hve. subst ve.
  destruct (inplace2_lookup _ _ _ _ _ _ _ Hacc He Hvei) as (acc_i & Hacc_i & Hacci).
  vm_compute in Hacc_i. apply Ok_inj in Hacc_i. subst acc_i.
  rewrite Hacci. reflexivity.
Qed.

Lemma throw_action_drives_three_joints_witness :
  ∃ self',
    Throw.pre_physics_step throw_config [[1; 0.5; -1; 0]] (throw_state 2) = Ok self' ∧
    Throw.vel_i_error self' !! 0%nat
    = Some [2 + (0 - 0); 2 + (1 * 87 / 1 - 0); 2 + (0 - 0); 2 + (0.5 * 87 / 1 - 0);
            2 + (0 - 0); 2 + (-1 * 12 / 1 - 0); 2 + (0 - 0)].
Proof.
  eexists. split; [vm_compute; reflexivity|].
  apply (throw_action_drives_three_joints throw_config [[1; 0.5; -1; 0]] (throw_state 2)
           _ 0%nat 1 0.5 (-1) 0 0 0 0 0 0 0 0 2 2 2 2 2 2 2 87 87 87 87 12 12 12
           [0; 0] [200; 200]).
  - reflexivity.
  - vm_compute. reflexivity.
  - simpl. lia.
  - reflexivity.
  - reflexivity.
  - reflexivity.
  - reflexivity.
Defined.

(** X13.  In the throw task the last action column opens or closes the
    gripper by its sign alone: after [pre_physics_step] the position
    targets of the two finger joints are their upper limits when the
    entry is non-negative and their lower limits otherwise, and the
    position targets of the seven arm joints are untouched. *)
Theorem throw_gripper_is_binary (cfg : Throw.Config) (actions : list (list R))
    (self self' : Throw.State) (i : nat) (a : list R) (g : R) (row : list R) :
  Throw.pre_physics_step cfg actions self = Ok self' →
  actions !! i = Some (a ++ [g]) →
  Throw._pos_control self !! i = Some row →
  length (Throw.franka_dof_upper_limits cfg) = 9%nat →
  length (Throw.franka_dof_lower_limits cfg) = 9%nat →
  Throw._pos_control self' !! i
  = Some (take 7 row
          ++ (if bool_decide (g >= 0) then drop 7 (Throw.franka_dof_upper_limits cfg)
              else drop 7 (Throw.franka_dof_lower_limits cfg))
          ++ drop 9 row).
Proof.
  intros Hp Ha Hrow Hu Hl.
  unfold Throw.pre_physics_step in Hp. cbv zeta in Hp.
  apply bind_Ok in Hp as (rows & Hrows & Hp).
  apply bind_Ok in Hp as (jc & Hjc & Hp).
  apply bind_Ok in Hp as (scaled & Hscaled & Hp).
  destruct (Throw.control_type cfg); [done|].
  apply bind_Ok in Hp as ([s1 u] & Hj & Hp).
  apply bind_Ok in Hp as (eff & Heff & Hp).
  apply bind_Ok in Hp as (fing & Hfing & Hp).
  apply bind_Ok in Hp as (pos & Hpos & Hp). inv_Ok Hp. simpl.
  assert (Hs1 : Throw._pos_control s1 = Throw._pos_control self
                ∧ Throw._effort_control s1 = Throw._effort_control self).
  { unfold Throw._compute_jvel_torques in Hj. inv_bind Hj. by inv_Ok Hj. }
  destruct Hs1 as [Hpc Hec]. rewrite Hpc in Hpos. rewrite Hec in Heff.
  assert (Hf : ((λ g0 : list R,
                    match g0, drop (length (Throw.franka_dof_upper_limits cfg) - 2)
                                (Throw.franka_dof_upper_limits cfg),
                          drop (length (Throw.franka_dof_lower_limits cfg) - 2)
                               (Throw.franka_dof_lower_limits cfg) with
                    | [g1], [u1; u2], [l1; l2] =>
                        Ok (if bool_decide (g1 >= 0.0) then [u1; u2] else [l1; l2])
                    | _, _, _ => Err IndexError
                    end) <$> ((λ a0 : list R, drop (length a0 - 1) a0) <$> actions)) !! i
                  = Some (match [g], drop 7 (Throw.franka_dof_upper_limits cfg),
                                drop 7 (Throw.franka_dof_lower_limits cfg) with
                          | [g1], [u1; u2], [l1; l2] =>
                              Ok (if bool_decide (g1 >= 0.0) then [u1; u2] else [l1; l2])
                          | _, _, _ => Err IndexError
                          end)).
    { rewrite !list_lookup_fmap, Ha, Hu, Hl. simpl.
      rewrite length_app. simpl.
      replace (length a + 1 - 1)%nat with (length a) by lia.
      rewrite drop_app_length. done. }
    destruct (collect_lookup_fwd _ _ _ _ Hfing Hf) as (f & Hfi & Hfingi).
    destruct (inplace2_lookup _ _ _ _ _ _ _ Hpos Hrow Hfingi) as (r' & Hr' & Hposi).
    apply Ok_inj in Hr'. subst r'. rewrite Hposi. do 2 f_equal.
    destruct (drop 7 (Throw.franka_dof_upper_limits cfg)) as [|u1 [|u2 [|? ?]]]; try done.
    destruct (drop 7 (Throw.franka_dof_lower_limits cfg)) as [|l1 [|l2 [|? ?]]]; try done.
    apply Ok_inj in Hfi. subst f. replace 0.0 with 0 by lra. by destruct (bool_decide _).
Qed.

Lemma throw_gripper_is_binary_witness :
  ∃ self',
    Throw.pre_physics_step throw_config [[1; 0.5; -1; -0.3]] (throw_state 2) = Ok self' ∧
    Throw._pos_control self' !! 0%nat
    = Some (take 7 (replicate 9 0)
            ++ (if bool_decide (-0.3 >= 0) then drop 7 (replicate 9 3)
                else drop 7 (replicate 9 (-3)))
            ++ drop 9 (replicate 9 0)).
Proof.
  eexists. split; [vm_compute; reflexivity|].
  apply (throw_gripper_is_binary throw_config [[1; 0.5; -1; -0.3]] (throw_state 2)
           _ 0%nat [1; 0.5; -1] (-0.3) (replicate 9 0)).
  - vm_compute. reflexivity.
  - reflexivity.
  - reflexivity.
  - reflexivity.
  - reflexivity.
Defined.

(** ** The observation vector *)

Lemma norm_list_3 (a b c : R) : Push.norm_list [a; b; c] = vnorm (Vec3 a b c).
Proof. unfold Push.norm_list, vnorm. simpl. f_equal. ring. Qed.

Lemma cat1_lookup {A} (a b ab : list (list A)) (i : nat) (x y : list A) :
  cat1 a b = Ok ab → a !! i = Some x → b !! i = Some y → ab !! i = Some (x ++ y).
Proof.
  unfold cat1. intros Hc Ha Hb. destruct (decide _); [|done]. inv_Ok Hc.
  by rewrite lookup_zip_with, Ha, Hb.
Qed.

Lemma cat1_lookup_inv {A} (a b ab : list (list A)) (i : nat) (z : list A) :
  cat1 a b = Ok ab → ab !! i = Some z →
  ∃ x y, a !! i = Some x ∧ b !! i = Some y ∧ z = x ++ y.
Proof.
  unfold cat1. intros Hc Hz. destruct (decide _); [|done]. inv_Ok Hc.
  apply lookup_zip_with_Some in Hz as (x & y & -> & Hx & Hy). eauto.
Qed.

Ltac split_cat i :=
  repeat match goal with
         | Hcat : cat1 _ _ = Ok ?ab, Hl : ?ab !! i = Some _ |- _ =>
             let x := fresh "x" in let y := fresh "y" in
             let Hx := fresh "Hx" in let Hy := fresh "Hy" in
             destruct (cat1_lookup_inv _ _ _ _ _ Hcat Hl) as (x & y & Hx & Hy & ->);
             clear Hcat
         end.

Ltac fmap_rows :=
  repeat match goal with
         | Hl : _ <$> (?l !! ?i) = Some _ |- _ =>
             destruct (l !! i) eqn:?; simpl in Hl; [apply (inj Some) in Hl; subst|done]
         | Hl : _ <$> Some _ = Some _ |- _ => simpl in Hl; apply (inj Some) in Hl; subst
         end.

(** [batch_reward_fn] reads an observation row of the layout that
    [compute_observations] writes. *)

(** X14.  [batch_reward_fn] of the throw task reads the observation vector
    in the layout in which [compute_observations] writes it: on the
    observations of the current state, its reward for an environment is
    [posRewardScale * (1 - tanh (10 d)) + contactRewardScale *
    (1 - tanh (10 |cube - eef|)) + successRewardScale * success *
    max_episode_length], with [d] the distance of the cube to the goal
    position and success when [d < 0.05]; with or without privileged
    information appended. *)
Theorem throw_batch_reward_reads_observation (cfg : Throw.Config)
    (include_priv_info : bool) (priv_info_buf : list (list R)) (self : Throw.State)
    (obs : list (list R)) (i : nat) (row : list R) (c e : vec3) (g : RigidState) :
  Throw.obs_buf include_priv_info priv_info_buf self = Ok obs →
  obs !! i = Some row →
  Throw.cube_pos (Throw.states self) !! i = Some c →
  Throw.eef_pos (Throw.states self) !! i = Some e →
  Throw._goal_cube_state self !! i = Some g →
  let d := vnorm (vsub (rs_pos g) c) in
  ∀ out, Throw.batch_reward_fn cfg [obs] = Ok out →
    ∃ rewards, out = [rewards] ∧
      rewards !! i
      = Some (Throw.posRewardScale cfg * (1 - tanh (10 * d))
              + Throw.contactRewardScale cfg * (1 - tanh (10 * vnorm (vsub c e)))
              + Throw.successRewardScale cfg
                * ((if bool_decide (d < 0.05) then 1 else 0)
                   * IZR (Throw.max_episode_length cfg))).
Proof.
  intros Ho Hrow Hc He Hg d out Hout.
  unfold Throw.batch_reward_fn in Hout. simpl in Hout.
  apply bind_Ok in Hout as (rewards & Hrew & Hout). apply Ok_inj in Hout. subst out.
  exists rewards. split; [done|].
  assert (Hri : (Throw.batch_reward_row cfg <$> obs) !! i
                = Some (Throw.batch_reward_row cfg row))
    by (by rewrite list_lookup_fmap, Hrow).
  destruct (collect_lookup_fwd _ _ _ _ Hrew Hri) as (r & Hr & ->).
  f_equal. apply Ok_inj. rewrite <- Hr. clear Hr Hri Hrew r rewards.
  unfold Throw.obs_buf in Ho.
  apply bind_Ok in Ho as (diff & Hdiff & Ho).
  assert (Hd : diff !! i = Some (vsub (rs_pos g) c)).
  { eapply broadcast2_lookup; [exact Hdiff| |exact Hc]. by rewrite list_lookup_fmap, Hg. }
  assert (Hshape : ∃ q eq v rest,
            row = row3 c ++ row4 q ++ row3 e ++ row4 eq ++ row3 v
                  ++ row3 (vsub (rs_pos g) c) ++ rest).
  { destruct include_priv_info; simpl in Ho; inv_bind Ho; apply Ok_inj in Ho; subst obs.
    - split_cat i. rewrite !list_lookup_fmap in *.
      rewrite Hc in *. rewrite He in *. rewrite Hd in *. fmap_rows.
      eexists _, _, _, _. rewrite <- !app_assoc. reflexivity.
    - split_cat i. rewrite !list_lookup_fmap in *.
      rewrite Hc in *. rewrite He in *. rewrite Hd in *. fmap_rows.
      eexists _, _, _, []. rewrite <- !app_assoc, app_nil_r. reflexivity. }
  destruct Hshape as (q & eq & v & rest & ->).
  unfold Throw.batch_reward_row. simpl.
  rewrite !norm_list_3.
  change (dict_get (Throw.reward_settings cfg) "r_pos_scale")
    with (Ok (Throw.posRewardScale cfg)).
  change (dict_get (Throw.reward_settings cfg) "r_contact_scale")
    with (Ok (Throw.contactRewardScale cfg)).
  change (dict_get (Throw.reward_settings cfg) "r_success_scale")
    with (Ok (Throw.successRewardScale cfg)).
  simpl. unfold d, vsub. simpl. do 2 f_equal.
  all: try (replace 10.0 with 10 by lra; replace 1.0 with 1 by lra; reflexivity).
Qed.

Lemma throw_batch_reward_reads_observation_witness :
  ∃ obs out,
    Throw.obs_buf false [] (throw_state 0) = Ok obs ∧
    Throw.batch_reward_fn throw_config [obs] = Ok out ∧
    ∃ rewards, out = [rewards] ∧
      rewards !! 0%nat
      = Some (1 * (1 - tanh (10 * vnorm (vsub (Vec3 2 0 1.05) (Vec3 0.216 0 1.05))))
              + 1 * (1 - tanh (10 * vnorm (vsub (Vec3 0.216 0 1.05) (Vec3 0 0 1.3))))
              + 1 * ((if bool_decide
                           (vnorm (vsub (Vec3 2 0 1.05) (Vec3 0.216 0 1.05)) < 0.05)
                      then 1 else 0) * IZR 100)).
Proof.
  eexists _, _. split; [vm_compute; reflexivity|]. split; [vm_compute; reflexivity|].
  eapply (throw_batch_reward_reads_observation throw_config false [] (throw_state 0)
           _ 0%nat _ (Vec3 0.216 0 1.05) (Vec3 0 0 1.3) (rigid_at (Vec3 2 0 1.05))).
  - vm_compute. reflexivity.
  - reflexivity.
  - reflexivity.
  - reflexivity.
  - reflexivity.
  - vm_compute. reflexivity.
Defined.

Lemma cat1_widths {A} (a b ab : list (list A)) (n m : nat) :
  cat1 a b = Ok ab → Forall (λ r, length r = n) a → Forall (λ r, length r = m) b →
  Forall (λ r, length r = (n + m)%nat) ab.
Proof.
  intros Hc Ha Hb. apply Forall_lookup. intros i z Hz.
  destruct (cat1_lookup_inv _ _ _ _ _ Hc Hz) as (x & y & Hx & Hy & ->).
  rewrite length_app.
  rewrite Forall_lookup in Ha, Hb. by rewrite (Ha _ _ Hx), (Hb _ _ Hy).
Qed.

Lemma fmap_widths {A} (f : A → list R) (n : nat) (l : list A) :
  (∀ x, length (f x) = n) → Forall (λ r, length r = n) (f <$> l).
Proof. intros Hf. apply Forall_fmap, Forall_true. intros x. apply Hf. Qed.

(** X15.  The observation vector that [compute_observations] of the push
    task assembles has the width that [__init__] announces as
    [numObservations]: 3 columns under primitive control and 20
    otherwise, plus [privInfoDim] when privileged information is
    included and its buffer has that width. *)
Theorem push_observation_width (cfg : Push.Config) (include_priv_info : bool)
    (num_env_factors : nat) (priv_info_buf : list (list R)) (self : Push.State)
    (obs : list (list R)) :
  Forall (λ r, length r = num_env_factors) priv_info_buf →
  Push.obs_buf cfg include_priv_info priv_info_buf self = Ok obs →
  Forall (λ row, length row = Push.numObservations cfg include_priv_info num_env_factors)
         obs.
Proof.
  intros Hpriv Ho. unfold Push.obs_buf in Ho.
  apply bind_Ok in Ho as (diff & _ & Ho). unfold Push.numObservations.
  pose proof (fmap_widths row3 3 (Push.cube_pos (Push.states self)) (λ _, eq_refl)) as W1.
  pose proof (fmap_widths row4 4 (Push.cube_quat (Push.states self)) (λ _, eq_refl)) as W2.
  pose proof (fmap_widths row3 3 (Push.eef_pos (Push.states self)) (λ _, eq_refl)) as W3.
  pose proof (fmap_widths row4 4 (Push.eef_quat (Push.states self)) (λ _, eq_refl)) as W4.
  pose proof (fmap_widths row3 3 (Push.cube_vel (Push.states self)) (λ _, eq_refl)) as W5.
  pose proof (fmap_widths row3 3 diff (λ _, eq_refl)) as W6.
  destruct (Push.control_input cfg), include_priv_info; simpl in Ho; inv_bind Ho;
    apply Ok_inj in Ho; subst obs;
    repeat match goal with
           | Hcat : cat1 ?a ?b = Ok ?ab, Ha : Forall _ ?a, Hb : Forall _ ?b |- _ =>
               pose proof (cat1_widths _ _ _ _ _ Hcat Ha Hb); clear Hcat
           end;
    simpl in *; done.
Qed.

Lemma push_observation_width_witness :
  ∃ obs,
    Push.obs_buf (push_config Push.pose3d 2 32) true [[0.5; 0.05; 1; 0; 0; 0; 0; 0; 0]]
      (push_state 32 vzero (Vec3 0 0.25 0) 0) = Ok obs ∧
    Forall (λ row, length row = 29%nat) obs.
Proof.
  eexists. split; [vm_compute; reflexivity|].
  apply (push_observation_width (push_config Push.pose3d 2 32) true 9
           [[0.5; 0.05; 1; 0; 0; 0; 0; 0; 0]] (push_state 32 vzero (Vec3 0 0.25 0) 0)).
  - repeat constructor.
  - vm_compute. reflexivity.
Defined.

(** ** The action path of the push task *)

Lemma sigmoid_range (x : R) : 0 < sigmoid x < 1.
Proof.
  unfold sigmoid. pose proof (exp_pos (- x)) as He.
  split.
  - apply Rdiv_lt_0_compat; lra.
  - apply Rmult_lt_reg_r with (1 + exp (- x)); [lra|].
    unfold Rdiv. rewrite Rmult_assoc, Rinv_l by lra. lra.
Qed.

(** The rows of the variable-impedance gains: six entries, each between
    the two ends of the impedance range. *)
Lemma gains_rows (cc : Push.ControlConfig) (cols kp : list (list R)) :
  Push.gains cc cols = Ok kp →
  length kp = length cols ∧
  Forall (λ row, length row = 6%nat) kp ∧
  (Push.kp_min cc <= Push.kp_max cc →
   Forall (Forall (λ k, Push.kp_min cc <= k <= Push.kp_max cc)) kp).
Proof.
  unfold Push.gains. intros Hg.
  pose proof (collect_length _ _ Hg) as Hl. rewrite length_fmap in Hl.
  split; [done|].
  assert (Hrow : ∀ row, row ∈ kp →
            length row = 6%nat ∧
            (Push.kp_min cc <= Push.kp_max cc →
             Forall (λ k, Push.kp_min cc <= k <= Push.kp_max cc) row)).
  { intros row Hin. apply list_elem_of_lookup in Hin as [i Hi].
    pose proof (collect_lookup _ _ _ _ Hg Hi) as Hr.
    rewrite list_lookup_fmap in Hr.
    destruct (cols !! i) as [c|]; [|done]. simpl in Hr. apply (inj Some) in Hr.
    apply bind_Ok in Hr as (m & Hm & Hr).
    split.
    - apply broadcast2_length_l in Hr; simpl; [done|lia].
    - intros Hle. eapply broadcast2_Forall; [exact Hr|]. intros lo y Hlo Hy. simpl.
      change (lo ∈ replicate 6 (Push.kp_min cc)) in Hlo.
      apply elem_of_replicate in Hlo as [-> _].
      assert (Hy' : 0 <= y <= Push.kp_max cc - Push.kp_min cc).
      { revert y Hy. apply Forall_forall.
        eapply broadcast2_Forall; [exact Hm|]. intros d sg Hd Hsg. simpl.
        change (d ∈ replicate 6 (Push.kp_max cc - Push.kp_min cc)) in Hd.
        apply elem_of_replicate in Hd as [-> _].
        apply list_elem_of_fmap in Hsg as (x & -> & _).
        pose proof (sigmoid_range x). nra. }
      lra. }
  split.
  - apply Forall_forall. intros row Hin. by apply Hrow.
  - intros Hle. apply Forall_forall. intros row Hin. by apply Hrow.
Qed.

(** X16.  Two configurations in which [pre_physics_step] of the push task
    cannot complete.  Under joint-torque control, and under primitive
    control input, no branch assigns [u_arm] and the final write raises
    [UnboundLocalError].  Under operational-space control with input
    [pose2d] and variable impedance, while [self.kp] is the vector of six
    gains that [__init__] builds, the call raises on every action: the
    gains computed from the actions have six columns (or the computation
    fails) and cannot be written into the two leading entries of
    [self.kp]. *)
Theorem push_pre_physics_step_unusable `{JitUtils} `{TorchLinalg} `{AngleAxis} (cfg : Push.Config) (cc : Push.ControlConfig)
    (noise : nat → nat → R) (actions : list (list R)) (ctl : Push.Controller)
    (self : Push.State) :
  (Push.control_type cc = Push.joint_tor ∨ Push.control_input cfg = Push.primitive →
   Push.pre_physics_step cfg cc noise actions ctl self
   = Raises (UnboundLocalError "u_arm")) ∧
  (Push.control_type cc = Push.osc → Push.control_input cfg = Push.pose2d →
   Push.variable_imp cc = true →
   (∃ k, Push.ctl_kp ctl = Push.Vector k) →
   ∃ e, Push.pre_physics_step cfg cc noise actions ctl self = Raises e).
Proof.
  split.
  - intros [Hct|Hci]; unfold Push.pre_physics_step.
    + by rewrite Hct.
    + rewrite Hci. by destruct (Push.control_type cc).
  - intros Hct Hci Hvi [k Hk]. unfold Push.pre_physics_step.
    rewrite Hct, Hci, Hvi, Hk.
    destruct (Push.gains cc _) as [kp|e] eqn:Hg; cbn [bind lift]; [|eauto].
    destruct (gains_rows _ _ _ Hg) as (_ & Hw & _).
    assert (Hs : Push.set_kp_2 (Push.Vector k) kp = Err ShapeError).
    { unfold Push.set_kp_2. destruct kp as [|r [|? ?]]; try done.
      rewrite Forall_singleton in Hw.
      unfold assign_all. rewrite decide_False by (rewrite length_take; lia).
      by destruct r as [|? [|? ?]]. }
    rewrite Hs. cbn [bind lift]. eauto.
Qed.

Lemma push_pre_physics_step_unusable_witness :
  Push.pre_physics_step (H := hamilton) (H0 := involutive_inverse)
    (H1 := identity_angle_axis) (push_config Push.primitive 2 32)
    (push_control Push.osc) (λ _ _, 0) [[0.1; 0.2]] push_controller
    (push_state 32 vzero (Vec3 0 0.25 0) 0)
  = Raises (UnboundLocalError "u_arm") ∧
  ∃ e, Push.pre_physics_step (H := hamilton) (H0 := involutive_inverse)
         (H1 := identity_angle_axis) (push_config Push.pose2d 2 32)
         (push_control Push.osc) (λ _ _, 0) [[0.1; 0.2; 0; 0; 0; 0; 0; 0]]
         push_controller (push_state 32 vzero (Vec3 0 0.25 0) 0) = Raises e.
Proof.
  split.
  - apply (proj1 (push_pre_physics_step_unusable (H := hamilton)
                    (H0 := involutive_inverse) (H1 := identity_angle_axis)
                    (push_config Push.primitive 2 32) (push_control Push.osc)
                    (λ _ _, 0) [[0.1; 0.2]] push_controller
                    (push_state 32 vzero (Vec3 0 0.25 0) 0))).
    right. reflexivity.
  - apply (proj2 (push_pre_physics_step_unusable (H := hamilton)
                    (H0 := involutive_inverse) (H1 := identity_angle_axis)
                    (push_config Push.pose2d 2 32) (push_control Push.osc)
                    (λ _ _, 0) [[0.1; 0.2; 0; 0; 0; 0; 0; 0]] push_controller
                    (push_state 32 vzero (Vec3 0 0.25 0) 0))).
    + reflexivity.
    + reflexivity.
    + reflexivity.
    + eexists. reflexivity.
Defined.

(** X17.  The gains that [pre_physics_step] of the push task leaves in
    [self.kp].  Without variable impedance a call that returns leaves
    them as they were.  With variable impedance and input [pose3d] or
    [pose6d], after a call that returns there is one row of six gains per
    row of actions and every gain lies between the two ends of
    [impedanceRange]. *)
Theorem push_variable_impedance_range `{JitUtils} `{TorchLinalg} `{AngleAxis} (cfg : Push.Config) (cc : Push.ControlConfig)
    (noise : nat → nat → R) (actions : list (list R)) (ctl ctl' : Push.Controller)
    (self self' : Push.State) :
  Push.kp_min cc <= Push.kp_max cc →
  Push.pre_physics_step cfg cc noise actions ctl self = Returns (ctl', self') →
  (Push.variable_imp cc = false → Push.ctl_kp ctl' = Push.ctl_kp ctl) ∧
  (Push.variable_imp cc = true → Push.control_input cfg ≠ Push.pose2d →
   ∃ m, Push.ctl_kp ctl' = Push.Matrix m ∧ length m = length actions ∧
        Forall (λ row, length row = 6%nat) m ∧
        Forall (Forall (λ k, Push.kp_min cc <= k <= Push.kp_max cc)) m).
Proof.
  intros Hle Hp. unfold Push.pre_physics_step in Hp.
  destruct (Push.control_type cc); [|done].
  destruct (Push.control_input cfg) eqn:Hci; [| | |done].
  all: match type of Hp with
       | context [lift ?m] => destruct m as [[[a c] u]|e] eqn:Hm; cbn [lift] in Hp; [|done]
       end.
  all: destruct (Torch.inplace2 _ _ u) as [eff|e]; [|done].
  all: injection Hp as <- <-.
  all: apply bind_Ok in Hm as (kp & Hkp & Hm).
  all: inv_bind Hm; apply Ok_inj in Hm; injection Hm as <- <- <-; simpl.
  all: split; [intros Hvi; rewrite Hvi in Hkp; by apply Ok_inj in Hkp|].
  all: intros Hvi Hne; try done; rewrite Hvi in Hkp.
  all: apply bind_Ok in Hkp as (g & Hg & Hkp); apply Ok_inj in Hkp; subst kp.
  all: destruct (gains_rows _ _ _ Hg) as (Hl & Hw & Hr).
  all: exists g; split; [done|]; split; [|split; [done|by apply Hr]].
  all: rewrite Hl, length_fmap; unfold Push.with_noise.
  all: destruct (Push.add_action_noise cc); [by rewrite length_imap|done].
Qed.

Lemma push_variable_impedance_range_witness :
  ∃ ctl' self',
    Push.pre_physics_step (H := hamilton) (H0 := involutive_inverse)
      (H1 := identity_angle_axis) (push_config Push.pose3d 2 32)
      (push_control Push.osc) (λ _ _, 0) [[0.1; 0.2; 0; 1; 2; 3; -1; -2; -3]]
      push_controller (push_state 32 vzero (Vec3 0 0.25 0) 0)
    = Returns (ctl', self') ∧
    (Push.variable_imp (push_control Push.osc) = false →
     Push.ctl_kp ctl' = Push.ctl_kp push_controller) ∧
    (Push.variable_imp (push_control Push.osc) = true →
     Push.control_input (push_config Push.pose3d 2 32) ≠ Push.pose2d →
     ∃ m, Push.ctl_kp ctl' = Push.Matrix m ∧
          length m = length [[0.1; 0.2; 0; 1; 2; 3; -1; -2; -3]] ∧
          Forall (λ row, length row = 6%nat) m ∧
          Forall (Forall (λ k, 10 <= k <= 300)) m).
Proof.
  eexists _, _. split; [reflexivity|].
  eapply (push_variable_impedance_range (H := hamilton) (H0 := involutive_inverse)
           (H1 := identity_angle_axis) (push_config Push.pose3d 2 32)
           (push_control Push.osc) (λ _ _, 0) [[0.1; 0.2; 0; 1; 2; 3; -1; -2; -3]]
           push_controller _ (push_state 32 vzero (Vec3 0 0.25 0) 0)).
  - simpl. lra.
  - reflexivity.
Defined.

Lemma assign_all_length {A} (t v t' : list A) :
  assign_all t v = Ok t' → length t' = length t.
Proof.
  unfold assign_all. intros Ha.
  destruct (decide (length v = length t)) as [Hl|_].
  - apply Ok_inj in Ha. by subst t'.
  - destruct v as [|x [|? ?]]; try done. apply Ok_inj in Ha. subst t'.
    by rewrite length_replicate.
Qed.

Lemma assign_cols_frame (n : nat) (row v row' : list R) :
  assign_cols 0 n row v = Ok row' → length row' = length row ∧ drop n row' = drop n row.
Proof.
  unfold assign_cols. intros Ha. apply bind_Ok in Ha as (mid & Hmid & Ha).
  apply Ok_inj in Ha. subst row'. apply assign_all_length in Hmid.
  rewrite Nat.sub_0_r, drop_0, length_take in Hmid. simpl.
  split.
  - rewrite length_app, length_drop. lia.
  - destruct (decide (n <= length row)%nat) as [Hn|Hn].
    + rewrite drop_app_length' by lia. done.
    + rewrite drop_app_ge by lia. rewrite !drop_ge; [done|lia|rewrite length_drop; lia].
Qed.

(** X18.  A call of [pre_physics_step] of the push task that returns
    writes the effort command of the seven arm joints and nothing else
    of what is sent to the simulator: the position targets and the
    simulator tensors are unchanged, every row of the effort buffer keeps
    its length and its columns from 7 on (the gripper).  The desired
    orientation is set at the first call, to the quaternion (1, 0, 0, 0)
    for every environment, and is kept by every later call. *)
Theorem push_pre_physics_step_writes_arm_only `{JitUtils} `{TorchLinalg} `{AngleAxis} (cfg : Push.Config)
    (cc : Push.ControlConfig) (noise : nat → nat → R) (actions : list (list R))
    (ctl ctl' : Push.Controller) (self self' : Push.State) :
  Push.pre_physics_step cfg cc noise actions ctl self = Returns (ctl', self') →
  Push._pos_control self' = Push._pos_control self ∧
  Push.sim self' = Push.sim self ∧
  length (Push._effort_control self') = length (Push._effort_control self) ∧
  (∀ (i : nat) (row row' : list R),
     Push._effort_control self !! i = Some row →
     Push._effort_control self' !! i = Some row' →
     length row' = length row ∧ drop 7 row' = drop 7 row) ∧
  (∀ q, Push.quat_desired ctl = Some q → Push.quat_desired ctl' = Some q) ∧
  (Push.quat_desired ctl = None →
   Push.quat_desired ctl'
   = Some ((λ _, Quat 1 0 0 0) <$> Push.eef_quat (Push.states self))).
Proof.
  intros Hp. unfold Push.pre_physics_step in Hp.
  destruct (Push.control_type cc); [|done].
  destruct (Push.control_input cfg) eqn:Hci; [| | |done].
  all: match type of Hp with
       | context [lift ?m] => destruct m as [[[a c] u]|e] eqn:Hm; cbn [lift] in Hp; [|done]
       end.
  all: destruct (Torch.inplace2 _ _ u) as [eff|e] eqn:Heff; [|done].
  all: injection Hp as <- <-.
  all: apply bind_Ok in Hm as (kp & Hkp & Hm).
  all: inv_bind Hm; apply Ok_inj in Hm; injection Hm as <- <- <-; simpl.
  all: split; [done|]; split; [done|].
  all: split;
    [unfold Torch.inplace2 in Heff; inv_bind Heff;
     by destruct (decide _) as [Hl|]; [apply Ok_inj in Heff; subst eff|]|].
  all: split;
    [intros i row row' Hrow Hrow';
     destruct (inplace2_lookup_inv _ _ _ _ _ _ _ Heff Hrow Hrow') as (y & Hy & _);
     by apply assign_cols_frame in Hy|].
  all: split; [by intros q ->|by intros ->].
Qed.

Lemma push_pre_physics_step_writes_arm_only_witness :
  ∃ ctl' self',
    Push.pre_physics_step (H := hamilton) (H0 := involutive_inverse)
      (H1 := identity_angle_axis) (push_config Push.pose6d 2 32)
      (push_control Push.osc) (λ _ _, 0)
      [[0.1; 0.2; 0; 0; 0; 0.3; 1; 2; 3; -1; -2; -3]]
      push_controller (push_state 32 vzero (Vec3 0 0.25 0) 0)
    = Returns (ctl', self') ∧
    Push._pos_control self' = Push._pos_control (push_state 32 vzero (Vec3 0 0.25 0) 0) ∧
    Push.sim self' = Push.sim (push_state 32 vzero (Vec3 0 0.25 0) 0) ∧
    length (Push._effort_control self')
    = length (Push._effort_control (push_state 32 vzero (Vec3 0 0.25 0) 0)) ∧
    (∀ (i : nat) (row row' : list R),
       Push._effort_control (push_state 32 vzero (Vec3 0 0.25 0) 0) !! i = Some row →
       Push._effort_control self' !! i = Some row' →
       length row' = length row ∧ drop 7 row' = drop 7 row) ∧
    (∀ q, Push.quat_desired push_controller = Some q →
          Push.quat_desired ctl' = Some q) ∧
    (Push.quat_desired push_controller = None →
     Push.quat_desired ctl'
     = Some ((λ _, Quat 1 0 0 0)
             <$> Push.eef_quat (Push.states (push_state 32 vzero (Vec3 0 0.25 0) 0)))).
Proof.
  eexists _, _. split; [reflexivity|].
  apply (push_pre_physics_step_writes_arm_only (H := hamilton)
           (H0 := involutive_inverse) (H1 := identity_angle_axis)
           (push_config Push.pose6d 2 32) (push_control Push.osc) (λ _ _, 0)
           [[0.1; 0.2; 0; 0; 0; 0.3; 1; 2; 3; -1; -2; -3]]
           push_controller _ (push_state 32 vzero (Vec3 0 0.25 0) 0)).
  reflexivity.
Defined.

(** ** The action path of the slide task *)

Lemma collect_Err {A} (rows : list (result A)) (e : error) (i : nat) :
  rows !! i = Some (Err e) → ∃ e', Torch.collect rows = Err e'.
Proof.
  revert i. induction rows as [|r rows IH]; intros i Hi; [done|].
  simpl. destruct r as [a|e0]; simpl; [|eauto].
  destruct i; [done|]. simpl in Hi. destruct (IH _ Hi) as [e' ->]. simpl. eauto.
Qed.

Lemma broadcast2_Err_lengths {A B C} (f : A → B → C) (xs : list A) (ys : list B) :
  length xs ≠ length ys → length xs ≠ 1%nat → length ys ≠ 1%nat →
  Torch.broadcast2 f xs ys = Err ShapeError.
Proof.
  intros Hne Hx Hy. unfold Torch.broadcast2. rewrite decide_False by done.
  destruct xs as [|x0 [|x1 xs]]; [|done|]; by destruct ys as [|y0 [|y1 ys]].
Qed.

Lemma broadcast2_head {A B C} (f : A → B → C) (x : A) (xs : list A) (y : B)
    (ys : list B) (zs : list C) :
  Torch.broadcast2 f (x :: xs) (y :: ys) = Ok zs → zs !! 0%nat = Some (f x y).
Proof. intros Hb. by eapply broadcast2_lookup. Qed.

(** With a gain vector of fifteen entries the operational-space controller
    of the slide task cannot multiply the six end-effector velocities. *)
Lemma slide_osc_env_fails `{TorchLinalg} (ctl : Slide.Control) (e : OscEnv) (dpose : list R) :
  length (osc_eef_vel e) = 6%nat → ∃ err, osc_env (Slide.osc_self ctl) e dpose = Err err.
Proof.
  intros He. unfold osc_env, osc_unclamped.
  destruct (torch_inverse (osc_mm e)) as [mm_inv|e1]; cbn [bind]; [|eauto].
  destruct (torch_inverse _) as [m_eef|e2]; cbn [bind]; [|eauto].
  destruct (Torch.broadcast2 Rmult (kp _) dpose) as [k|e3]; cbn [bind]; [|eauto].
  rewrite (broadcast2_Err_lengths Rmult (kd _) (osc_eef_vel e)); cbn [bind]; [eauto|..];
    rewrite ?He; simpl; lia.
Qed.

Lemma slide_osc_fails `{TorchLinalg} (ctl : Slide.Control) (envs : list OscEnv) (dpose : list (list R)) :
  envs ≠ [] → dpose ≠ [] → Forall (λ e, length (osc_eef_vel e) = 6%nat) envs →
  ∃ err, _compute_osc_torques (Slide.osc_self ctl) envs dpose = Err err.
Proof.
  intros He Hd Hv. unfold _compute_osc_torques.
  destruct envs as [|e envs]; [done|]. destruct dpose as [|d dpose]; [done|].
  destruct (Torch.broadcast2 _ _ _) as [rows|err] eqn:Hb; simpl; [|eauto].
  apply broadcast2_head in Hb.
  destruct (slide_osc_env_fails ctl e d) as [err Herr]; [by inversion Hv|].
  rewrite Herr in Hb. by eapply collect_Err.
Qed.

(** X19.  [pre_physics_step] of the slide task raises in every
    configuration, on actions of the width that [__init__] announces as
    [numActions], for at least one environment.  Under operational-space
    control the fifteen gains of [self.kp] cannot be multiplied with the
    six columns of [dpose] (input [pose3d]), or [dpose] was never
    assigned (input [pose6d]); under joint-torque control three action
    columns cannot be written into the seven arm columns ([pose3d]), or
    six action columns cannot be scaled by seven effort limits
    ([pose6d]). *)
Theorem slide_pre_physics_step_never_returns `{TorchLinalg} (ctl : Slide.Control) (num_envs : nat)
    (envs : list OscEnv) (actions effort_control : list (list R)) :
  (0 < num_envs)%nat →
  length envs = num_envs → length actions = num_envs →
  length effort_control = num_envs →
  Forall (λ e, length (osc_eef_vel e) = 6%nat) envs →
  Forall (λ a, length a = Slide.numActions ctl) actions →
  Forall (λ row, (7 <= length row)%nat) effort_control →
  (7 <= length (Slide.effort_limits ctl))%nat →
  ∃ e, Slide.pre_physics_step ctl num_envs envs actions effort_control = Raises e.
Proof.
  intros Hn Hle Hla Hlc Hv Ha Hc Hl.
  assert (Hen : envs ≠ []) by (intros ->; simpl in Hle; lia).
  unfold Slide.pre_physics_step.
  match goal with
  | |- context [match ?b with Ok _ => _ | Err _ => _ end] =>
      destruct b as [[u_arm dpose]|e] eqn:Hb; [|eauto]
  end.
  destruct (Slide.control_input ctl) eqn:Hci, (Slide.control_type ctl) eqn:Hct.
  - (* pose3d, osc *)
    apply bind_Ok in Hb as (u & Hu & Hb).
    apply bind_Ok in Hb as (d1 & Hd1 & Hb).
    apply bind_Ok in Hb as (d2 & Hd2 & Hb). inv_Ok Hb.
    assert (Hd2l : d2 ≠ []).
    { apply collect_length in Hd2. rewrite length_fmap in Hd2.
      unfold Torch.inplace2 in Hd1. inv_bind Hd1.
      destruct (decide _) as [E|]; [|done]. inv_Ok Hd1.
      rewrite length_replicate in E. intros ->. simpl in Hd2. lia. }
    destruct (slide_osc_fails ctl envs d2) as [err ->]; [done..|simpl; eauto].
  - (* pose3d, joint_tor *)
    apply bind_Ok in Hb as (u & Hu & Hb).
    apply bind_Ok in Hb as (d1 & Hd1 & Hb).
    apply bind_Ok in Hb as (d2 & Hd2 & Hb). inv_Ok Hb.
    destruct actions as [|a actions]; [simpl in Hla; lia|].
    destruct effort_control as [|row effort_control]; [simpl in Hlc; lia|].
    simpl in Hu. apply bind_Ok in Hu as (u0 & Hu0 & Hu).
    apply bind_Ok in Hu as (us & Hus & Hu). inv_Ok Hu.
    assert (Hu0l : length u0 = 3%nat).
    { apply broadcast2_length_l in Hu0; rewrite length_take in *.
      - rewrite Hu0. inversion Ha; subst. unfold Slide.numActions in *.
        rewrite Hci in *. lia.
      - inversion Ha; subst. unfold Slide.numActions in *. rewrite Hci in *. lia. }
    simpl.
    match goal with
    | |- context [Torch.inplace2 ?f ?xs ?ys] =>
        destruct (Torch.inplace2 f xs ys) as [out|err] eqn:Hin; simpl; [|eauto]
    end.
    exfalso. unfold Torch.inplace2 in Hin.
    apply bind_Ok in Hin as (rows & Hrows & Hin).
    apply bind_Ok in Hin as (r & Hr & Hin).
    apply broadcast2_head in Hrows.
    destruct (collect_lookup_fwd _ _ _ _ Hr Hrows) as (a' & Hf & _).
    unfold assign_cols in Hf. apply bind_Ok in Hf as (mid & Hmid & _).
    unfold assign_all in Hmid. rewrite length_fmap, Hu0l in Hmid.
    inversion Hc; subst.
    rewrite decide_False in Hmid by (rewrite length_take, length_drop; lia).
    destruct u0 as [|? [|? ?]]; simpl in *; try done; lia.
  - (* pose6d, osc *)
    inv_bind Hb. inv_Ok Hb. simpl. eauto.
  - (* pose6d, joint_tor *)
    exfalso. apply bind_Ok in Hb as (u & Hu & Hb).
    destruct actions as [|a actions]; [simpl in Hla; lia|].
    simpl in Hu. apply bind_Ok in Hu as (u0 & Hu0 & _).
    rewrite broadcast2_Err_lengths in Hu0; [done|..];
      unfold Slide.cmd_limit; rewrite ?Hct, ?length_take;
      inversion Ha; subst; unfold Slide.numActions in *; rewrite ?Hci in *; lia.
Qed.

Lemma slide_pre_physics_step_never_returns_witness :
  ∃ e, Slide.pre_physics_step (H := involutive_inverse) slide_control 1
         [example_osc_env] [[0.1; 0; 0]] [replicate 9 0] = Raises e.
Proof.
  apply (slide_pre_physics_step_never_returns (H := involutive_inverse) slide_control 1
           [example_osc_env] [[0.1; 0; 0]] [replicate 9 0]).
  - lia.
  - reflexivity.
  - reflexivity.
  - reflexivity.
  - repeat constructor.
  - repeat constructor.
  - repeat constructor; simpl; lia.
  - simpl. lia.
Defined.
